(** * tsickle: the annotation transformer, the externs generator and their
    comment helpers, embedded in Rocq.

    Sources embedded here:
    - [src/src/transformer_util.ts]: synthesizeCommentRanges, debugWarn,
      createSingleLineComment, createMultiLineComment;
    - [src/unnamed/part_000], the module imported elsewhere as
      [./jsdoc_transformer]: isAmbient, maybeAddTemplateClause,
      maybeAddHeritageClauses, createMemberTypeDeclaration,
      isValidClosurePropertyName, propertyName, escapeForComment,
      createClosurePropertyDeclaration, visitInterfaceDeclaration,
      visitVariableStatement, visitTypeAliasDeclaration;
    - [src/unnamed/part_001], the externs generator: createExterns with its
      helpers and the module, import-equals, function and type alias cases
      of its visitor.

    The second part of the definitions embeds further functions of these
    files: getAllLeadingCommentRanges and
    createNotEmittedStatementWithComments of transformer_util.ts, and, of the
    externs generator, emitJSDocType, writeExternsVariableDecl,
    writeExternsEnum, writeExternsType and the remaining cases of the visitor.

    Line numbers in the comments are those of these files.

    JavaScript strings are modelled by [string]; one [ascii] stands for one
    UTF-16 code unit, so the model covers the code units below 256. *)

From Stdlib Require Import String Ascii List Bool ZArith Lia Arith DecimalString.
Import ListNotations.

Local Open Scope string_scope.
Local Open Scope bool_scope.

(** ** JavaScript string primitives used by the sources *)
Module JS.

(** [s.replace(/ab/g, rep)] for a literal two-character pattern [ab]:
    scan from the left, replace a match and resume after it. *)
Fixpoint replaceAll2 (a b : ascii) (rep : string) (s : string) : string :=
  match s with
  | EmptyString => EmptyString
  | String c s' =>
      match s' with
      | String d s'' =>
          if (Ascii.eqb c a && Ascii.eqb d b)
          then rep ++ replaceAll2 a b rep s''
          else String c (replaceAll2 a b rep s')
      | EmptyString => String c EmptyString
      end
  end.

(** [s.replace(/a/, rep)] without the [g] flag: only the first match. *)
Fixpoint replaceFirstChar (a : ascii) (rep : string) (s : string) : string :=
  match s with
  | EmptyString => EmptyString
  | String c s' =>
      if Ascii.eqb c a then rep ++ s' else String c (replaceFirstChar a rep s')
  end.

(** [s.replace(/[class]/g, rep)] for a one-character class [p]. *)
Fixpoint replaceAllClass (p : ascii -> bool) (rep : string) (s : string) : string :=
  match s with
  | EmptyString => EmptyString
  | String c s' =>
      if p c then rep ++ replaceAllClass p rep s'
      else String c (replaceAllClass p rep s')
  end.

(** [s.startsWith(p)] *)
Fixpoint startsWith (p s : string) : bool :=
  match p with
  | EmptyString => true
  | String a p' =>
      match s with
      | String b s' => Ascii.eqb a b && startsWith p' s'
      | EmptyString => false
      end
  end.

(** [s.substring(n)] for [n] within the string. *)
Fixpoint drop (n : nat) (s : string) : string :=
  match n, s with
  | O, _ => s
  | S n', String _ s' => drop n' s'
  | S _, EmptyString => EmptyString
  end.

(** The string read backwards. *)
Fixpoint rev (s : string) : string :=
  match s with
  | EmptyString => EmptyString
  | String c s' => rev s' ++ String c EmptyString
  end.

(** [s.endsWith(p)] *)
Definition endsWith (p s : string) : bool := startsWith (rev p) (rev s).

(** [s.replace(/^p/, '')]: drop the literal [p] when the string starts with it. *)
Definition stripPrefix (p s : string) : string :=
  if startsWith p s then drop (String.length p) s else s.

(** [s.replace(/p$/, '')]: drop the literal [p] when the string ends with it. *)
Definition stripSuffix (p s : string) : string :=
  if endsWith p s then rev (drop (String.length p) (rev s)) else s.

(** White space in the sense of [String.prototype.trim], among the code
    units the model covers: TAB, LF, VT, FF, CR, SP and NBSP. *)
Definition isWhiteSpace (c : ascii) : bool :=
  let n := nat_of_ascii c in
  (Nat.leb 9 n && Nat.leb n 13) || Nat.eqb n 32 || Nat.eqb n 160.

(** [s.trimStart()] *)
Fixpoint trimStart (s : string) : string :=
  match s with
  | EmptyString => EmptyString
  | String c s' => if isWhiteSpace c then trimStart s' else s
  end.

(** [s.trim()] *)
Definition trim (s : string) : string := rev (trimStart (rev (trimStart s))).

(** [s.substring(pos, end)]: both indices are clamped to the string and
    swapped when [pos > end]. *)
Definition substring (pos fin : Z) (s : string) : string :=
  let len := Z.of_nat (String.length s) in
  let a := Z.min (Z.max pos 0) len in
  let b := Z.min (Z.max fin 0) len in
  String.substring (Z.to_nat (Z.min a b)) (Z.to_nat (Z.max a b - Z.min a b)) s.

(** [a.join(sep)] *)
Definition join (sep : string) (l : list string) : string := String.concat sep l.

(** [s] contains [pat] as a substring. *)
Definition includes (pat s : string) : Prop :=
  exists pre post, s = pre ++ pat ++ post.

(** Two adjacent characters [x], [y] somewhere in [s]. *)
Fixpoint adjacent (x y : ascii) (s : string) : Prop :=
  match s with
  | EmptyString => False
  | String c s' =>
      match s' with
      | EmptyString => False
      | String d _ => (c = x /\ d = y) \/ adjacent x y s'
      end
  end.

End JS.

(** ** [escapeForComment] (jsdoc_transformer.ts)

<<
export function escapeForComment(str: string): string {
  return str.replace(/\/\*/g, '__').replace(/\*\//g, '__');
}
>> *)
Definition escapeForComment (str : string) : string :=
  JS.replaceAll2 "*" "/" "__" (JS.replaceAll2 "/" "*" "__" str).


(** ** The TypeScript API as the sources consume it

    The compiler API ([./typescript]) is an external library.  The enum
    constants the sources test bits against are parameters of the
    development; the classes below list those that are used. *)
Module ts.

(** [ts.SyntaxKind]: the kinds the embedded sources compare against. *)
Inductive SyntaxKind :=
| SingleLineCommentTrivia | MultiLineCommentTrivia
| Identifier | StringLiteral | NumericLiteral | ComputedPropertyName
| ObjectBindingPattern | ArrayBindingPattern
| ExtendsKeyword | ImplementsKeyword | ExportKeyword
| ClassDeclaration | ClassExpression | InterfaceDeclaration
| Constructor | PropertyDeclaration | PropertySignature
| MethodDeclaration | MethodSignature | GetAccessor | SetAccessor
| IndexSignature | CallSignature | ConstructSignature
| ParameterDecl | FunctionDeclaration | VariableStatement | VariableDeclaration
| TypeAliasDeclaration | EnumDeclaration | ModuleDeclaration | ModuleBlock
| ImportEqualsDeclaration | ExpressionWithTypeArguments | OtherKind.

Definition SyntaxKind_eqb (a b : SyntaxKind) : bool :=
  match a, b with
  | SingleLineCommentTrivia, SingleLineCommentTrivia
  | MultiLineCommentTrivia, MultiLineCommentTrivia
  | Identifier, Identifier | StringLiteral, StringLiteral
  | NumericLiteral, NumericLiteral | ComputedPropertyName, ComputedPropertyName
  | ObjectBindingPattern, ObjectBindingPattern
  | ArrayBindingPattern, ArrayBindingPattern
  | ExtendsKeyword, ExtendsKeyword | ImplementsKeyword, ImplementsKeyword
  | ExportKeyword, ExportKeyword
  | ClassDeclaration, ClassDeclaration | ClassExpression, ClassExpression
  | InterfaceDeclaration, InterfaceDeclaration
  | Constructor, Constructor | PropertyDeclaration, PropertyDeclaration
  | PropertySignature, PropertySignature
  | MethodDeclaration, MethodDeclaration | MethodSignature, MethodSignature
  | GetAccessor, GetAccessor | SetAccessor, SetAccessor
  | IndexSignature, IndexSignature | CallSignature, CallSignature
  | ConstructSignature, ConstructSignature
  | ParameterDecl, ParameterDecl | FunctionDeclaration, FunctionDeclaration
  | VariableStatement, VariableStatement | VariableDeclaration, VariableDeclaration
  | TypeAliasDeclaration, TypeAliasDeclaration | EnumDeclaration, EnumDeclaration
  | ModuleDeclaration, ModuleDeclaration | ModuleBlock, ModuleBlock
  | ImportEqualsDeclaration, ImportEqualsDeclaration
  | ExpressionWithTypeArguments, ExpressionWithTypeArguments
  | OtherKind, OtherKind => true
  | _, _ => false
  end.

(** [ts.SyntaxKind[kind]]: the name of the enum member. *)
Definition SyntaxKindName (k : SyntaxKind) : string :=
  match k with
  | SingleLineCommentTrivia => "SingleLineCommentTrivia"
  | MultiLineCommentTrivia => "MultiLineCommentTrivia"
  | Identifier => "Identifier" | StringLiteral => "StringLiteral"
  | NumericLiteral => "NumericLiteral" | ComputedPropertyName => "ComputedPropertyName"
  | ObjectBindingPattern => "ObjectBindingPattern"
  | ArrayBindingPattern => "ArrayBindingPattern"
  | ExtendsKeyword => "ExtendsKeyword" | ImplementsKeyword => "ImplementsKeyword"
  | ExportKeyword => "ExportKeyword"
  | ClassDeclaration => "ClassDeclaration" | ClassExpression => "ClassExpression"
  | InterfaceDeclaration => "InterfaceDeclaration"
  | Constructor => "Constructor" | PropertyDeclaration => "PropertyDeclaration"
  | PropertySignature => "PropertySignature"
  | MethodDeclaration => "MethodDeclaration" | MethodSignature => "MethodSignature"
  | GetAccessor => "GetAccessor" | SetAccessor => "SetAccessor"
  | IndexSignature => "IndexSignature" | CallSignature => "CallSignature"
  | ConstructSignature => "ConstructSignature"
  | ParameterDecl => "Parameter" | FunctionDeclaration => "FunctionDeclaration"
  | VariableStatement => "VariableStatement" | VariableDeclaration => "VariableDeclaration"
  | TypeAliasDeclaration => "TypeAliasDeclaration" | EnumDeclaration => "EnumDeclaration"
  | ModuleDeclaration => "ModuleDeclaration" | ModuleBlock => "ModuleBlock"
  | ImportEqualsDeclaration => "ImportEqualsDeclaration"
  | ExpressionWithTypeArguments => "ExpressionWithTypeArguments"
  | OtherKind => "Unknown"
  end.

(** [ts.ModuleKind] *)
Inductive ModuleKind := MK_None | CommonJS | AMD | UMD | System | ES2015 | ESNext.

Definition ModuleKind_eqb (a b : ModuleKind) : bool :=
  match a, b with
  | MK_None, MK_None | CommonJS, CommonJS | AMD, AMD | UMD, UMD
  | System, System | ES2015, ES2015 | ESNext, ESNext => true
  | _, _ => false
  end.

(** [ts.DiagnosticCategory] *)
Inductive DiagnosticCategory := Warning | Error | Message.

(** The bits of [ts.SymbolFlags] the sources test. *)
Class SymbolFlags := {
  SymbolFlags_Class : Z;
  SymbolFlags_TypeAlias : Z;
  SymbolFlags_Alias : Z;
  SymbolFlags_Value : Z
}.

(** The bits of [ts.ModifierFlags] the sources test. *)
Class ModifierFlags := {
  ModifierFlags_Export : Z;
  ModifierFlags_Ambient : Z;
  ModifierFlags_Public : Z;
  ModifierFlags_Private : Z;
  ModifierFlags_Protected : Z;
  ModifierFlags_Static : Z;
  ModifierFlags_Readonly : Z;
  ModifierFlags_Abstract : Z
}.

(** [flags & mask] read as a condition: a number is truthy when it is not 0. *)
Definition testFlags (flags mask : Z) : bool := negb (Z.eqb (Z.land flags mask) 0).

(** A node of the input tree, with what the sources read of any node:
    its identity, [kind], combined modifier flags, [getText()],
    [getStart()], [getEnd()], the name of its source file and its [parent]. *)
#[warnings="-register-all"]
Inductive Node := mkNode {
  node_id : nat;
  kind : SyntaxKind;
  modifierFlags : Z;
  getText : string;
  getStart : Z;
  getEnd : Z;
  getSourceFile : string;
  parent : option Node
}.

(** An identifier or a property name: its node and its text
    ([getIdentifierText] for an identifier, [.text] for a string literal). *)
Record Name := mkName {
  name_node : Node;
  name_text : string
}.

(** [getIdentifierText] of [./rewriter]. *)
Definition getIdentifierText (n : Name) : string := name_text n.

(** Any declaration with an optional name and an optional question token:
    a property declaration or signature, a parameter, a method, an accessor. *)
Record NamedDeclaration := mkNamedDeclaration {
  nd_node : Node;
  nd_name : option Name;
  questionToken : bool
}.

(** [ts.FunctionLikeDeclaration]: a function, method, accessor or
    constructor with its parameters. *)
Record FunctionLikeDeclaration := mkFunctionLikeDeclaration {
  fn_node : Node;
  fn_name : option Name;
  fn_parameters : list NamedDeclaration
}.

(** A declaration of a symbol, as listed in [sym.declarations]: its node,
    its name and, for a function-like declaration, its parameters. *)
Definition Declaration := FunctionLikeDeclaration.

(** [a === b] on nodes: nodes are objects, compared by identity; distinct
    nodes carry distinct [node_id]s. *)
Definition sameNode (a b : Node) : bool := Nat.eqb (node_id a) (node_id b).

(** [ts.Symbol]: its flags, name and declarations. *)
Record Symbol := mkSymbol {
  flags : Z;
  symbol_name : string;
  declarations : option (list Declaration)
}.

(** [ts.Type]: the sources only read [type.symbol]. *)
Record Type_ := mkType { type_symbol : option Symbol }.

(** [ts.TypeChecker]: the three queries of the heritage translation. *)
Record TypeChecker := mkTypeChecker {
  getSymbolAtLocation : Node -> option Symbol;
  getDeclaredTypeOfSymbol : Symbol -> Type_;
  getAliasedSymbol : Symbol -> Symbol
}.

(** [ts.CommentRange] *)
Record CommentRange := mkCommentRange {
  cr_kind : SyntaxKind;
  cr_pos : Z;
  cr_end : Z;
  cr_hasTrailingNewLine : option bool
}.

(** [ts.SynthesizedComment] *)
Record SynthesizedComment := mkSynthesizedComment {
  sc_kind : SyntaxKind;
  sc_text : string;
  sc_hasTrailingNewLine : option bool;
  sc_pos : Z;
  sc_end : Z
}.

(** [ts.SourceFile]: its name and text. *)
Record SourceFile := mkSourceFile {
  fileName : string;
  sf_text : string
}.

(** [ts.Diagnostic] *)
Record Diagnostic := mkDiagnostic {
  diag_file : string;
  diag_start : Z;
  diag_length : Z;
  messageText : string;
  category : DiagnosticCategory;
  code : Z
}.

End ts.


(** ** Tags and comments ([./jsdoc])

    The comment serializer is outside the sources: a comment built by
    [jsdoc.toSynthesizedComment(tags, escapeExtraTags)] is kept as its
    arguments. *)
Module jsdoc.

(** [jsdoc.Tag] *)
Record Tag := mkTag {
  tagName : string;
  parameterName : option string;
  type : option string;
  text : option string;
  optional : bool;
  restParam : bool
}.

(** [{tagName}] *)
Definition tag (name : string) : Tag := mkTag name None None None false false.

(** [{tagName, type}] *)
Definition typedTag (name ty : string) : Tag := mkTag name None (Some ty) None false false.

(** [{tagName, text}] *)
Definition textTag (name txt : string) : Tag := mkTag name None None (Some txt) false false.

(** The optional set of tag names handed to the serializer; the only set
    the sources pass is [jsdoc.TAGS_CONFLICTING_WITH_TYPE]. *)
Inductive EscapeExtraTags := NoExtraTags | TAGS_CONFLICTING_WITH_TYPE.

(** A synthesized comment: one serialized from tags, or one with a given text. *)
Inductive Comment :=
| toSynthesizedComment (tags : list Tag) (escapeExtraTags : EscapeExtraTags)
| textComment (c : ts.SynthesizedComment).

(** The tags a comment was serialized from. *)
Definition tagsOf (c : Comment) : list Tag :=
  match c with
  | toSynthesizedComment tags _ => tags
  | textComment _ => []
  end.

Definition hasTagNamed (name : string) (tags : list Tag) : bool :=
  existsb (fun t => String.eqb (tagName t) name) tags.

End jsdoc.

(** ** The output tree: the nodes the transformer creates *)
Module out.

Inductive Expression :=
| Identifier (text : string)
| PropertyAccess (expression : Expression) (name : string)
| Assignment (left right : Expression)
| FunctionExpression (parameters : list string)
| FalseLiteral.

(** [ts.VariableDeclaration] as the variable handler reads it. *)
Inductive BindingName :=
| BindingIdentifier (text : string)
| BindingPattern (kind : ts.SyntaxKind).

Record VariableDeclaration := mkVariableDeclaration {
  vd_node : ts.Node;
  vd_name : BindingName;
  initializer : option ts.Node;
  getOriginalNode : ts.Node
}.

(** A statement with its synthetic leading and trailing comments and its
    source map range. *)
#[warnings="-register-all"]
Inductive Statement :=
| mkStatement (shape : StatementShape)
    (syntheticLeadingComments : option (list jsdoc.Comment))
    (syntheticTrailingComments : option (list jsdoc.Comment))
    (sourceMapRange : option ts.Node)
with StatementShape :=
| ExpressionStatement (expression : Expression)
| FunctionDeclaration (modifiers : option (list ts.SyntaxKind)) (name : string)
    (parameters : list string) (body : list Statement)
| IfStatement (expression : Expression) (thenStatement : list Statement)
| NotEmittedStatement (original : ts.Node)
| VariableStatement (modifiers : option (list ts.SyntaxKind))
    (declarations : list VariableDeclaration) (flags : Z).

(** A freshly created node: no comments, no source map range. *)
Definition create (shape : StatementShape) : Statement := mkStatement shape None None None.

Definition shapeOf (s : Statement) : StatementShape :=
  match s with mkStatement sh _ _ _ => sh end.

Definition getSyntheticLeadingComments (s : Statement) : option (list jsdoc.Comment) :=
  match s with mkStatement _ l _ _ => l end.

Definition getSyntheticTrailingComments (s : Statement) : option (list jsdoc.Comment) :=
  match s with mkStatement _ _ t _ => t end.

Definition setSyntheticLeadingComments (s : Statement) (c : list jsdoc.Comment) : Statement :=
  match s with mkStatement sh _ t r => mkStatement sh (Some c) t r end.

Definition setSyntheticTrailingComments (s : Statement) (c : list jsdoc.Comment) : Statement :=
  match s with mkStatement sh l _ r => mkStatement sh l (Some c) r end.

Definition setSourceMapRange (s : Statement) (range : ts.Node) : Statement :=
  match s with mkStatement sh l t _ => mkStatement sh l t (Some range) end.



(** All tags of the leading comments of a statement. *)
Definition leadingTags (s : Statement) : list jsdoc.Tag :=
  match getSyntheticLeadingComments s with
  | Some cs => flat_map jsdoc.tagsOf cs
  | None => []
  end.

End out.


(** ** Effects: the diagnostics list and the host's warning callback

    The sources append to a per-file diagnostics list and call the host's
    optional [logWarning] callback.  Both are threaded as state: [diagnostics]
    is the list, [logged] the sequence of diagnostics handed to [logWarning]. *)
Record State := mkState {
  diagnostics : list ts.Diagnostic;
  logged : list ts.Diagnostic
}.

Definition M (A : Type) : Type := State -> A * State.

Definition ret {A} (a : A) : M A := fun st => (a, st).

Definition bind {A B} (m : M A) (k : A -> M B) : M B :=
  fun st => let (a, st') := m st in k a st'.

Declare Scope m_scope.
Delimit Scope m_scope with M.
Notation "x <- m ;; k" := (bind m (fun x => k))
  (at level 61, m at next level, right associativity) : m_scope.
Notation "m ;;; k" := (bind m (fun _ => k))
  (at level 61, right associativity) : m_scope.
Local Open Scope m_scope.

(** A [for (const x of xs)] loop over an accumulator. *)
Fixpoint forEach {A S} (xs : list A) (acc : S) (body : S -> A -> M S) : M S :=
  match xs with
  | [] => ret acc
  | x :: xs' => acc' <- body acc x ;; forEach xs' acc' body
  end.

(** [xs.map(f)] for an effectful [f], evaluated left to right. *)
Fixpoint mapM {A B} (f : A -> M B) (xs : list A) : M (list B) :=
  match xs with
  | [] => ret []
  | x :: xs' => y <- f x ;; ys <- mapM f xs' ;; ret (y :: ys)
  end.

(** [AnnotatorHost]: [logWarning] tells whether the optional callback is
    provided, [untyped] is the flag of the same name. *)
Record AnnotatorHost := mkAnnotatorHost {
  logWarning : bool;
  untyped : bool
}.

(** ** transformer_util.ts *)
Module transformerUtil.

(** The callback of [parsedComments.forEach] in [synthesizeCommentRanges]:
<<
    let commentText = sourceFile.text.substring(pos, end).trim();
    if (kind === ts.SyntaxKind.MultiLineCommentTrivia) {
      commentText = commentText.replace(OPEN_OR_CLOSE, '');
    } else if (kind === ts.SyntaxKind.SingleLineCommentTrivia) {
      if (commentText.startsWith('///')) {
        return;
      }
      commentText = commentText.replace(LEADING_SLASHES, '');
    }
    synthesizedComments.push({kind, text: commentText, hasTrailingNewLine, pos: -1, end: -1});
>>
    [OPEN_OR_CLOSE] is the global pattern matching a comment opener at the
    start of the text or a comment closer at its end: the replace removes a
    leading opener and then, from what follows it, a trailing closer.
    [LEADING_SLASHES] matches two slashes at the start of the text. *)
Definition synthesizeCommentRange (sourceFile : ts.SourceFile)
    (synthesizedComments : list ts.SynthesizedComment) (c : ts.CommentRange)
    : list ts.SynthesizedComment :=
  let kind := ts.cr_kind c in
  let commentText := JS.trim (JS.substring (ts.cr_pos c) (ts.cr_end c) (ts.sf_text sourceFile)) in
  if ts.SyntaxKind_eqb kind ts.MultiLineCommentTrivia then
    let commentText := JS.stripSuffix "*/" (JS.stripPrefix "/*" commentText) in
    synthesizedComments ++
      [ts.mkSynthesizedComment kind commentText (ts.cr_hasTrailingNewLine c) (-1) (-1)]
  else if ts.SyntaxKind_eqb kind ts.SingleLineCommentTrivia then
    if JS.startsWith "///" commentText then synthesizedComments
    else
      let commentText := JS.stripPrefix "//" commentText in
      synthesizedComments ++
        [ts.mkSynthesizedComment kind commentText (ts.cr_hasTrailingNewLine c) (-1) (-1)]
  else
    synthesizedComments ++
      [ts.mkSynthesizedComment kind commentText (ts.cr_hasTrailingNewLine c) (-1) (-1)].

(** [synthesizeCommentRanges]: the callback run over the ranges in order,
    starting from the empty array. *)
Definition synthesizeCommentRanges (sourceFile : ts.SourceFile)
    (parsedComments : list ts.CommentRange) : list ts.SynthesizedComment :=
  fold_left (synthesizeCommentRange sourceFile) parsedComments [].


(** [createMultiLineComment(original, text)] *)
Definition createMultiLineComment (original : ts.Node) (text : string) : out.Statement :=
  let comment := ts.mkSynthesizedComment ts.MultiLineCommentTrivia
                   (" " ++ text) (Some true) (-1) (-1) in
  out.setSyntheticTrailingComments
    (out.create (out.NotEmittedStatement original)) [jsdoc.textComment comment].

(** [debugWarn(host, context, messageText)]:
<<
  if (!host.logWarning) return;
  const diagnostic: ts.Diagnostic = {...};
  host.logWarning(diagnostic);
>> *)
Definition debugWarn (host : AnnotatorHost) (context : ts.Node) (messageText : string)
    : M unit :=
  fun st =>
    if negb (logWarning host) then (tt, st)
    else
      let diagnostic :=
        ts.mkDiagnostic (ts.getSourceFile context) (ts.getStart context)
          (ts.getEnd context - ts.getStart context) messageText ts.Warning 0 in
      (tt, mkState (diagnostics st) (logged st ++ [diagnostic])).

End transformerUtil.


(** *** What [synthesizeCommentRanges] is expected to compute

    These three definitions follow the description of the function, not
    its code; the theorem below compares them with the code. *)

(** The text of a comment range in the file, trimmed. *)
Definition trimmedCommentText (sourceFile : ts.SourceFile) (c : ts.CommentRange) : string :=
  JS.trim (JS.substring (ts.cr_pos c) (ts.cr_end c) (ts.sf_text sourceFile)).

(** A single-line comment whose trimmed text starts with three slashes. *)
Definition isTripleSlash (sourceFile : ts.SourceFile) (c : ts.CommentRange) : bool :=
  ts.SyntaxKind_eqb (ts.cr_kind c) ts.SingleLineCommentTrivia &&
  JS.startsWith "///" (trimmedCommentText sourceFile c).

(** A comment text without the delimiters of its kind. *)
Definition stripDelimiters (kind : ts.SyntaxKind) (text : string) : string :=
  match kind with
  | ts.MultiLineCommentTrivia => JS.stripSuffix "*/" (JS.stripPrefix "/*" text)
  | ts.SingleLineCommentTrivia => JS.stripPrefix "//" text
  | _ => text
  end.

(** ** The input tree: the declarations the transformer reads *)
Module ast.

(** [ts.ExpressionWithTypeArguments]: a heritage type. *)
Record ExpressionWithTypeArguments := mkExpressionWithTypeArguments {
  ewta_node : ts.Node;
  expression : ts.Node
}.

(** [ts.HeritageClause] *)
Record HeritageClause := mkHeritageClause {
  token : ts.SyntaxKind;
  types : option (list ExpressionWithTypeArguments)
}.

(** A member of a class or interface; [parameters] are those of a
    constructor or method. *)
Record ClassElement := mkClassElement {
  member : ts.NamedDeclaration;
  parameters : list ts.NamedDeclaration
}.

(** A method or accessor member seen as a function-like declaration. *)
Definition asFunctionLike (m : ClassElement) : ts.FunctionLikeDeclaration :=
  ts.mkFunctionLikeDeclaration (ts.nd_node (member m)) (ts.nd_name (member m)) (parameters m).

(** [ts.TypeParameterDeclaration] *)
Record TypeParameter := mkTypeParameter { tp_name : ts.Name }.

(** [ts.ClassLikeDeclaration | ts.InterfaceDeclaration] *)
Record TypeDeclaration := mkTypeDeclaration {
  td_node : ts.Node;
  td_name : option ts.Name;
  typeParameters : option (list TypeParameter);
  heritageClauses : option (list HeritageClause);
  members : list ClassElement
}.

(** [ts.InterfaceDeclaration]: a type declaration whose name is present. *)
Record InterfaceDeclaration := mkInterfaceDeclaration {
  if_node : ts.Node;
  if_name : ts.Name;
  if_typeParameters : option (list TypeParameter);
  if_heritageClauses : option (list HeritageClause);
  if_members : list ClassElement
}.

(** An interface where a class or an interface is expected. *)
Definition asTypeDeclaration (i : InterfaceDeclaration) : TypeDeclaration :=
  mkTypeDeclaration (if_node i) (Some (if_name i)) (if_typeParameters i)
    (if_heritageClauses i) (if_members i).

(** [ts.VariableStatement]: [declarationList] with its combined node flags. *)
Record VariableStatement := mkVariableStatement {
  vs_node : ts.Node;
  vs_modifiers : option (list ts.SyntaxKind);
  vs_syntheticLeadingComments : option (list ts.SynthesizedComment);
  declarationList : list out.VariableDeclaration;
  getCombinedNodeFlags : Z
}.

(** [ts.TypeAliasDeclaration] *)
Record TypeAliasDeclaration := mkTypeAliasDeclaration {
  ta_node : ts.Node;
  ta_name : ts.Name;
  ta_typeParameters : option (list TypeParameter)
}.

(** [ts.CompilerOptions]: the [module] option. *)
Record CompilerOptions := mkCompilerOptions { module : option ts.ModuleKind }.

End ast.

(** ** The module type translator ([./module_type_translator])

    The translator is outside the sources.  Its queries are taken as given
    functions: they stand for what the translator answers at the call site.
    [typeToClosure node] is [typeToClosure(node)], [mtt_isBlackListed node]
    is [isBlackListed(node)], and [returnTypeToClosure fnDecl] is the
    rendering of the return type of the signature of [fnDecl]. *)
Record TypeTranslator := mkTypeTranslator {
  isBlackListed : ts.Symbol -> bool;
  symbolToString : ts.Symbol -> bool -> string
}.

Record ModuleTypeTranslator := mkModuleTypeTranslator {
  typeChecker : ts.TypeChecker;
  host : AnnotatorHost;
  newTypeTranslator : ts.Node -> TypeTranslator;
  typeToClosure : ts.Node -> string;
  mtt_isBlackListed : ts.Node -> bool;
  getJSDoc : ts.Node -> list jsdoc.Tag;
  returnTypeToClosure : ts.Node -> string;
  mustGetSymbolAtLocation : ts.Node -> ts.Symbol
}.

(** Modelled from the spec: [ModuleTypeTranslator.debugWarn], whose code is
    not in the sources; it "appends a non-actionable warning iff the host
    accepts warnings", which is what [debugWarn] of transformer_util.ts
    does with the translator's host. *)
Definition mtt_debugWarn (mtt : ModuleTypeTranslator) (context : ts.Node)
    (messageText : string) : M unit :=
  transformerUtil.debugWarn (host mtt) context messageText.

(** Modelled from the spec: [ModuleTypeTranslator.error], whose code is not
    in the sources; it "appends a fatal diagnostic" to the file's diagnostics. *)
Definition mtt_error (mtt : ModuleTypeTranslator) (context : ts.Node)
    (messageText : string) : M unit :=
  fun st =>
    let diagnostic :=
      ts.mkDiagnostic (ts.getSourceFile context) (ts.getStart context)
        (ts.getEnd context - ts.getStart context) messageText ts.Error 0 in
    (tt, mkState (diagnostics st ++ [diagnostic]) (logged st)).


(** The distinct strings of a list, in order of first occurrence. *)
Definition distinct (l : list string) : list string :=
  fold_left (fun acc x => if existsb (String.eqb x) acc then acc else (acc ++ [x])%list) l [].

(** Modelled from the spec: the rendering of a union of AT types by the
    type translator, whose code is not in the sources; as in the scenario
    of the overloaded function, [(number|string)]: the distinct types,
    parenthesised when there are several. *)
Definition unionType (types : list string) : string :=
  match distinct types with
  | [] => "?"
  | [t] => t
  | ts => "(" ++ JS.join "|" ts ++ ")"
  end.

(** Modelled from the spec: the name used for the [i]-th parameter, its
    identifier or, "for unnamed parameters", a synthesized name. *)
Definition parameterNameAt (i : nat) (p : ts.NamedDeclaration) : string :=
  match ts.nd_name p with
  | Some n => ts.getIdentifierText n
  | None => "__" ++ NilZero.string_of_uint (Nat.to_uint i)
  end.

Fixpoint parameterNamesFrom (i : nat) (ps : list ts.NamedDeclaration) : list string :=
  match ps with
  | [] => []
  | p :: ps' => parameterNameAt i p :: parameterNamesFrom (S i) ps'
  end.

(** The [i]-th parameters of the overloads that have one. *)
Definition parametersAt (i : nat) (fnDecls : list ts.FunctionLikeDeclaration)
    : list ts.NamedDeclaration :=
  flat_map (fun f => match nth_error (ts.fn_parameters f) i with
                     | Some p => [p]
                     | None => []
                     end) fnDecls.

(** Modelled from the spec: [ModuleTypeTranslator.getFunctionTypeJSDoc],
    whose code is not in the sources.  It "produces (tags, parameterNames)
    where tags describes a single composite signature: each parameter is the
    union of the respective parameter types across overloads (padded where
    arities differ), the return type is the union of all return types, and
    parameterNames is the first overload's parameter names".  A position
    that some overload lacks, or marks with a question token, is optional. *)
Definition getFunctionTypeJSDoc (mtt : ModuleTypeTranslator)
    (fnDecls : list ts.FunctionLikeDeclaration) (extraTags : list jsdoc.Tag)
    : list jsdoc.Tag * list string :=
  let parameterNames :=
    match fnDecls with
    | [] => []
    | first :: _ => parameterNamesFrom 0 (ts.fn_parameters first)
    end in
  let arity := list_max (map (fun f => List.length (ts.fn_parameters f)) fnDecls) in
  let paramTag (i : nat) : jsdoc.Tag :=
    let ps := parametersAt i fnDecls in
    jsdoc.mkTag "param"
      (match ps with p :: _ => Some (parameterNameAt i p) | [] => None end)
      (Some (unionType (map (fun p => typeToClosure mtt (ts.nd_node p)) ps)))
      None
      (Nat.ltb (List.length ps) (List.length fnDecls) || existsb ts.questionToken ps)
      false in
  let returnTag :=
    jsdoc.typedTag "return"
      (unionType (map (fun f => returnTypeToClosure mtt (ts.fn_node f)) fnDecls)) in
  ((extraTags ++ map paramTag (seq 0 arity) ++ [returnTag])%list, parameterNames).


(** ** jsdoc_transformer.ts *)
Module jsdoc_transformer.
Section Helpers.
Context {SF : ts.SymbolFlags} {MF : ts.ModifierFlags}.

(** [hasExportingDecorator] of [./decorators], outside the sources. *)
Variable hasExportingDecorator : ts.Node -> ts.TypeChecker -> bool.

(** [hasModifierFlag] of [./util]: a bit test on the combined modifier
    flags of the node. *)
Definition hasModifierFlag (node : ts.Node) (flag : Z) : bool :=
  ts.testFlags (ts.modifierFlags node) flag.

(** [addCommentOn(node, tags, escapeExtraTags)]; the model returns the
    node with the comment pushed on its synthetic leading comments. *)
Definition addCommentOn (node : out.Statement) (tags : list jsdoc.Tag)
    (escapeExtraTags : jsdoc.EscapeExtraTags) : out.Statement :=
  let comment := jsdoc.toSynthesizedComment tags escapeExtraTags in
  let comments :=
    match out.getSyntheticLeadingComments node with
    | Some cs => cs
    | None => []
    end in
  out.setSyntheticLeadingComments node (comments ++ [comment])%list.

(** [isAmbient(node)]: the node or one of its ancestors has the Ambient
    modifier flag. *)
Fixpoint isAmbient (node : ts.Node) : bool :=
  match node with
  | ts.mkNode _ _ modifierFlags _ _ _ _ parent =>
      if ts.testFlags modifierFlags ts.ModifierFlags_Ambient then true
      else match parent with
           | Some current => isAmbient current
           | None => false
           end
  end.


(** The body of the inner loop of [maybeAddHeritageClauses], for one
    heritage type [impl] of the clause [heritage] (lines 95-161):
    [continue] returns the tags unchanged. *)
Definition addHeritageType (mtt : ModuleTypeTranslator) (decl : ast.TypeDeclaration)
    (isClass classHasSuperClass : bool) (heritage : ast.HeritageClause)
    (docTags : list jsdoc.Tag) (impl : ast.ExpressionWithTypeArguments)
    : M (list jsdoc.Tag) :=
  let tagName :=
    if ts.SyntaxKind_eqb (ts.kind (ast.td_node decl)) ts.InterfaceDeclaration
    then "extends" else "implements" in
  match ts.getSymbolAtLocation (typeChecker mtt) (ast.expression impl) with
  | None =>
      mtt_debugWarn mtt (ast.td_node decl)
        ("could not resolve supertype: " ++ ts.getText (ast.ewta_node impl)) ;;;
      ret (docTags ++
             [jsdoc.textTag ""
                ("NOTE: tsickle could not resolve supertype, " ++
                 "class definition may be incomplete." ++ String "010" "")])%list
  | Some sym =>
      let resolved :=
        if ts.testFlags (ts.flags sym) ts.SymbolFlags_TypeAlias then
          ts.type_symbol (ts.getDeclaredTypeOfSymbol (typeChecker mtt) sym)
        else Some sym in
      match resolved with
      | None => ret docTags
      | Some alias =>
          let alias :=
            if ts.testFlags (ts.flags alias) ts.SymbolFlags_Alias
            then ts.getAliasedSymbol (typeChecker mtt) alias else alias in
          let typeTranslator := newTypeTranslator mtt (ast.expression impl) in
          if isBlackListed typeTranslator alias then ret docTags
          else if ts.testFlags (ts.flags alias) ts.SymbolFlags_Class then
            if negb isClass then ret docTags
            else if classHasSuperClass &&
                    negb (ts.SyntaxKind_eqb (ast.token heritage) ts.ExtendsKeyword)
            then ret docTags
            else ret (docTags ++
                        [jsdoc.typedTag "extends" (symbolToString typeTranslator alias true)])%list
          else if ts.testFlags (ts.flags alias) ts.SymbolFlags_Value then ret docTags
          else ret (docTags ++
                      [jsdoc.typedTag tagName (symbolToString typeTranslator alias true)])%list
      end
  end.

(** The body of the outer loop, for one heritage clause (lines 84-94). *)
Definition addHeritageClause (mtt : ModuleTypeTranslator) (decl : ast.TypeDeclaration)
    (isClass classHasSuperClass : bool)
    (docTags : list jsdoc.Tag) (heritage : ast.HeritageClause) : M (list jsdoc.Tag) :=
  match ast.types heritage with
  | None => ret docTags
  | Some types =>
      if isClass &&
         negb (ts.SyntaxKind_eqb (ast.token heritage) ts.ImplementsKeyword) &&
         negb (isAmbient (ast.td_node decl))
      then ret docTags
      else forEach types docTags
             (addHeritageType mtt decl isClass classHasSuperClass heritage)
  end.

(** [maybeAddHeritageClauses(docTags, mtt, decl)]; the model returns the
    tags array after the pushes. *)
Definition maybeAddHeritageClauses (docTags : list jsdoc.Tag)
    (mtt : ModuleTypeTranslator) (decl : ast.TypeDeclaration) : M (list jsdoc.Tag) :=
  match ast.heritageClauses decl with
  | None => ret docTags
  | Some heritageClauses =>
      let isClass := ts.SyntaxKind_eqb (ts.kind (ast.td_node decl)) ts.ClassDeclaration in
      let classHasSuperClass :=
        isClass &&
        existsb (fun hc => ts.SyntaxKind_eqb (ast.token hc) ts.ExtendsKeyword) heritageClauses in
      forEach heritageClauses docTags (addHeritageClause mtt decl isClass classHasSuperClass)
  end.

(** [FIELD_DECLARATION_MODIFIERS] *)
Definition FIELD_DECLARATION_MODIFIERS : Z :=
  Z.lor (Z.lor (Z.lor ts.ModifierFlags_Private ts.ModifierFlags_Protected)
           ts.ModifierFlags_Public) ts.ModifierFlags_Readonly.

(** The character class [a-zA-Z]. *)
Definition isLetter (c : ascii) : bool :=
  let n := nat_of_ascii c in
  (Nat.leb 65 n && Nat.leb n 90) || (Nat.leb 97 n && Nat.leb n 122).

(** The character class [0-9]. *)
Definition isDigit (c : ascii) : bool :=
  let n := nat_of_ascii c in Nat.leb 48 n && Nat.leb n 57.

(** Every character of the string is in the class. *)
Fixpoint allChars (p : ascii -> bool) (s : string) : bool :=
  match s with
  | EmptyString => true
  | String c s' => p c && allChars p s'
  end.

(** [isValidClosurePropertyName(name)]: a letter or underscore followed by
    letters, digits and underscores. *)
Definition isValidClosurePropertyName (name : string) : bool :=
  match name with
  | EmptyString => false
  | String c rest =>
      (isLetter c || Ascii.eqb c "_") &&
      allChars (fun d => isLetter d || isDigit d || Ascii.eqb d "_") rest
  end.

(** [propertyName(prop)] *)
Definition propertyName (prop : ts.NamedDeclaration) : option string :=
  match ts.nd_name prop with
  | None => None
  | Some name =>
      match ts.kind (ts.name_node name) with
      | ts.Identifier => Some (ts.getIdentifierText name)
      | ts.StringLiteral =>
          let text := ts.name_text name in
          if negb (isValidClosurePropertyName text) then None else Some text
      | _ => None
      end
  end.

(** [createClosurePropertyDeclaration(mtt, expr, prop)]; [!name] holds for
    null and for the empty string. *)
Definition createClosurePropertyDeclaration (mtt : ModuleTypeTranslator)
    (expr : out.Expression) (prop : ts.NamedDeclaration) : M (option out.Statement) :=
  let name := propertyName prop in
  match name with
  | Some (String _ _ as name) =>
      let type := typeToClosure mtt (ts.nd_node prop) in
      let type :=
        if ts.questionToken prop && String.eqb type "?" then type ++ "|undefined" else type in
      let tags := getJSDoc mtt (ts.nd_node prop) in
      let tags := (tags ++ [jsdoc.typedTag "type" type])%list in
      let tags :=
        if hasExportingDecorator (ts.nd_node prop) (typeChecker mtt)
        then (tags ++ [jsdoc.tag "export"])%list else tags in
      let declStmt :=
        out.setSourceMapRange
          (out.create (out.ExpressionStatement (out.PropertyAccess expr name)))
          (ts.nd_node prop) in
      ret (Some (addCommentOn declStmt tags jsdoc.TAGS_CONFLICTING_WITH_TYPE))
  | _ =>
      mtt_debugWarn mtt (ts.nd_node prop)
        ("handle unnamed member:" ++ String "010" "" ++
         escapeForComment (ts.getText (ts.nd_node prop))) ;;;
      ret (Some (transformerUtil.createMultiLineComment (ts.nd_node prop)
                   ("Skipping unnamed member:" ++ String "010" "" ++
                    escapeForComment (ts.getText (ts.nd_node prop)))))
  end.

(** The five arrays filled by the first loop of [createMemberTypeDeclaration]. *)
Record Members := mkMembers {
  ctors : list ast.ClassElement;
  nonStaticProps : list ast.ClassElement;
  staticProps : list ast.ClassElement;
  unhandled : list ast.ClassElement;
  abstractMethods : list ast.ClassElement
}.

(** One turn of that loop (lines 186-207). *)
Definition classifyMember (typeDecl : ast.TypeDeclaration) (acc : Members)
    (m : ast.ClassElement) : Members :=
  let node := ts.nd_node (ast.member m) in
  let kind := ts.kind node in
  if ts.SyntaxKind_eqb kind ts.Constructor then
    mkMembers (ctors acc ++ [m]) (nonStaticProps acc) (staticProps acc)
      (unhandled acc) (abstractMethods acc)
  else if ts.SyntaxKind_eqb kind ts.PropertyDeclaration ||
          ts.SyntaxKind_eqb kind ts.PropertySignature then
    let isStatic := hasModifierFlag node ts.ModifierFlags_Static in
    if isStatic then
      mkMembers (ctors acc) (nonStaticProps acc) (staticProps acc ++ [m])
        (unhandled acc) (abstractMethods acc)
    else
      mkMembers (ctors acc) (nonStaticProps acc ++ [m]) (staticProps acc)
        (unhandled acc) (abstractMethods acc)
  else if ts.SyntaxKind_eqb kind ts.MethodDeclaration ||
          ts.SyntaxKind_eqb kind ts.MethodSignature ||
          ts.SyntaxKind_eqb kind ts.GetAccessor ||
          ts.SyntaxKind_eqb kind ts.SetAccessor then
    if hasModifierFlag node ts.ModifierFlags_Abstract ||
       ts.SyntaxKind_eqb (ts.kind (ast.td_node typeDecl)) ts.InterfaceDeclaration
    then
      mkMembers (ctors acc) (nonStaticProps acc) (staticProps acc)
        (unhandled acc) (abstractMethods acc ++ [m])
    else acc
  else
    mkMembers (ctors acc) (nonStaticProps acc) (staticProps acc)
      (unhandled acc ++ [m]) (abstractMethods acc).

(** The loop over [abstractMethods] (lines 239-264): one turn pushes the
    declaration of one method on [propertyDecls]. *)
Definition addAbstractMethod (mtt : ModuleTypeTranslator)
    (instancePropAccess : out.Expression)
    (propertyDecls : list (option out.Statement)) (fnDecl : ast.ClassElement)
    : M (list (option out.Statement)) :=
  let name := propertyName (ast.member fnDecl) in
  match name with
  | Some (String _ _ as name) =>
      let '(tags, paramNames) := getFunctionTypeJSDoc mtt [ast.asFunctionLike fnDecl] [] in
      let tags :=
        if hasExportingDecorator (ts.nd_node (ast.member fnDecl)) (typeChecker mtt)
        then (tags ++ [jsdoc.tag "export"])%list else tags in
      let abstractFnDecl :=
        out.create (out.ExpressionStatement
          (out.Assignment (out.PropertyAccess instancePropAccess name)
                          (out.FunctionExpression paramNames))) in
      let abstractFnDecl :=
        out.setSyntheticLeadingComments abstractFnDecl
          [jsdoc.toSynthesizedComment tags jsdoc.NoExtraTags] in
      ret (propertyDecls ++
             [Some (out.setSourceMapRange abstractFnDecl (ts.nd_node (ast.member fnDecl)))])%list
  | _ =>
      mtt_error mtt (ts.nd_node (ast.member fnDecl)) "anonymous abstract function" ;;;
      ret propertyDecls
  end.

(** [d !== null] kept by [propertyDecls.filter]. *)
Definition nonNull {A} (l : list (option A)) : list A :=
  flat_map (fun d => match d with Some x => [x] | None => [] end) l.

(** [createMemberTypeDeclaration(mtt, typeDecl)] *)
Definition createMemberTypeDeclaration (mtt : ModuleTypeTranslator)
    (typeDecl : ast.TypeDeclaration) : M (option out.Statement) :=
  let ms := fold_left (classifyMember typeDecl) (ast.members typeDecl)
              (mkMembers [] [] [] [] []) in
  let paramProps :=
    match ctors ms with
    | ctor :: _ =>
        filter (fun p => hasModifierFlag (ts.nd_node p) FIELD_DECLARATION_MODIFIERS)
               (ast.parameters ctor)
    | [] => []
    end in
  if (List.length (nonStaticProps ms) =? 0)%nat && (List.length paramProps =? 0)%nat &&
     (List.length (staticProps ms) =? 0)%nat && (List.length (abstractMethods ms) =? 0)%nat
  then ret None
  else
    match ast.td_name typeDecl with
    | None =>
        mtt_debugWarn mtt (ast.td_node typeDecl) "cannot add types on unnamed declarations" ;;;
        ret None
    | Some name =>
        let className := ts.getIdentifierText name in
        let staticPropAccess := out.Identifier className in
        let instancePropAccess := out.PropertyAccess staticPropAccess "prototype" in
        statics <- mapM (fun p => createClosurePropertyDeclaration mtt staticPropAccess
                                    (ast.member p)) (staticProps ms) ;;
        nonStatics <- mapM (fun p => createClosurePropertyDeclaration mtt instancePropAccess
                                       (ast.member p)) (nonStaticProps ms) ;;
        params <- mapM (createClosurePropertyDeclaration mtt instancePropAccess) paramProps ;;
        let skipped :=
          map (fun p =>
                 Some (transformerUtil.createMultiLineComment (ts.nd_node (ast.member p))
                         ("Skipping unhandled member: " ++
                          escapeForComment (ts.getText (ts.nd_node (ast.member p))))))
              (unhandled ms) in
        let propertyDecls := (statics ++ nonStatics ++ params ++ skipped)%list in
        propertyDecls <- forEach (abstractMethods ms) propertyDecls
                           (addAbstractMethod mtt instancePropAccess) ;;
        ret (Some (out.create (out.IfStatement out.FalseLiteral (nonNull propertyDecls))))
    end.

End Helpers.

(** The handlers of the transformer closure: [tsOptions] and the file's
    [moduleTypeTranslator] are those of [jsdocTransformer]; the translator
    is built from the transformer's [host] and [typeChecker]. *)
Section Transformer.
Context {SF : ts.SymbolFlags} {MF : ts.ModifierFlags}.
Variable hasExportingDecorator : ts.Node -> ts.TypeChecker -> bool.
Variable tsOptions : ast.CompilerOptions.
Variable moduleTypeTranslator : ModuleTypeTranslator.

(** [ts.visitNode(varStmt.declarationList, visitor)]: the declarations of
    the visited list. *)
Variable visitDeclarationList : list out.VariableDeclaration -> list out.VariableDeclaration.


(** [c.text[0] !== '*'] *)
Definition isNotJSDoc (c : ts.SynthesizedComment) : bool :=
  match ts.sc_text c with
  | String c0 _ => negb (Ascii.eqb c0 "*")
  | EmptyString => true
  end.

(** One turn of the loop over the declarations of [visitVariableStatement]
    (lines 467-495).  The state is [tags], the tags still to be attached
    ([None] once they have been given to the first variable), and [stmts]. *)
Definition visitVariableDeclaration (varStmt : ast.VariableStatement) (flags : Z)
    (acc : option (list jsdoc.Tag) * list out.Statement) (decl : out.VariableDeclaration)
    : option (list jsdoc.Tag) * list out.Statement :=
  let '(tags, stmts) := acc in
  let localTags := match tags with Some tags => tags | None => [] end in
  let localTags :=
    match out.vd_name decl with
    | out.BindingIdentifier _ =>
        let blackListedInitialized :=
          (match out.initializer decl with Some _ => true | None => false end) &&
          mtt_isBlackListed moduleTypeTranslator (out.vd_node decl) in
        if negb blackListedInitialized then
          let typeStr := typeToClosure moduleTypeTranslator (out.getOriginalNode decl) in
          (localTags ++ [jsdoc.typedTag "type" typeStr])%list
        else localTags
    | out.BindingPattern _ => localTags
    end in
  let newStmt := out.create (out.VariableStatement (ast.vs_modifiers varStmt) [decl] flags) in
  let newStmt :=
    if negb (List.length localTags =? 0)%nat
    then addCommentOn newStmt localTags jsdoc.TAGS_CONFLICTING_WITH_TYPE
    else newStmt in
  (None, (stmts ++ [newStmt])%list).

(** [visitVariableStatement(varStmt)] *)
Definition visitVariableStatement (varStmt : ast.VariableStatement) : list out.Statement :=
  let stmts : list out.Statement := [] in
  let flags := ast.getCombinedNodeFlags varStmt in
  let tags := Some (getJSDoc moduleTypeTranslator (ast.vs_node varStmt)) in
  let stmts :=
    match ast.vs_syntheticLeadingComments varStmt with
    | Some leading =>
        let commentHolder := out.create (out.NotEmittedStatement (ast.vs_node varStmt)) in
        let commentHolder :=
          out.setSyntheticLeadingComments commentHolder
            (map jsdoc.textComment (filter isNotJSDoc leading)) in
        (stmts ++ [commentHolder])%list
    | None => stmts
    end in
  let declList := visitDeclarationList (ast.declarationList varStmt) in
  snd (fold_left (visitVariableDeclaration varStmt flags) declList (tags, stmts)).

(** [visitTypeAliasDeclaration(typeAlias)].  The registration of the
    alias's type parameters with the translator happens inside the
    translator and shows in what [typeToClosure] answers. *)
Definition visitTypeAliasDeclaration (typeAlias : ast.TypeAliasDeclaration)
    : list out.Statement :=
  let sym := mustGetSymbolAtLocation moduleTypeTranslator
               (ts.name_node (ast.ta_name typeAlias)) in
  if ts.testFlags (ts.flags sym) ts.SymbolFlags_Value then []
  else if negb (hasModifierFlag (ast.ta_node typeAlias) ts.ModifierFlags_Export) then []
  else if negb (match ast.module tsOptions with
                | Some m => ts.ModuleKind_eqb m ts.CommonJS
                | None => false
                end) then []
  else
    let typeName := ts.getText (ts.name_node (ast.ta_name typeAlias)) in
    let typeStr :=
      if untyped (host moduleTypeTranslator) then "?"
      else typeToClosure moduleTypeTranslator (ast.ta_node typeAlias) in
    let tags := getJSDoc moduleTypeTranslator (ast.ta_node typeAlias) in
    let tags := (tags ++ [jsdoc.typedTag "typedef" typeStr])%list in
    let decl :=
      out.setSourceMapRange
        (out.create (out.ExpressionStatement
                       (out.PropertyAccess (out.Identifier "exports") typeName)))
        (ast.ta_node typeAlias) in
    let decl := addCommentOn decl tags jsdoc.TAGS_CONFLICTING_WITH_TYPE in
    [decl].

End Transformer.

(** *** Vocabulary for the statements about heritage clauses

    These definitions name what the statements below speak of; they
    follow the description of the heritage translation. *)
Section HeritageVocabulary.
Context {SF : ts.SymbolFlags} {MF : ts.ModifierFlags}.

(** The declaration is a class declaration. *)
Definition isClassDeclaration (decl : ast.TypeDeclaration) : bool :=
  ts.SyntaxKind_eqb (ts.kind (ast.td_node decl)) ts.ClassDeclaration.

(** The class has a runtime [extends] clause. *)
Definition hasExtendsClause (decl : ast.TypeDeclaration) : bool :=
  match ast.heritageClauses decl with
  | Some clauses =>
      isClassDeclaration decl &&
      existsb (fun hc => ts.SyntaxKind_eqb (ast.token hc) ts.ExtendsKeyword) clauses
  | None => false
  end.

(** The symbol a heritage type resolves to: the symbol of its expression,
    followed through a type alias to the symbol of the aliased type and
    through an alias to the aliased symbol. *)
Definition resolvedSymbol (tc : ts.TypeChecker) (impl : ast.ExpressionWithTypeArguments)
    : option ts.Symbol :=
  match ts.getSymbolAtLocation tc (ast.expression impl) with
  | None => None
  | Some sym =>
      let target :=
        if ts.testFlags (ts.flags sym) ts.SymbolFlags_TypeAlias
        then ts.type_symbol (ts.getDeclaredTypeOfSymbol tc sym)
        else Some sym in
      match target with
      | None => None
      | Some alias =>
          Some (if ts.testFlags (ts.flags alias) ts.SymbolFlags_Alias
                then ts.getAliasedSymbol tc alias else alias)
      end
  end.

(** The clause is one whose types are translated: it has types and is not
    the [extends] clause of a class outside an ambient context, which the
    ES6 output keeps as it is. *)
Definition clauseTranslated (decl : ast.TypeDeclaration) (heritage : ast.HeritageClause)
    : bool :=
  match ast.types heritage with
  | None => false
  | Some _ =>
      negb (isClassDeclaration decl &&
            negb (ts.SyntaxKind_eqb (ast.token heritage) ts.ImplementsKeyword) &&
            negb (isAmbient (ast.td_node decl)))
  end.

(** The tags emitted for one heritage type: those the loop body pushes on
    an empty array. *)
Definition emittedFor (mtt : ModuleTypeTranslator) (decl : ast.TypeDeclaration)
    (heritage : ast.HeritageClause) (impl : ast.ExpressionWithTypeArguments)
    : list jsdoc.Tag :=
  fst (addHeritageType mtt decl (isClassDeclaration decl) (hasExtendsClause decl)
         heritage [] impl (mkState [] [])).

(** The tags emitted for one heritage clause. *)
Definition emittedForClause (mtt : ModuleTypeTranslator) (decl : ast.TypeDeclaration)
    (heritage : ast.HeritageClause) : list jsdoc.Tag :=
  if clauseTranslated decl heritage then
    match ast.types heritage with
    | Some types => flat_map (emittedFor mtt decl heritage) types
    | None => []
    end
  else [].

End HeritageVocabulary.

(** The [type] tag expected on the statement of a declarator: one for a
    plain identifier, unless it is initialized and blacklisted; none for a
    destructuring pattern.  This follows the description of the variable
    handler, not its code. *)
Definition typeTagsOf (mtt : ModuleTypeTranslator) (decl : out.VariableDeclaration)
    : list jsdoc.Tag :=
  match out.vd_name decl with
  | out.BindingIdentifier _ =>
      if (match out.initializer decl with Some _ => true | None => false end) &&
         mtt_isBlackListed mtt (out.vd_node decl)
      then []
      else [jsdoc.typedTag "type" (typeToClosure mtt (out.getOriginalNode decl))]
  | out.BindingPattern _ => []
  end.

End jsdoc_transformer.


(** ** externs.ts *)
Module externs.

(** The statements the generator walks.  [OtherStatement] stands for the
    kinds handled by the cases of the switch that are not embedded here
    (classes and interfaces, variable statements, enums, the default case). *)
Inductive ModuleReference :=
| ExternalModuleReference
| EntityName (getEntityNameText : string).

#[warnings="-register-all"]
Inductive Node :=
| ModuleDeclaration (node : ts.Node) (name : ts.Name) (body : option Node)
| ModuleBlock (node : ts.Node) (statements : list Node)
| ImportEqualsDeclaration (node : ts.Node) (name : ts.Name)
    (moduleReference : ModuleReference)
| FunctionDeclaration (fnDecl : ts.FunctionLikeDeclaration)
| TypeAliasDeclaration (decl : ast.TypeAliasDeclaration)
| OtherStatement (node : ts.Node).

(** The state of [createExterns]: the [output] string and the diagnostics. *)
Record State := mkState {
  output : string;
  diagnostics : list ts.Diagnostic
}.

(** The double quote character. *)
Definition dquote : string := String "034" EmptyString.

(** The line feed character. *)
Definition LF : string := String "010" EmptyString.

Section CreateExterns.
Variable typeChecker : ts.TypeChecker.
Variable mtt : ModuleTypeTranslator.

(** [jsdoc.toString], the comment serializer, outside the sources. *)
Variable jsdoc_toString : list jsdoc.Tag -> string.

(** The cases of the switch of [visitor] that are not embedded. *)
Variable otherStatement : ts.Node -> list string -> State -> option State.

(** [emit(str)] *)
Definition emit (str : string) (st : State) : State :=
  mkState (output st ++ str) (diagnostics st).

(** [error(node, messageText)] *)
Definition error (node : ts.Node) (messageText : string) (st : State) : State :=
  mkState (output st)
    (diagnostics st ++
       [ts.mkDiagnostic (ts.getSourceFile node) (ts.getStart node)
          (ts.getEnd node - ts.getStart node) messageText ts.Error 0])%list.

(** [errorUnimplementedKind(node, where)] *)
Definition errorUnimplementedKind (node : ts.Node) (where_ : string) (st : State) : State :=
  error node (ts.SyntaxKindName (ts.kind node) ++ " not implemented in " ++ where_) st.

(** [isFirstDeclaration(decl)]; [None] is the TypeError of reading
    [declarations] of a missing symbol. *)
Definition isFirstDeclaration (decl : ts.Node) (name : option ts.Name) : option bool :=
  match name with
  | None => Some true
  | Some name =>
      match ts.getSymbolAtLocation typeChecker (ts.name_node name) with
      | None => None
      | Some sym =>
          match ts.declarations sym with
          | None => Some true
          | Some declarations =>
              if (List.length declarations <? 2)%nat then Some true
              else match declarations with
                   | first :: _ => Some (ts.sameNode decl (ts.fn_node first))
                   | [] => Some false
                   end
          end
      end
  end.

(** [writeExternsVariable(name, namespace, value?)] *)
Definition writeExternsVariable (name : string) (namespace : list string)
    (value : option string) (st : State) : State :=
  let qualifiedName := JS.join "." (namespace ++ [name])%list in
  let st := if (List.length namespace =? 0)%nat then emit "var " st else st in
  let st := emit qualifiedName st in
  let st := match value with
            | Some (String _ _ as value) => emit (" = " ++ value) st
            | _ => st
            end in
  emit (";" ++ LF) st.

(** [emitFunctionType(decls, extraTags = [])] *)
Definition emitFunctionType (decls : list ts.FunctionLikeDeclaration)
    (extraTags : list jsdoc.Tag) (st : State) : list string * State :=
  let '(tags, paramNames) := getFunctionTypeJSDoc mtt decls [] in
  let st := emit LF st in
  let st := emit (jsdoc_toString (extraTags ++ tags)%list) st in
  (paramNames, st).

(** [writeExternsFunction(name, params, namespace)] *)
Definition writeExternsFunction (name : ts.Node) (params : list string)
    (namespace : list string) (st : State) : State :=
  let paramsStr := JS.join ", " params in
  if negb (List.length namespace =? 0)%nat then
    let fqn := JS.join "." namespace in
    let fqn := if ts.SyntaxKind_eqb (ts.kind name) ts.Identifier then fqn ++ "." else fqn in
    let fqn := fqn ++ ts.getText name in
    emit (fqn ++ " = function(" ++ paramsStr ++ ") {};" ++ LF) st
  else
    let st :=
      if negb (ts.SyntaxKind_eqb (ts.kind name) ts.Identifier)
      then error name "Non-namespaced computed name in externs" st else st in
    emit ("function " ++ ts.getText name ++ "(" ++ paramsStr ++ ") {}" ++ LF) st.

(** [writeExternsTypeAlias(decl, namespace)] *)
Definition writeExternsTypeAlias (decl : ast.TypeAliasDeclaration)
    (namespace : list string) (st : State) : State :=
  let typeStr := typeToClosure mtt (ast.ta_node decl) in
  let st := emit (LF ++ "/** @typedef {" ++ typeStr ++ "} */" ++ LF) st in
  writeExternsVariable (ts.getIdentifierText (ast.ta_name decl)) namespace None st.

(** Not a letter of [A-Za-z]. *)
Definition notLetter (c : ascii) : bool :=
  let n := nat_of_ascii c in
  negb ((Nat.leb 65 n && Nat.leb n 90) || (Nat.leb 97 n && Nat.leb n 122)).

(** The name computed in the string-literal case of a module declaration:
<<
  importName = importName.replace(/_/, '__').replace(/[^A-Za-z]/g, '_');
>>
    The first pattern has no [g] flag. *)
Definition mangleImportName (importName : string) : string :=
  JS.replaceAllClass notLetter "_" (JS.replaceFirstChar "_" "__" importName).

(** The [FunctionDeclaration] case of [visitor] (lines 385-400). *)
Definition visitFunctionDeclaration (fnDecl : ts.FunctionLikeDeclaration)
    (namespace : list string) (st : State) : option State :=
  match ts.fn_name fnDecl with
  | None => Some (error (ts.fn_node fnDecl) "anonymous function in externs" st)
  | Some name =>
      match ts.getSymbolAtLocation typeChecker (ts.name_node name) with
      | None => None
      | Some sym =>
          match ts.declarations sym with
          | None => None
          | Some declarations =>
              let decls :=
                filter (fun d => ts.SyntaxKind_eqb (ts.kind (ts.fn_node d))
                                   ts.FunctionDeclaration) declarations in
              let isFirst :=
                match decls with
                | first :: _ => ts.sameNode (ts.fn_node fnDecl) (ts.fn_node first)
                | [] => false
                end in
              if negb isFirst then Some st
              else
                let '(params, st) := emitFunctionType decls [] st in
                Some (writeExternsFunction (ts.name_node name) params namespace st)
          end
      end
  end.

(** The string-literal case of a module declaration, up to the visit of
    the body (lines 335-349); it returns the namespace for the body. *)
Definition declareModule (decl : ts.Node) (name : ts.Name) (st : State)
    : option (list string * State) :=
  let st := emit ("/** @const */" ++ LF) st in
  let st := writeExternsVariable "tsickle_declare_module" [] (Some "{}") st in
  let namespace := ["tsickle_declare_module"] in
  let importName := ts.name_text name in
  let st := emit ("// Derived from: declare module " ++ dquote ++ importName ++ dquote ++ LF) st in
  let importName := mangleImportName importName in
  match isFirstDeclaration decl (Some name) with
  | None => None
  | Some isFirst =>
      let st :=
        if isFirst then
          writeExternsVariable importName namespace (Some "{}")
            (emit ("/** @const */" ++ LF) st)
        else st in
      Some ((namespace ++ [importName])%list, st)
  end.

(** [visitor(node, namespace)] *)
Fixpoint visitor (node : Node) (namespace : list string) (st : State) {struct node}
    : option State :=
  match node with
  | ModuleDeclaration decl name body =>
      match ts.kind (ts.name_node name) with
      | ts.Identifier =>
          let text := ts.getIdentifierText name in
          let next :=
            if String.eqb text "global" then Some ([], st)
            else
              match isFirstDeclaration decl (Some name) with
              | None => None
              | Some isFirst =>
                  let st :=
                    if isFirst then
                      writeExternsVariable text namespace (Some "{}")
                        (emit ("/** @const */" ++ LF) st)
                    else st in
                  Some ((namespace ++ [text])%list, st)
              end in
          match next, body with
          | None, _ => None
          | Some (namespace, st), Some body => visitor body namespace st
          | Some (_, st), None => Some st
          end
      | ts.StringLiteral =>
          match declareModule decl name st, body with
          | None, _ => None
          | Some (namespace, st), Some body => visitor body namespace st
          | Some (_, st), None => Some st
          end
      | _ =>
          Some (errorUnimplementedKind (ts.name_node name)
                  "externs generation of namespace" st)
      end
  | ModuleBlock _ statements =>
      (fix each (stmts : list Node) (st : State) : option State :=
         match stmts with
         | [] => Some st
         | stmt :: rest =>
             match visitor stmt namespace st with
             | Some st => each rest st
             | None => None
             end
         end) statements st
  | ImportEqualsDeclaration _ name moduleReference =>
      let localName := ts.getIdentifierText name in
      if String.eqb localName "ng" then
        Some (emit (LF ++ "/* Skipping problematic import ng = ...; */" ++ LF) st)
      else
        match moduleReference with
        | ExternalModuleReference =>
            Some (emit (LF ++ "/* TODO: import " ++ localName ++ " = require(...) */" ++ LF) st)
        | EntityName qn =>
            let st :=
              if (List.length namespace =? 0)%nat
              then emit ("/** @const */" ++ LF) st else st in
            Some (writeExternsVariable localName namespace (Some qn) st)
        end
  | FunctionDeclaration fnDecl => visitFunctionDeclaration fnDecl namespace st
  | TypeAliasDeclaration decl => Some (writeExternsTypeAlias decl namespace st)
  | OtherStatement node => otherStatement node namespace st
  end.

(** The node of a statement. *)
Definition nodeOf (n : Node) : ts.Node :=
  match n with
  | ModuleDeclaration node _ _ => node
  | ModuleBlock node _ => node
  | ImportEqualsDeclaration node _ _ => node
  | FunctionDeclaration fnDecl => ts.fn_node fnDecl
  | TypeAliasDeclaration decl => ast.ta_node decl
  | OtherStatement node => node
  end.

(** The loop of [createExterns] over the statements of the source file
    (lines 47-50); [isDts] is [isDtsFileName(sourceFile.fileName)]. *)
Fixpoint visitStatements {MF : ts.ModifierFlags} (isDts : bool) (statements : list Node)
    (st : State) : option State :=
  match statements with
  | [] => Some st
  | stmt :: rest =>
      if negb isDts &&
         negb (jsdoc_transformer.hasModifierFlag (nodeOf stmt) ts.ModifierFlags_Ambient)
      then visitStatements isDts rest st
      else match visitor stmt [] st with
           | Some st => visitStatements isDts rest st
           | None => None
           end
  end.

(** [createExterns(typeChecker, sourceFile, host)]: the final state, whose
    [output] and [diagnostics] are returned. *)
Definition createExterns {MF : ts.ModifierFlags} (isDts : bool) (statements : list Node)
    : option State :=
  visitStatements isDts statements (mkState "" []).

End CreateExterns.

(** The mangling as it is described: every underscore doubled, then every
    character that is not a letter replaced by an underscore.  This follows
    the description, not the code. *)
Definition mangleAsDescribed (importName : string) : string :=
  JS.replaceAllClass notLetter "_"
    (JS.replaceAllClass (fun c => Ascii.eqb c "_") "__" importName).

(** The number of occurrences of a character in a string. *)
Fixpoint countChar (a : ascii) (s : string) : nat :=
  match s with
  | EmptyString => 0
  | String c s' => (if Ascii.eqb c a then 1 else 0) + countChar a s'
  end.

(** The text of a function stub: the comment of the merged signature, then
    the function, declared at the top level or assigned in a namespace. *)
Definition functionStub (comment name : string) (params namespace : list string) : string :=
  LF ++ comment ++
  match namespace with
  | [] => "function " ++ name ++ "(" ++ JS.join ", " params ++ ") {}" ++ LF
  | _ => JS.join "." namespace ++ "." ++ name ++ " = function(" ++
         JS.join ", " params ++ ") {};" ++ LF
  end.

End externs.

(** ** Concrete inputs used by the examples below *)
Module Examples.

(** The values of the flags in the TypeScript compiler. *)
#[global] Instance symbolFlags : ts.SymbolFlags := {|
  ts.SymbolFlags_Class := 32;
  ts.SymbolFlags_TypeAlias := 524288;
  ts.SymbolFlags_Alias := 2097152;
  ts.SymbolFlags_Value := 107455
|}.

#[global] Instance modifierFlags : ts.ModifierFlags := {|
  ts.ModifierFlags_Export := 1;
  ts.ModifierFlags_Ambient := 2;
  ts.ModifierFlags_Public := 4;
  ts.ModifierFlags_Private := 8;
  ts.ModifierFlags_Protected := 16;
  ts.ModifierFlags_Static := 32;
  ts.ModifierFlags_Readonly := 64;
  ts.ModifierFlags_Abstract := 128
|}.

(** A node with the given identity, kind, modifier flags and text. *)
Definition node (id : nat) (kind : ts.SyntaxKind) (modifierFlags : Z) (text : string)
    : ts.Node :=
  ts.mkNode id kind modifierFlags text 0 (Z.of_nat (String.length text)) "a.ts" None.

Definition ident (id : nat) (text : string) : ts.Name :=
  ts.mkName (node id ts.Identifier 0 text) text.

(** Symbols: a class [C], an interface [I], and [v], declared both as an
    interface and as a variable. *)
Definition classSymbol : ts.Symbol := ts.mkSymbol 32 "C" None.
Definition interfaceSymbol : ts.Symbol := ts.mkSymbol 64 "I" None.
Definition variableSymbol : ts.Symbol := ts.mkSymbol 66 "v" None.

(** [export type T = number;], a type-only name. *)
Definition typeT : ts.Symbol := ts.mkSymbol 524288 "T" None.

(** A checker resolving the text [C] to the class, [I] to the interface,
    [v] to the variable and [T] to the type alias; other nodes have no
    symbol. *)
Definition checker : ts.TypeChecker :=
  ts.mkTypeChecker
    (fun n => if String.eqb (ts.getText n) "C" then Some classSymbol
              else if String.eqb (ts.getText n) "I" then Some interfaceSymbol
              else if String.eqb (ts.getText n) "v" then Some variableSymbol
              else if String.eqb (ts.getText n) "T" then Some typeT
              else None)
    (fun sym => ts.mkType (Some sym))
    (fun sym => sym).

(** A translator that blacklists no symbol and no node but those with the
    text [B], renders a symbol by its name, the blacklisted nodes and the
    property [foo?: any;] by the unknown type and any other node by
    [number], and finds no JSDoc on any node. *)
Definition translator (h : AnnotatorHost) : ModuleTypeTranslator :=
  mkModuleTypeTranslator checker h
    (fun _ => mkTypeTranslator (fun _ => false) (fun sym _ => ts.symbol_name sym))
    (fun n => if String.eqb (ts.getText n) "B" then "?"
              else if String.eqb (ts.getText n) "foo?: any;" then "?"
              else "number")
    (fun n => String.eqb (ts.getText n) "B")
    (fun _ => [])
    (fun _ => "void")
    (fun n => match ts.getSymbolAtLocation checker n with
              | Some sym => sym
              | None => ts.mkSymbol 0 "" None
              end).

Definition quietHost : AnnotatorHost := mkAnnotatorHost false false.
Definition loggingHost : AnnotatorHost := mkAnnotatorHost true false.

Definition noDecorator (n : ts.Node) (tc : ts.TypeChecker) : bool := false.

Definition initial : State := mkState [] [].

(** The heritage type [C], the clauses [extends C] and [implements C]. *)
Definition heritageC : ast.ExpressionWithTypeArguments :=
  ast.mkExpressionWithTypeArguments
    (node 11 ts.ExpressionWithTypeArguments 0 "C") (node 12 ts.Identifier 0 "C").

Definition extendsC : ast.HeritageClause :=
  ast.mkHeritageClause ts.ExtendsKeyword (Some [heritageC]).

Definition implementsC : ast.HeritageClause :=
  ast.mkHeritageClause ts.ImplementsKeyword (Some [heritageC]).

(** [interface J extends C {}] *)
Definition interfaceJ : ast.InterfaceDeclaration :=
  ast.mkInterfaceDeclaration (node 10 ts.InterfaceDeclaration 0 "interface J extends C {}")
    (ident 13 "J") None (Some [extendsC]) [].

(** [class D implements C {}] *)
Definition classD : ast.TypeDeclaration :=
  ast.mkTypeDeclaration (node 20 ts.ClassDeclaration 0 "class D implements C {}")
    (Some (ident 21 "D")) None (Some [implementsC]) [].

(** [class E extends C implements C {}] *)
Definition classE : ast.TypeDeclaration :=
  ast.mkTypeDeclaration (node 22 ts.ClassDeclaration 0 "class E extends C implements C {}")
    (Some (ident 23 "E")) None (Some [extendsC; implementsC]) [].

(** [declare class F extends C {}] *)
Definition classF : ast.TypeDeclaration :=
  ast.mkTypeDeclaration (node 24 ts.ClassDeclaration 2 "declare class F extends C {}")
    (Some (ident 25 "F")) None (Some [extendsC]) [].

(** The property signature [foo?: any;] *)
Definition optionalAny : ts.NamedDeclaration :=
  ts.mkNamedDeclaration (node 30 ts.PropertySignature 0 "foo?: any;")
    (Some (ident 31 "foo")) true.

Definition aliasT : ast.TypeAliasDeclaration :=
  ast.mkTypeAliasDeclaration (node 40 ts.TypeAliasDeclaration 1 "export type T = number;")
    (ident 41 "T") None.

Definition commonJS : ast.CompilerOptions := ast.mkCompilerOptions (Some ts.CommonJS).

Definition es2015 : ast.CompilerOptions := ast.mkCompilerOptions (Some ts.ES2015).

(** [class K { constructor(public x: number) {} }] *)
Definition paramX : ts.NamedDeclaration :=
  ts.mkNamedDeclaration (node 101 ts.ParameterDecl 4 "public x: number")
    (Some (ident 102 "x")) false.

Definition ctorK : ast.ClassElement :=
  ast.mkClassElement
    (ts.mkNamedDeclaration (node 103 ts.Constructor 0 "constructor(public x: number) {}")
       None false)
    [paramX].

Definition classK : ast.TypeDeclaration :=
  ast.mkTypeDeclaration
    (node 100 ts.ClassDeclaration 0 "class K { constructor(public x: number) {} }")
    (Some (ident 104 "K")) None None [ctorK].



(** [var a = f(), b, {c} = o;] where the declared types of [a] and [b]
    are blacklisted: the translator blacklists the nodes with the text [B]. *)
Definition declA : out.VariableDeclaration :=
  out.mkVariableDeclaration (node 71 ts.VariableDeclaration 0 "B")
    (out.BindingIdentifier "a") (Some (node 72 ts.OtherKind 0 "f()"))
    (node 71 ts.VariableDeclaration 0 "B").

Definition declB : out.VariableDeclaration :=
  out.mkVariableDeclaration (node 73 ts.VariableDeclaration 0 "B")
    (out.BindingIdentifier "b") None
    (node 73 ts.VariableDeclaration 0 "B").

Definition declC : out.VariableDeclaration :=
  out.mkVariableDeclaration (node 74 ts.VariableDeclaration 0 "{c} = o")
    (out.BindingPattern ts.ObjectBindingPattern) (Some (node 75 ts.Identifier 0 "o"))
    (node 74 ts.VariableDeclaration 0 "{c} = o").

Definition varABC : ast.VariableStatement :=
  ast.mkVariableStatement (node 70 ts.VariableStatement 0 "var a = f(), b, {c} = o;")
    None None [declA; declB; declC] 0.

(** A visit of the declaration list that changes nothing. *)
Definition unchanged (l : list out.VariableDeclaration) : list out.VariableDeclaration := l.

(** [declare function f(x: number): void; declare function f(x: string): number;] *)
Definition overload1 : ts.FunctionLikeDeclaration :=
  ts.mkFunctionLikeDeclaration
    (node 90 ts.FunctionDeclaration 2 "declare function f(x: number): void;")
    (Some (ident 91 "f"))
    [ts.mkNamedDeclaration (node 92 ts.ParameterDecl 0 "x: number") (Some (ident 93 "x")) false].

Definition overload2 : ts.FunctionLikeDeclaration :=
  ts.mkFunctionLikeDeclaration
    (node 94 ts.FunctionDeclaration 2 "declare function f(x: string): number;")
    (Some (ident 95 "f"))
    [ts.mkNamedDeclaration (node 96 ts.ParameterDecl 0 "x: string") (Some (ident 97 "x")) false].

Definition symbolF : ts.Symbol := ts.mkSymbol 16 "f" (Some [overload1; overload2]).

(** A module symbol with a single declaration. *)
Definition moduleSymbol : ts.Symbol := ts.mkSymbol 512 "m" None.

(** A checker for the declaration file: [f] is the overloaded function,
    any other name a module. *)
Definition externsChecker : ts.TypeChecker :=
  ts.mkTypeChecker
    (fun n => if String.eqb (ts.getText n) "f" then Some symbolF else Some moduleSymbol)
    (fun sym => ts.mkType (Some sym))
    (fun sym => sym).

(** A translator for the declaration file: parameters are rendered after
    their annotation, return types after their declaration. *)
Definition externsTranslator : ModuleTypeTranslator :=
  mkModuleTypeTranslator externsChecker quietHost
    (fun _ => mkTypeTranslator (fun _ => false) (fun sym _ => ts.symbol_name sym))
    (fun n => if String.eqb (ts.getText n) "x: number" then "number"
              else if String.eqb (ts.getText n) "x: string" then "string"
              else "?")
    (fun _ => false)
    (fun _ => [])
    (fun n => if Nat.eqb (ts.node_id n) 90 then "void"
              else if Nat.eqb (ts.node_id n) 94 then "number"
              else "?")
    (fun _ => moduleSymbol).

(** A serializer printing one line per tag. *)
Definition printTag (t : jsdoc.Tag) : string :=
  " * @" ++ jsdoc.tagName t ++
  (match jsdoc.type t with Some ty => " {" ++ ty ++ "}" | None => "" end) ++
  (match jsdoc.parameterName t with Some n => " " ++ n | None => "" end) ++
  externs.LF.

Definition printTags (tags : list jsdoc.Tag) : string :=
  "/**" ++ externs.LF ++ String.concat "" (map printTag tags) ++ " */" ++ externs.LF.

Definition noOtherStatement (n : ts.Node) (namespace : list string) (st : externs.State)
    : option externs.State := Some st.

(** [declare module "a_b_c" {}] *)
Definition moduleABC : externs.Node :=
  externs.ModuleDeclaration (node 80 ts.ModuleDeclaration 2 "declare module a_b_c {}")
    (ts.mkName (node 81 ts.StringLiteral 0 "a_b_c") "a_b_c")
    (Some (externs.ModuleBlock (node 82 ts.ModuleBlock 0 "{}") [])).

End Examples.


(** * Further functions of the sources *)

(** ** transformer_util.ts: the comment ranges at a position *)
Module commentRanges.
Section Ranges.

(** [ts.getLeadingCommentRanges(text, pos)], the scanner of the compiler,
    outside the sources; [undefined] is [None]. *)
Variable getLeadingCommentRanges : string -> Z -> option (list ts.CommentRange).

(** [ts.getTrailingCommentRanges(text, pos)] *)
Variable getTrailingCommentRanges : string -> Z -> option (list ts.CommentRange).

(** [getAllLeadingCommentRanges(sourceFile, start, end)] (lines 74-85):
    the ranges found in the substring, moved by [start]. *)
Definition getAllLeadingCommentRanges (sourceFile : ts.SourceFile) (start fin : Z)
    : list ts.CommentRange :=
  let commentRanges :=
    match getLeadingCommentRanges (JS.substring start fin (ts.sf_text sourceFile)) 0 with
    | Some ranges => ranges
    | None => []
    end in
  map (fun cr => ts.mkCommentRange (ts.cr_kind cr) (ts.cr_pos cr + start)
                   (ts.cr_end cr + start) (ts.cr_hasTrailingNewLine cr))
      commentRanges.


End Ranges.
End commentRanges.

(** ** Vocabulary for the statements about ambient nodes *)

(** The node and its ancestors, the node first. *)
Fixpoint ancestorsOrSelf (node : ts.Node) : list ts.Node :=
  node ::
  match node with
  | ts.mkNode _ _ _ _ _ _ _ (Some p) => ancestorsOrSelf p
  | ts.mkNode _ _ _ _ _ _ _ None => []
  end.

(** ** Vocabulary for the statements about members and comments *)
Module memberKinds.
Section Kinds.
Context {MF : ts.ModifierFlags}.

(** The kind of a member. *)
Definition kindOf (m : ast.ClassElement) : ts.SyntaxKind :=
  ts.kind (ts.nd_node (ast.member m)).

Definition isConstructor (m : ast.ClassElement) : bool :=
  ts.SyntaxKind_eqb (kindOf m) ts.Constructor.

(** A property declaration or signature. *)
Definition isProperty (m : ast.ClassElement) : bool :=
  ts.SyntaxKind_eqb (kindOf m) ts.PropertyDeclaration ||
  ts.SyntaxKind_eqb (kindOf m) ts.PropertySignature.

(** A method declaration or signature, or an accessor. *)
Definition isMethod (m : ast.ClassElement) : bool :=
  ts.SyntaxKind_eqb (kindOf m) ts.MethodDeclaration ||
  ts.SyntaxKind_eqb (kindOf m) ts.MethodSignature ||
  ts.SyntaxKind_eqb (kindOf m) ts.GetAccessor ||
  ts.SyntaxKind_eqb (kindOf m) ts.SetAccessor.

Definition isStatic (m : ast.ClassElement) : bool :=
  jsdoc_transformer.hasModifierFlag (ts.nd_node (ast.member m)) ts.ModifierFlags_Static.

(** A method without a body to keep: an abstract one, or any method of an
    interface. *)
Definition isBodilessMethod (typeDecl : ast.TypeDeclaration) (m : ast.ClassElement) : bool :=
  isMethod m &&
  (jsdoc_transformer.hasModifierFlag (ts.nd_node (ast.member m)) ts.ModifierFlags_Abstract ||
   ts.SyntaxKind_eqb (ts.kind (ast.td_node typeDecl)) ts.InterfaceDeclaration).

(** Neither a constructor, a property nor a method. *)
Definition isUnhandled (m : ast.ClassElement) : bool :=
  negb (isConstructor m) && negb (isProperty m) && negb (isMethod m).

(** The parameters of the first constructor that declare a field. *)
Definition parameterProperties (typeDecl : ast.TypeDeclaration) : list ts.NamedDeclaration :=
  match filter isConstructor (ast.members typeDecl) with
  | ctor :: _ =>
      filter (fun p => jsdoc_transformer.hasModifierFlag (ts.nd_node p)
                         jsdoc_transformer.FIELD_DECLARATION_MODIFIERS)
             (ast.parameters ctor)
  | [] => []
  end.

(** The declaration has a name that [propertyName] accepts. *)
Definition isNamed (p : ts.NamedDeclaration) : bool :=
  match jsdoc_transformer.propertyName p with
  | Some (String _ _) => true
  | _ => false
  end.

End Kinds.
End memberKinds.

(** The texts of the comments of a statement that were created from a
    text, its leading comments first. *)
Definition commentTexts (s : out.Statement) : list string :=
  flat_map (fun c => match c with
                     | jsdoc.textComment c => [ts.sc_text c]
                     | jsdoc.toSynthesizedComment _ _ => []
                     end)
    ((match out.getSyntheticLeadingComments s with Some cs => cs | None => [] end) ++
     (match out.getSyntheticTrailingComments s with Some cs => cs | None => [] end))%list.

(** The text holds neither a comment opener nor a comment closer. *)
Definition delimiterFree (text : string) : Prop :=
  ~ JS.includes "/*" text /\ ~ JS.includes "*/" text.

(** No comment of the statement that was created from a text holds a
    comment delimiter. *)
Definition commentsDelimiterFree (stmt : out.Statement) : Prop :=
  Forall delimiterFree (commentTexts stmt).

(** ** More concrete inputs *)
Module MoreExamples.
Import Examples.

(** [class G extends C {}], outside an ambient context. *)
Definition classG : ast.TypeDeclaration :=
  ast.mkTypeDeclaration (node 26 ts.ClassDeclaration 0 "class G extends C {}")
    (Some (ident 27 "G")) None (Some [extendsC]) [].

(** The property signature ['complex name'?: any;], whose name is a
    string literal that is not a valid Closure property name. *)
Definition complexName : ts.NamedDeclaration :=
  ts.mkNamedDeclaration (node 32 ts.PropertySignature 0 "'complex name'?: any;")
    (Some (ts.mkName (node 33 ts.StringLiteral 0 "'complex name'") "complex name")) true.

(** [interface W { 'complex name'?: any; }] *)
Definition interfaceW : ast.TypeDeclaration :=
  ast.mkTypeDeclaration
    (node 34 ts.InterfaceDeclaration 0 "interface W { 'complex name'?: any; }")
    (Some (ident 35 "W")) None None [ast.mkClassElement complexName []].

(** A translator that renders every type as the unknown type. *)
Definition unknownTranslator : ModuleTypeTranslator :=
  mkModuleTypeTranslator checker quietHost
    (fun _ => mkTypeTranslator (fun _ => false) (fun sym _ => ts.symbol_name sym))
    (fun _ => "?")
    (fun _ => false)
    (fun _ => [])
    (fun _ => "?")
    (fun _ => ts.mkSymbol 0 "" None).

End MoreExamples.

(** ** externs.ts: variables, enums, classes and interfaces

    The remaining cases of the switch of [visitor]: they are reached
    through the [otherStatement] parameter of [externs.visitor]. *)
Module externsDecl.

(** [CLOSURE_EXTERNS_BLACKLIST] (lines 22-36) *)
Definition CLOSURE_EXTERNS_BLACKLIST : list string :=
  ["exports"; "global"; "module"; "ErrorConstructor"; "Symbol"; "WorkerGlobalScope"].

(** [CLOSURE_EXTERNS_BLACKLIST.indexOf(name) >= 0] *)
Definition blacklisted (name : string) : bool :=
  existsb (String.eqb name) CLOSURE_EXTERNS_BLACKLIST.

(** [ts.VariableDeclaration] as [writeExternsVariableDecl] reads it. *)
Record VariableDeclaration := mkVariableDeclaration {
  vd_node : ts.Node;
  vd_name : ts.Name
}.

(** [ts.EnumDeclaration]: its name and the names of its members. *)
Record EnumDeclaration := mkEnumDeclaration {
  ed_node : ts.Node;
  ed_name : ts.Name;
  ed_members : list ts.Name
}.

(** The [methods] map of [writeExternsType]: a JavaScript [Map] iterates
    in insertion order, so it is a list of keys with their values. *)
Definition Methods : Type := list (string * list ast.ClassElement).

(** The update of the map for one method (lines 247-251):
<<
  if (methods.has(methodSignature)) {
    methods.get(methodSignature)!.push(method);
  } else {
    methods.set(methodSignature, [method]);
  }
>> *)
Fixpoint addMethod (methodSignature : string) (method : ast.ClassElement)
    (methods : Methods) : Methods :=
  match methods with
  | [] => [(methodSignature, [method])]
  | (key, variants) :: rest =>
      if String.eqb key methodSignature
      then (key, variants ++ [method])%list :: rest
      else (key, variants) :: addMethod methodSignature method rest
  end.

Section Declarations.
Context {SF : ts.SymbolFlags} {MF : ts.ModifierFlags}.
Variable typeChecker : ts.TypeChecker.
Variable mtt : ModuleTypeTranslator.

(** [jsdoc.toString], the comment serializer, outside the sources. *)
Variable jsdoc_toString : list jsdoc.Tag -> string.

(** [typeChecker.getTypeAtLocation(node)] *)
Variable getTypeAtLocation : ts.Node -> ts.Type_.

(** [mtt.typeToClosure(node, type)] for a given type; without a type it
    is [typeToClosure mtt node]. *)
Variable typeToClosureOf : ts.Node -> ts.Type_ -> string.

(** The node read as the declaration it is: [node as ts.ClassDeclaration],
    [(node as ts.VariableStatement).declarationList.declarations],
    [node as ts.EnumDeclaration]. *)
Variable asTypeDeclaration : ts.Node -> ast.TypeDeclaration.
Variable declarationsOf : ts.Node -> list VariableDeclaration.
Variable asEnumDeclaration : ts.Node -> EnumDeclaration.

(** [path.basename] *)
Variable basename : string -> string.

(** [emitJSDocType(node, additionalDocTag?, type?, skipBlacklisted = false)]
    (lines 97-119); an empty [additionalDocTag] is falsy. *)
Definition emitJSDocType (node : ts.Node) (additionalDocTag : option string)
    (type : option ts.Type_) (skipBlacklisted : bool) (st : externs.State) : externs.State :=
  let additional :=
    match additionalDocTag with
    | Some (String _ _ as t) => Some t
    | _ => None
    end in
  let type :=
    if skipBlacklisted then
      Some (match type with Some t => t | None => getTypeAtLocation node end)
    else type in
  let skip :=
    if skipBlacklisted then
      match type with
      | Some t =>
          match ts.type_symbol t with
          | Some sym =>
              let sym :=
                if ts.testFlags (ts.flags sym) ts.SymbolFlags_Alias
                then ts.getAliasedSymbol typeChecker sym else sym in
              isBlackListed (newTypeTranslator mtt node) sym
          | None => false
          end
      | None => false
      end
    else false in
  if skip then
    match additional with
    | Some t => externs.emit (" /** " ++ t ++ " */") st
    | None => st
    end
  else
    let st := externs.emit " /**" st in
    let st := match additional with
              | Some t => externs.emit (" " ++ t) st
              | None => st
              end in
    externs.emit (" @type {" ++
                  (match type with
                   | Some t => typeToClosureOf node t
                   | None => typeToClosure mtt node
                   end) ++ "} */") st.

(** [writeExternsVariableDecl(decl, namespace)] (lines 80-91) *)
Definition writeExternsVariableDecl (decl : VariableDeclaration) (namespace : list string)
    (st : externs.State) : externs.State :=
  if ts.SyntaxKind_eqb (ts.kind (ts.name_node (vd_name decl))) ts.Identifier then
    let name := ts.getIdentifierText (vd_name decl) in
    if blacklisted name then st
    else
      let st := emitJSDocType (vd_node decl) None None false st in
      let st := externs.emit externs.LF st in
      externs.writeExternsVariable name namespace None st
  else
    externs.errorUnimplementedKind (ts.name_node (vd_name decl)) "externs for variable" st.

(** One turn of the loop over the members of [writeExternsEnum] (lines
    154-174). *)
Definition writeExternsEnumMember (namespace : list string) (st : externs.State)
    (member : ts.Name) : externs.State :=
  let memberName :=
    match ts.kind (ts.name_node member) with
    | ts.Identifier => Some (ts.getIdentifierText member)
    | ts.StringLiteral =>
        let text := ts.name_text member in
        if jsdoc_transformer.isValidClosurePropertyName text then Some text else None
    | _ => None
    end in
  match memberName with
  | Some (String _ _ as memberName) =>
      let st := externs.emit ("/** @const {number} */" ++ externs.LF) st in
      externs.writeExternsVariable memberName namespace None st
  | _ =>
      externs.emit (externs.LF ++ "/* TODO: " ++
                    ts.SyntaxKindName (ts.kind (ts.name_node member)) ++ ": " ++
                    escapeForComment (ts.getText (ts.name_node member)) ++
                    " */" ++ externs.LF) st
  end.

(** [writeExternsEnum(decl, namespace)] (lines 149-175) *)
Definition writeExternsEnum (decl : EnumDeclaration) (namespace : list string)
    (st : externs.State) : externs.State :=
  let name := ts.getIdentifierText (ed_name decl) in
  let st := externs.emit (externs.LF ++ "/** @const */" ++ externs.LF) st in
  let st := externs.writeExternsVariable name namespace (Some "{}") st in
  let namespace := (namespace ++ [name])%list in
  fold_left (writeExternsEnumMember namespace) (ed_members decl) st.

(** The declaration of the type itself, in the branch
    [if (isFirstDeclaration(decl))] of [writeExternsType] (lines 194-221).
    The translator reports on the diagnostics of [createExterns]; the second
    component is what it hands to the host's [logWarning]. *)
Definition writeExternsTypeHead (decl : ast.TypeDeclaration) (name : ts.Name)
    (namespace : list string) (st : externs.State) : externs.State * list ts.Diagnostic :=
  let paramNames : list string := [] in
  let jsdocTags : list jsdoc.Tag := [] in
  let writeJsDoc := true in
  let '(jsdocTags, hst) :=
    jsdoc_transformer.maybeAddHeritageClauses jsdocTags mtt decl
      (mkState (externs.diagnostics st) []) in
  let st := externs.mkState (externs.output st) (diagnostics hst) in
  let '(jsdocTags, writeJsDoc, paramNames, st) :=
    if ts.SyntaxKind_eqb (ts.kind (ast.td_node decl)) ts.ClassDeclaration then
      let jsdocTags := (jsdocTags ++ [jsdoc.tag "constructor"])%list in
      let jsdocTags := (jsdocTags ++ [jsdoc.tag "struct"])%list in
      let ctors :=
        filter (fun m => ts.SyntaxKind_eqb (ts.kind (ts.nd_node (ast.member m)))
                           ts.Constructor) (ast.members decl) in
      match ctors with
      | firstCtor :: _ =>
          let ctorTags := [jsdoc.tag "constructor"; jsdoc.tag "struct"] in
          let '(paramNames, st) :=
            if (1 <? List.length ctors)%nat
            then externs.emitFunctionType mtt jsdoc_toString
                   (map ast.asFunctionLike ctors) ctorTags st
            else externs.emitFunctionType mtt jsdoc_toString
                   [ast.asFunctionLike firstCtor] ctorTags st in
          (jsdocTags, false, paramNames, st)
      | [] => (jsdocTags, writeJsDoc, paramNames, st)
      end
    else
      let jsdocTags := (jsdocTags ++ [jsdoc.tag "record"])%list in
      let jsdocTags := (jsdocTags ++ [jsdoc.tag "struct"])%list in
      (jsdocTags, writeJsDoc, paramNames, st) in
  let st := if writeJsDoc then externs.emit (jsdoc_toString jsdocTags) st else st in
  (externs.writeExternsFunction (ts.name_node name) paramNames namespace st, logged hst).

(** One turn of the loop over the members of [writeExternsType] (lines
    225-268); [None] is the TypeError of reading the name of a property or
    method that has none. *)
Definition writeExternsMember (typeName : string) (namespace : list string)
    (acc : externs.State * Methods) (member : ast.ClassElement)
    : option (externs.State * Methods) :=
  let '(st, methods) := acc in
  let node := ts.nd_node (ast.member member) in
  let unhandled (st : externs.State) : externs.State :=
    let memberName := namespace in
    let memberName :=
      match ts.nd_name (ast.member member) with
      | Some name => (memberName ++ [ts.getText (ts.name_node name)])%list
      | None => memberName
      end in
    externs.emit (externs.LF ++ "/* TODO: " ++ ts.SyntaxKindName (ts.kind node) ++ ": " ++
                  JS.join "." memberName ++ " */" ++ externs.LF) st in
  match ts.kind node with
  | ts.PropertySignature | ts.PropertyDeclaration =>
      match ts.nd_name (ast.member member) with
      | None => None
      | Some name =>
          if ts.SyntaxKind_eqb (ts.kind (ts.name_node name)) ts.Identifier then
            let st := emitJSDocType node None None false st in
            let st :=
              if jsdoc_transformer.hasModifierFlag node ts.ModifierFlags_Static
              then externs.emit (externs.LF ++ typeName ++ "." ++
                                 ts.getText (ts.name_node name) ++ ";" ++ externs.LF) st
              else externs.emit (externs.LF ++ typeName ++ ".prototype." ++
                                 ts.getText (ts.name_node name) ++ ";" ++ externs.LF) st in
            Some (st, methods)
          else Some (unhandled st, methods)
      end
  | ts.MethodSignature | ts.MethodDeclaration =>
      match ts.nd_name (ast.member member) with
      | None => None
      | Some name =>
          let isStatic := jsdoc_transformer.hasModifierFlag node ts.ModifierFlags_Static in
          let methodSignature :=
            ts.getText (ts.name_node name) ++ "$$$" ++
            (if isStatic then "static" else "instance") in
          Some (st, addMethod methodSignature member methods)
      end
  | ts.Constructor => Some (st, methods)
  | _ => Some (unhandled st, methods)
  end.

(** The loop over the members. *)
Fixpoint writeExternsMembers (typeName : string) (namespace : list string)
    (members : list ast.ClassElement) (acc : externs.State * Methods)
    : option (externs.State * Methods) :=
  match members with
  | [] => Some acc
  | member :: rest =>
      match writeExternsMember typeName namespace acc member with
      | Some acc => writeExternsMembers typeName namespace rest acc
      | None => None
      end
  end.

(** One turn of the loop over the values of the map (lines 271-283);
    [None] is the TypeError of reading a missing first variant or its
    missing name. *)
Definition writeExternsMethod (name : ts.Name) (namespace : list string)
    (st : externs.State) (methodVariants : list ast.ClassElement) : option externs.State :=
  match methodVariants with
  | [] => None
  | firstMethodVariant :: _ =>
      let '(parameterNames, st) :=
        if (1 <? List.length methodVariants)%nat
        then externs.emitFunctionType mtt jsdoc_toString
               (map ast.asFunctionLike methodVariants) [] st
        else externs.emitFunctionType mtt jsdoc_toString
               [ast.asFunctionLike firstMethodVariant] [] st in
      let methodNamespace := (namespace ++ [ts.getText (ts.name_node name)])%list in
      let methodNamespace :=
        if negb (jsdoc_transformer.hasModifierFlag (ts.nd_node (ast.member firstMethodVariant))
                   ts.ModifierFlags_Static)
        then (methodNamespace ++ ["prototype"])%list else methodNamespace in
      match ts.nd_name (ast.member firstMethodVariant) with
      | None => None
      | Some methodName =>
          Some (externs.writeExternsFunction (ts.name_node methodName) parameterNames
                  methodNamespace st)
      end
  end.

(** The loop over the values of the map. *)
Fixpoint writeExternsMethods (name : ts.Name) (namespace : list string)
    (methods : list (list ast.ClassElement)) (st : externs.State) : option externs.State :=
  match methods with
  | [] => Some st
  | methodVariants :: rest =>
      match writeExternsMethod name namespace st methodVariants with
      | Some st => writeExternsMethods name namespace rest st
      | None => None
      end
  end.

(** [writeExternsType(decl, namespace)] (lines 183-284): the final state
    and the warnings handed to the host; [None] is a TypeError. *)
Definition writeExternsType (decl : ast.TypeDeclaration) (namespace : list string)
    (st : externs.State) : option (externs.State * list ts.Diagnostic) :=
  match ast.td_name decl with
  | None => Some (externs.error (ast.td_node decl) "anonymous type in externs" st, [])
  | Some name =>
      let typeName := JS.join "." (namespace ++ [ts.getText (ts.name_node name)])%list in
      if blacklisted typeName then Some (st, [])
      else
        match externs.isFirstDeclaration typeChecker (ast.td_node decl) (Some name) with
        | None => None
        | Some isFirst =>
            let '(st, warnings) :=
              if isFirst then writeExternsTypeHead decl name namespace st else (st, []) in
            match writeExternsMembers typeName namespace (ast.members decl) (st, []) with
            | None => None
            | Some (st, methods) =>
                match writeExternsMethods name namespace (map snd methods) st with
                | Some st => Some (st, warnings)
                | None => None
                end
            end
        end
  end.

(** The cases of the switch of [visitor] for classes and interfaces,
    variable statements, enums, and the default case (lines 381-415); the
    warnings of the translator go to the host and leave no trace in the state. *)
Definition otherStatement (node : ts.Node) (namespace : list string) (st : externs.State)
    : option externs.State :=
  match ts.kind node with
  | ts.ClassDeclaration | ts.InterfaceDeclaration =>
      match writeExternsType (asTypeDeclaration node) namespace st with
      | Some (st, _) => Some st
      | None => None
      end
  | ts.VariableStatement =>
      Some (fold_left (fun st decl => writeExternsVariableDecl decl namespace st)
              (declarationsOf node) st)
  | ts.EnumDeclaration => Some (writeExternsEnum (asEnumDeclaration node) namespace st)
  | _ =>
      let locationStr :=
        match JS.join "." namespace with
        | String _ _ as s => s
        | EmptyString => basename (ts.getSourceFile node)
        end in
      Some (externs.emit (externs.LF ++ "// TODO(tsickle): " ++
                          ts.SyntaxKindName (ts.kind node) ++ " in " ++ locationStr ++
                          externs.LF) st)
  end.

End Declarations.
End externsDecl.

(** The state has grown: the output by a suffix, the diagnostics by errors. *)
Definition onlyAppends (st st' : externs.State) : Prop :=
  (exists text, externs.output st' = externs.output st ++ text) /\
  (exists errors,
     externs.diagnostics st' = (externs.diagnostics st ++ errors)%list /\
     Forall (fun d => ts.category d = ts.Error) errors).

(** ** A declaration file for the externs generator

<<
  declare namespace m {
    interface P { x: number; f(a: number): void; f(a: string): void; static g(): void; }
    enum E { A, 'b*/c' }
    var exports: number, v: number;
  }
>> *)
Module ExternsExamples.
Import Examples.

Definition propX : ast.ClassElement :=
  ast.mkClassElement
    (ts.mkNamedDeclaration (node 201 ts.PropertySignature 0 "x: number;")
       (Some (ident 202 "x")) false) [].

Definition paramA (id : nat) (text : string) : ts.NamedDeclaration :=
  ts.mkNamedDeclaration (node id ts.ParameterDecl 0 text) (Some (ident (S id) "a")) false.

Definition methodF1 : ast.ClassElement :=
  ast.mkClassElement
    (ts.mkNamedDeclaration (node 203 ts.MethodSignature 0 "f(a: number): void;")
       (Some (ident 204 "f")) false) [paramA 205 "x: number"].

Definition methodF2 : ast.ClassElement :=
  ast.mkClassElement
    (ts.mkNamedDeclaration (node 207 ts.MethodSignature 0 "f(a: string): void;")
       (Some (ident 208 "f")) false) [paramA 209 "x: string"].

Definition methodG : ast.ClassElement :=
  ast.mkClassElement
    (ts.mkNamedDeclaration (node 211 ts.MethodSignature 32 "static g(): void;")
       (Some (ident 212 "g")) false) [].

Definition interfaceP : ast.TypeDeclaration :=
  ast.mkTypeDeclaration (node 200 ts.InterfaceDeclaration 2 "interface P {}")
    (Some (ident 213 "P")) None None [propX; methodF1; methodG; methodF2].

Definition enumE : externsDecl.EnumDeclaration :=
  externsDecl.mkEnumDeclaration (node 220 ts.EnumDeclaration 2 "enum E {}") (ident 221 "E")
    [ident 222 "A"; ts.mkName (node 223 ts.StringLiteral 0 "'b*/c'") "b*/c"].

Definition variables : list externsDecl.VariableDeclaration :=
  [externsDecl.mkVariableDeclaration (node 231 ts.VariableDeclaration 0 "exports: number")
     (ident 232 "exports");
   externsDecl.mkVariableDeclaration (node 233 ts.VariableDeclaration 0 "v: number")
     (ident 234 "v")].

Definition namespaceM : externs.Node :=
  externs.ModuleDeclaration (node 240 ts.ModuleDeclaration 2 "declare namespace m {}")
    (ident 241 "m")
    (Some (externs.ModuleBlock (node 242 ts.ModuleBlock 0 "{}")
             [externs.OtherStatement (ast.td_node interfaceP);
              externs.OtherStatement (externsDecl.ed_node enumE);
              externs.OtherStatement (node 230 ts.VariableStatement 2 "var exports, v;")])).

(** The remaining cases of the visitor for this file: every class or
    interface node is [P], every enum node [E], every variable statement
    the one of the file. *)
Definition otherStatement : ts.Node -> list string -> externs.State -> option externs.State :=
  externsDecl.otherStatement externsChecker externsTranslator printTags
    (fun _ => ts.mkType None) (fun _ _ => "?")
    (fun _ => interfaceP) (fun _ => variables) (fun _ => enumE) (fun name => name).

End ExternsExamples.

(** The step writes the text to the output, whatever the state, and
    nothing else. *)
Definition emitsText (f : externs.State -> externs.State) (text : string) : Prop :=
  forall st, f st = externs.emit text st.

(** The key of a method in the [methods] map of [writeExternsType]: its
    name and whether it is static. *)
Definition methodSignature {MF : ts.ModifierFlags} (method : ast.ClassElement) : string :=
  match ts.nd_name (ast.member method) with
  | Some name =>
      ts.getText (ts.name_node name) ++ "$$$" ++
      (if jsdoc_transformer.hasModifierFlag (ts.nd_node (ast.member method))
            ts.ModifierFlags_Static
       then "static" else "instance")
  | None => ""
  end.

(** A method signature or declaration. *)
Definition isMethodMember (m : ast.ClassElement) : bool :=
  match ts.kind (ts.nd_node (ast.member m)) with
  | ts.MethodSignature | ts.MethodDeclaration => true
  | _ => false
  end.

(** The declaration with other heritage clauses. *)
Definition withHeritageClauses (decl : ast.TypeDeclaration)
    (heritageClauses : option (list ast.HeritageClause)) : ast.TypeDeclaration :=
  ast.mkTypeDeclaration (ast.td_node decl) (ast.td_name decl) (ast.typeParameters decl)
    heritageClauses (ast.members decl).

(** The methods grouped by a key: the keys in order of first occurrence,
    the methods of a key in their order. *)
Definition groupedBy (key : ast.ClassElement -> string) (methods : list ast.ClassElement)
    : externsDecl.Methods :=
  map (fun k => (k, filter (fun m => String.eqb (key m) k) methods))
      (distinct (map key methods)).

(** ** More declarations for the externs generator *)
Module TypeExamples.
Import Examples.

(** A checker for which [C] is a class and any other name a symbol with a
    single declaration, and a translator on it. *)
Definition checker : ts.TypeChecker :=
  ts.mkTypeChecker
    (fun n => if String.eqb (ts.getText n) "C" then Some classSymbol else Some moduleSymbol)
    (fun sym => ts.mkType (Some sym))
    (fun sym => sym).

Definition translator : ModuleTypeTranslator :=
  mkModuleTypeTranslator checker quietHost
    (fun _ => mkTypeTranslator (fun _ => false) (fun sym _ => ts.symbol_name sym))
    (fun _ => "number")
    (fun _ => false)
    (fun _ => [])
    (fun _ => "?")
    (fun _ => moduleSymbol).

(** [declare class Q extends C { constructor(a: number); }] *)
Definition ctorQ : ast.ClassElement :=
  ast.mkClassElement
    (ts.mkNamedDeclaration (node 251 ts.Constructor 0 "constructor(a: number);") None false)
    [ExternsExamples.paramA 252 "a: number"].

Definition classQ : ast.TypeDeclaration :=
  ast.mkTypeDeclaration (node 250 ts.ClassDeclaration 2 "declare class Q extends C {}")
    (Some (ident 254 "Q")) None (Some [extendsC]) [ctorQ].

(** [interface Symbol {}] *)
Definition interfaceNamedSymbol : ast.TypeDeclaration :=
  ast.mkTypeDeclaration (node 260 ts.InterfaceDeclaration 2 "interface Symbol {}")
    (Some (ident 261 "Symbol")) None None [].

End TypeExamples.

(** * Theorems *)

(** ** Facts about the string primitives *)
Module JSFacts.
Import JS.

Lemma append_nil_r (s : string) : s ++ "" = s.
Proof. induction s as [|c s IH]; simpl; [reflexivity | now rewrite IH]. Qed.

Lemma append_assoc (a b c : string) : (a ++ b) ++ c = a ++ (b ++ c).
Proof. induction a as [|x a IH]; simpl; [reflexivity | now rewrite IH]. Qed.


Lemma adjacent_cons (x y c : ascii) (s : string) :
  adjacent x y (String c s) <->
  (exists d t, s = String d t /\ c = x /\ d = y) \/ adjacent x y s.
Proof.
  destruct s as [|d t]; simpl.
  - split; [intros [] | intros [(d & t & H & _) | []]; discriminate H].
  - split.
    + intros [[-> ->] | H]; [left; eauto | now right].
    + intros [(d' & t' & H & -> & ->) | H]; [injection H as -> _; now left | now right].
Qed.

Lemma includes_adjacent (x y : ascii) (s : string) :
  includes (String x (String y EmptyString)) s <-> adjacent x y s.
Proof.
  unfold includes. split.
  - intros (pre & post & ->).
    induction pre as [|c pre IH].
    + simpl. now left.
    + change (String c pre ++ String x (String y "") ++ post)
        with (String c (pre ++ String x (String y "") ++ post)).
      apply adjacent_cons. now right.
  - induction s as [|c s IH]; [intros [] |].
    intros H. apply adjacent_cons in H as [(d & t & -> & -> & ->) | H].
    + exists EmptyString, t. reflexivity.
    + destruct (IH H) as (pre & post & ->).
      exists (String c pre), post. reflexivity.
Qed.

Lemma replaceAll2_step (a b : ascii) (rep : string) (c d : ascii) (s : string) :
  replaceAll2 a b rep (String c (String d s)) =
  if (Ascii.eqb c a && Ascii.eqb d b)
  then rep ++ replaceAll2 a b rep s
  else String c (replaceAll2 a b rep (String d s)).
Proof. reflexivity. Qed.

(** The first character of the result of a replacement by [__] is [_] or
    the first character of the input. *)
Lemma replaceAll2_head (a b : ascii) (s : string) (d : ascii) (t : string) :
  replaceAll2 a b "__" s = String d t ->
  d = "_"%char \/ exists t', s = String d t'.
Proof.
  destruct s as [|c [|e s'']]; simpl; try discriminate.
  - intros H. injection H as -> _. right. eauto.
  - destruct (Ascii.eqb c a && Ascii.eqb e b).
    + intros H. injection H as <- _. now left.
    + intros H. injection H as -> _. right. eauto.
Qed.

(** Replacing every [ab] by [__] creates no new adjacent pair of
    characters other than [_], and leaves no [ab] behind. *)
Lemma replaceAll2_adjacent (a b x y : ascii) :
  x <> "_"%char -> y <> "_"%char ->
  forall s, adjacent x y (replaceAll2 a b "__" s) ->
            adjacent x y s /\ ~ (x = a /\ y = b).
Proof.
  intros Hx Hy s.
  assert (G : forall n s, String.length s <= n ->
            adjacent x y (replaceAll2 a b "__" s) ->
            adjacent x y s /\ ~ (x = a /\ y = b)).
  { clear s. induction n as [|n IH]; intros s Hlen.
    - destruct s; [intros [] | simpl in Hlen; lia].
    - destruct s as [|c [|e s'']]; try (intros []).
      rewrite replaceAll2_step.
      destruct (Ascii.eqb c a && Ascii.eqb e b) eqn:E.
      + change ("__" ++ replaceAll2 a b "__" s'')
          with (String "_" (String "_" (replaceAll2 a b "__" s''))).
        intros H.
        apply adjacent_cons in H as [(d & t & _ & Hc & _) | H];
          [now elim Hx |].
        apply adjacent_cons in H as [(d & t & _ & Hc & _) | H];
          [now elim Hx |].
        simpl in Hlen. destruct (IH s'' ltac:(lia) H) as [H1 H2].
        split; [| exact H2].
        apply adjacent_cons. right. apply adjacent_cons. now right.
      + intros H.
        apply adjacent_cons in H as [(d & t & Hd & -> & ->) | H].
        * apply replaceAll2_head in Hd as [Hd | (t' & Ht')]; [now elim Hy |].
          injection Ht' as -> _.
          split; [simpl; now left |].
          intros [-> ->]. rewrite !Ascii.eqb_refl in E. discriminate E.
        * simpl in Hlen. destruct (IH (String e s'') ltac:(simpl; lia) H) as [H1 H2].
          split; [| exact H2].
          apply adjacent_cons. now right. }
  exact (G (String.length s) s (le_n _)).
Qed.

End JSFacts.

(** ** synthesizeCommentRanges *)
Module SynthesizeFacts.
Import JS JSFacts.

Lemma rev_append (a b : string) : rev (a ++ b) = rev b ++ rev a.
Proof.
  induction a as [|x a IH]; simpl.
  - now rewrite append_nil_r.
  - now rewrite IH, append_assoc.
Qed.

Lemma rev_involutive (s : string) : rev (rev s) = s.
Proof.
  induction s as [|c s IH]; simpl; [reflexivity |].
  rewrite rev_append, IH. reflexivity.
Qed.

(** A block comment loses its opener and its closer. *)
Lemma strip_block (body : string) :
  stripSuffix "*/" (stripPrefix "/*" ("/*" ++ body ++ "*/")) = body.
Proof.
  unfold stripPrefix, stripSuffix, endsWith. simpl.
  rewrite rev_append. simpl. now rewrite rev_involutive.
Qed.

(** A line comment loses its two slashes. *)
Lemma strip_line (body : string) : stripPrefix "//" ("//" ++ body) = body.
Proof. reflexivity. Qed.

(** The loop only appends to the array it is given. *)
Lemma fold_synthesize (sf : ts.SourceFile) (parsed : list ts.CommentRange) :
  forall acc,
    fold_left (transformerUtil.synthesizeCommentRange sf) parsed acc =
    (acc ++
     map (fun c => ts.mkSynthesizedComment (ts.cr_kind c)
                     (stripDelimiters (ts.cr_kind c) (trimmedCommentText sf c))
                     (ts.cr_hasTrailingNewLine c) (-1) (-1))
         (filter (fun c => negb (isTripleSlash sf c)) parsed))%list.
Proof.
  induction parsed as [|c parsed IH]; intros acc; simpl.
  - now rewrite app_nil_r.
  - rewrite IH. clear IH.
    unfold transformerUtil.synthesizeCommentRange, isTripleSlash.
    fold (trimmedCommentText sf c).
    destruct (ts.cr_kind c) eqn:K; cbn [ts.SyntaxKind_eqb andb negb filter map];
      rewrite ?K; unfold stripDelimiters;
      try (rewrite <- app_assoc; reflexivity).
    destruct (startsWith "///" (trimmedCommentText sf c));
      cbn [negb filter map]; rewrite ?K; [reflexivity |].
    rewrite <- app_assoc. reflexivity.
Qed.

End SynthesizeFacts.

(** C9: [synthesizeCommentRanges] returns, in the order of the input, one
    synthesized comment for every range that is not a single-line comment
    whose trimmed text starts with three slashes; such comments are omitted.
    The comment returned for a range has the kind and the trailing-newline
    flag of the range, positions -1, and the trimmed text without the
    delimiters of its kind: a block comment loses its opener and closer, a
    line comment its two slashes. *)
Theorem synthesizeCommentRanges_omits_triple_slash_and_strips
    (sourceFile : ts.SourceFile) (parsedComments : list ts.CommentRange) :
  transformerUtil.synthesizeCommentRanges sourceFile parsedComments =
    map (fun c => ts.mkSynthesizedComment (ts.cr_kind c)
                    (stripDelimiters (ts.cr_kind c) (trimmedCommentText sourceFile c))
                    (ts.cr_hasTrailingNewLine c) (-1) (-1))
        (filter (fun c => negb (isTripleSlash sourceFile c)) parsedComments)
  /\ (forall body, stripDelimiters ts.MultiLineCommentTrivia ("/*" ++ body ++ "*/") = body)
  /\ (forall body, stripDelimiters ts.SingleLineCommentTrivia ("//" ++ body) = body).
Proof.
  split; [| split].
  - unfold transformerUtil.synthesizeCommentRanges.
    now rewrite SynthesizeFacts.fold_synthesize.
  - intros body. apply SynthesizeFacts.strip_block.
  - intros body. apply SynthesizeFacts.strip_line.
Qed.

(** ** Loops in the state monad *)
Module LoopFacts.

(** A loop whose body only appends to the accumulator appends, in order,
    what each turn appends. *)
Lemma forEach_appends {A T} (body : list T -> A -> M (list T)) (g : A -> list T) :
  (forall acc x st, fst (body acc x st) = (acc ++ g x)%list) ->
  forall xs acc st, fst (forEach xs acc body st) = (acc ++ flat_map g xs)%list.
Proof.
  intros Hbody. induction xs as [|x xs IH]; intros acc st; simpl.
  - now rewrite app_nil_r.
  - unfold bind. specialize (Hbody acc x st).
    destruct (body acc x st) as [acc' st']. simpl in Hbody. subst acc'.
    rewrite IH, <- app_assoc. reflexivity.
Qed.

End LoopFacts.

(** ** Heritage clauses *)
Module HeritageFacts.
Import jsdoc_transformer.
Section Facts.
Context {SF : ts.SymbolFlags} {MF : ts.ModifierFlags}.
Variable mtt : ModuleTypeTranslator.
Variable decl : ast.TypeDeclaration.

(** The loop body pushes the same tags whatever the array and the state. *)
Lemma addHeritageType_appends (isClass classHasSuperClass : bool)
    (heritage : ast.HeritageClause) (docTags : list jsdoc.Tag)
    (impl : ast.ExpressionWithTypeArguments) (st : State) :
  fst (addHeritageType mtt decl isClass classHasSuperClass heritage docTags impl st) =
  (docTags ++
   fst (addHeritageType mtt decl isClass classHasSuperClass heritage [] impl
          (mkState [] [])))%list.
Proof.
  unfold addHeritageType.
  destruct (ts.getSymbolAtLocation (typeChecker mtt) (ast.expression impl)) as [sym|].
  - destruct (if ts.testFlags (ts.flags sym) ts.SymbolFlags_TypeAlias
              then ts.type_symbol (ts.getDeclaredTypeOfSymbol (typeChecker mtt) sym)
              else Some sym) as [alias|];
      [| simpl; now rewrite app_nil_r].
    repeat match goal with
           | |- context [if ?b then _ else _] => destruct b
           end; simpl; now rewrite ?app_nil_r.
  - unfold bind, mtt_debugWarn, transformerUtil.debugWarn, ret.
    destruct (negb (logWarning (host mtt))); reflexivity.
Qed.

(** One clause appends the tags of its types. *)
Lemma addHeritageClause_appends (docTags : list jsdoc.Tag)
    (heritage : ast.HeritageClause) (st : State) :
  fst (addHeritageClause mtt decl (isClassDeclaration decl) (hasExtendsClause decl)
         docTags heritage st) =
  (docTags ++ emittedForClause mtt decl heritage)%list.
Proof.
  unfold addHeritageClause, emittedForClause, clauseTranslated.
  destruct (ast.types heritage) as [types|]; [| simpl; now rewrite app_nil_r].
  destruct (isClassDeclaration decl &&
            negb (ts.SyntaxKind_eqb (ast.token heritage) ts.ImplementsKeyword) &&
            negb (isAmbient (ast.td_node decl))) eqn:E.
  - simpl. now rewrite app_nil_r.
  - cbn [negb].
    apply LoopFacts.forEach_appends. intros acc x st'.
    apply addHeritageType_appends.
Qed.

(** The whole translation appends, clause by clause and type by type, the
    tags emitted for each heritage type. *)
Lemma maybeAddHeritageClauses_appends (docTags : list jsdoc.Tag) (st : State) :
  fst (maybeAddHeritageClauses docTags mtt decl st) =
  (docTags ++
   match ast.heritageClauses decl with
   | Some clauses => flat_map (emittedForClause mtt decl) clauses
   | None => []
   end)%list.
Proof.
  unfold maybeAddHeritageClauses.
  destruct (ast.heritageClauses decl) as [clauses|] eqn:E;
    [| simpl; now rewrite app_nil_r].
  apply LoopFacts.forEach_appends. intros acc x st'.
  pose proof (addHeritageClause_appends acc x st') as H.
  unfold hasExtendsClause, isClassDeclaration in H. rewrite E in H. exact H.
Qed.


End Facts.
End HeritageFacts.

(** C1 (amended): for a class or interface declaration with heritage
    clauses, the tags pushed are, clause by clause and type by type, those
    emitted for each heritage type of a translated clause.  For a heritage
    type whose resolved symbol is a class: no tag is emitted when the symbol
    is blacklisted, when the declaration is not a class, or when the
    declaration is a class with a runtime [extends] clause and the current
    clause is not that clause; otherwise exactly one tag is emitted and its
    name is [extends], also in an [implements] position. *)
Theorem heritage_class_symbol_tag {SF : ts.SymbolFlags} {MF : ts.ModifierFlags}
    (mtt : ModuleTypeTranslator) (decl : ast.TypeDeclaration)
    (clauses : list ast.HeritageClause) :
  ast.heritageClauses decl = Some clauses ->
  (forall docTags st,
     fst (jsdoc_transformer.maybeAddHeritageClauses docTags mtt decl st) =
     (docTags ++ flat_map (jsdoc_transformer.emittedForClause mtt decl) clauses)%list)
  /\
  (forall heritage impl alias,
     jsdoc_transformer.resolvedSymbol (typeChecker mtt) impl = Some alias ->
     ts.testFlags (ts.flags alias) ts.SymbolFlags_Class = true ->
     jsdoc_transformer.emittedFor mtt decl heritage impl =
       if isBlackListed (newTypeTranslator mtt (ast.expression impl)) alias then []
       else if negb (jsdoc_transformer.isClassDeclaration decl) then []
       else if jsdoc_transformer.hasExtendsClause decl &&
               negb (ts.SyntaxKind_eqb (ast.token heritage) ts.ExtendsKeyword) then []
       else [jsdoc.typedTag "extends"
               (symbolToString (newTypeTranslator mtt (ast.expression impl)) alias true)]).
Proof.
  intros Hc. split.
  - intros docTags st.
    rewrite HeritageFacts.maybeAddHeritageClauses_appends, Hc. reflexivity.
  - intros heritage impl alias Hres Hclass.
    unfold jsdoc_transformer.emittedFor, jsdoc_transformer.addHeritageType.
    unfold jsdoc_transformer.resolvedSymbol in Hres.
    destruct (ts.getSymbolAtLocation (typeChecker mtt) (ast.expression impl))
      as [sym|]; [| discriminate].
    destruct (if ts.testFlags (ts.flags sym) ts.SymbolFlags_TypeAlias
              then ts.type_symbol (ts.getDeclaredTypeOfSymbol (typeChecker mtt) sym)
              else Some sym) as [target|]; [| discriminate].
    injection Hres as Hres. rewrite Hres, Hclass.
    destruct (isBlackListed _ alias); [reflexivity |].
    destruct (jsdoc_transformer.isClassDeclaration decl); [| reflexivity].
    cbn [negb].
    destruct (jsdoc_transformer.hasExtendsClause decl &&
              negb (ts.SyntaxKind_eqb (ast.token heritage) ts.ExtendsKeyword));
      reflexivity.
Qed.

(** [class D implements C {}] with [C] a class: one tag, named [extends]. *)
Lemma heritage_class_symbol_tag_witness :
  ast.heritageClauses Examples.classD = Some [Examples.implementsC] /\
  fst (jsdoc_transformer.maybeAddHeritageClauses []
         (Examples.translator Examples.quietHost) Examples.classD Examples.initial) =
    [jsdoc.typedTag "extends" "C"].
Proof.
  split; [reflexivity |].
  destruct (heritage_class_symbol_tag (Examples.translator Examples.quietHost)
              Examples.classD [Examples.implementsC] eq_refl) as [Htags Hclass].
  rewrite Htags.
  change (flat_map _ [Examples.implementsC])
    with (jsdoc_transformer.emittedFor (Examples.translator Examples.quietHost)
            Examples.classD Examples.implementsC Examples.heritageC ++ [])%list.
  rewrite (Hclass Examples.implementsC Examples.heritageC Examples.classSymbol
             eq_refl eq_refl).
  reflexivity.
Defined.

(** C1 as stated fails: [interface J extends C {}] with [C] a class that
    is not blacklisted is not a class with an [extends] clause visited at an
    [implements] clause, so the statement requires a tag named [extends];
    no tag is emitted. *)
Lemma interface_extending_class_emits_no_tag :
  jsdoc_transformer.resolvedSymbol Examples.checker Examples.heritageC =
    Some Examples.classSymbol /\
  ts.testFlags (ts.flags Examples.classSymbol) ts.SymbolFlags_Class = true /\
  jsdoc_transformer.isClassDeclaration (ast.asTypeDeclaration Examples.interfaceJ) = false /\
  jsdoc_transformer.clauseTranslated (ast.asTypeDeclaration Examples.interfaceJ)
    Examples.extendsC = true /\
  fst (jsdoc_transformer.maybeAddHeritageClauses []
         (Examples.translator Examples.quietHost)
         (ast.asTypeDeclaration Examples.interfaceJ) Examples.initial) = [].
Proof. repeat split; reflexivity. Qed.

(** ** Properties of a member-type-declaration *)

(** C2 (amended): a property placed into a member-type-declaration whose
    name is usable (an identifier, or a string literal that is a valid
    Closure property name, and not empty) becomes a property access
    statement whose comment carries, after the property's own JSDoc tags, a
    [type] tag: when the property has a question token and its translated
    type is exactly [?] the tag carries [?|undefined]; for every other such
    property it carries the translated type unchanged.  A property without a
    usable name is not declared: a not-emitted statement with a comment
    stands for it, and it carries no tag at all, whatever its question token
    and its type. *)
Theorem optional_unknown_property_type
    (hasExportingDecorator : ts.Node -> ts.TypeChecker -> bool)
    (mtt : ModuleTypeTranslator) (expr : out.Expression)
    (prop : ts.NamedDeclaration) (st : State) :
  let type := typeToClosure mtt (ts.nd_node prop) in
  let emitted :=
    if ts.questionToken prop && String.eqb type "?" then "?|undefined" else type in
  match jsdoc_transformer.propertyName prop with
  | Some (String _ _ as name) =>
      exists declStmt,
        jsdoc_transformer.createClosurePropertyDeclaration hasExportingDecorator mtt expr
          prop st = (Some declStmt, st) /\
        out.shapeOf declStmt = out.ExpressionStatement (out.PropertyAccess expr name) /\
        out.getSyntheticLeadingComments declStmt =
          Some [jsdoc.toSynthesizedComment
                  (getJSDoc mtt (ts.nd_node prop) ++
                   [jsdoc.typedTag "type" emitted] ++
                   (if hasExportingDecorator (ts.nd_node prop) (typeChecker mtt)
                    then [jsdoc.tag "export"] else []))%list
                  jsdoc.TAGS_CONFLICTING_WITH_TYPE]
  | _ =>
      fst (jsdoc_transformer.createClosurePropertyDeclaration hasExportingDecorator mtt expr
             prop st) =
        Some (transformerUtil.createMultiLineComment (ts.nd_node prop)
                ("Skipping unnamed member:" ++ String "010" "" ++
                 escapeForComment (ts.getText (ts.nd_node prop)))) /\
      out.leadingTags
        (transformerUtil.createMultiLineComment (ts.nd_node prop)
           ("Skipping unnamed member:" ++ String "010" "" ++
            escapeForComment (ts.getText (ts.nd_node prop)))) = []
  end.
Proof.
  intros type emitted.
  unfold jsdoc_transformer.createClosurePropertyDeclaration.
  destruct (jsdoc_transformer.propertyName prop) as [[|c name]|].
  - unfold bind. destruct (mtt_debugWarn mtt (ts.nd_node prop) _ st). split; reflexivity.
  - fold type.
    assert (E : (if ts.questionToken prop && String.eqb type "?"
                 then type ++ "|undefined" else type) = emitted).
    { unfold emitted. destruct (ts.questionToken prop); [| reflexivity].
      cbn [andb]. destruct (String.eqb type "?") eqn:Q; [| reflexivity].
      apply String.eqb_eq in Q. rewrite Q. reflexivity. }
    rewrite E.
    eexists. split; [reflexivity |]. split; [reflexivity |].
    cbn. destruct (hasExportingDecorator (ts.nd_node prop) (typeChecker mtt));
      cbn; rewrite <- ?app_assoc; reflexivity.
  - unfold bind. destruct (mtt_debugWarn mtt (ts.nd_node prop) _ st). split; reflexivity.
Qed.

(** [foo?: any;] is declared with the type [?|undefined]. *)
Lemma optional_unknown_property_type_witness :
  exists declStmt,
    jsdoc_transformer.createClosurePropertyDeclaration Examples.noDecorator
      (Examples.translator Examples.quietHost)
      (out.PropertyAccess (out.Identifier "I") "prototype")
      Examples.optionalAny Examples.initial = (Some declStmt, Examples.initial) /\
    out.getSyntheticLeadingComments declStmt =
      Some [jsdoc.toSynthesizedComment [jsdoc.typedTag "type" "?|undefined"]
              jsdoc.TAGS_CONFLICTING_WITH_TYPE].
Proof.
  destruct (optional_unknown_property_type Examples.noDecorator
              (Examples.translator Examples.quietHost)
              (out.PropertyAccess (out.Identifier "I") "prototype")
              Examples.optionalAny Examples.initial) as (declStmt & Hrun & _ & Hcomment).
  exists declStmt. split; [exact Hrun | exact Hcomment].
Defined.

(** C2 as stated fails: in [interface W { 'complex name'?: any; }] the
    property is optional and its translated type is exactly [?], and it is
    placed into the member-type-declaration; the statement that stands for
    it there carries no [type] tag, so no tag carries [?|undefined]. *)
Lemma optional_property_without_usable_name_has_no_type_tag :
  ts.questionToken MoreExamples.complexName = true /\
  typeToClosure MoreExamples.unknownTranslator (ts.nd_node MoreExamples.complexName) = "?" /\
  jsdoc_transformer.propertyName MoreExamples.complexName = None /\
  exists stmt,
    fst (jsdoc_transformer.createMemberTypeDeclaration Examples.noDecorator
           MoreExamples.unknownTranslator MoreExamples.interfaceW Examples.initial) =
      Some (out.create (out.IfStatement out.FalseLiteral [stmt])) /\
    fst (jsdoc_transformer.createClosurePropertyDeclaration Examples.noDecorator
           MoreExamples.unknownTranslator
           (out.PropertyAccess (out.Identifier "W") "prototype")
           MoreExamples.complexName Examples.initial) = Some stmt /\
    out.shapeOf stmt = out.NotEmittedStatement (ts.nd_node MoreExamples.complexName) /\
    jsdoc.hasTagNamed "type" (out.leadingTags stmt) = false /\
    out.leadingTags stmt = [].
Proof.
  split; [reflexivity |]. split; [reflexivity |]. split; [reflexivity |].
  eexists. repeat split.
Qed.

(** ** Type aliases *)

(** C4: [visitTypeAliasDeclaration] emits the single statement
    [exports.<name>;] whose comment carries, after the alias's own JSDoc
    tags, a [typedef] tag, exactly when the symbol of the alias's name is not
    also a value, the alias is exported and the module option is CommonJS; in
    every other case it emits nothing. *)
Theorem type_alias_typedef_iff_exported_commonjs
    {SF : ts.SymbolFlags} {MF : ts.ModifierFlags}
    (tsOptions : ast.CompilerOptions) (mtt : ModuleTypeTranslator)
    (typeAlias : ast.TypeAliasDeclaration) :
  let sym := mustGetSymbolAtLocation mtt (ts.name_node (ast.ta_name typeAlias)) in
  let exported :=
    jsdoc_transformer.hasModifierFlag (ast.ta_node typeAlias) ts.ModifierFlags_Export in
  let isValue := ts.testFlags (ts.flags sym) ts.SymbolFlags_Value in
  let commonJS :=
    match ast.module tsOptions with
    | Some ts.CommonJS => true
    | _ => false
    end in
  let typeStr :=
    if untyped (host mtt) then "?" else typeToClosure mtt (ast.ta_node typeAlias) in
  let decl :=
    out.mkStatement
      (out.ExpressionStatement
         (out.PropertyAccess (out.Identifier "exports")
            (ts.getText (ts.name_node (ast.ta_name typeAlias)))))
      (Some [jsdoc.toSynthesizedComment
               (getJSDoc mtt (ast.ta_node typeAlias) ++ [jsdoc.typedTag "typedef" typeStr])%list
               jsdoc.TAGS_CONFLICTING_WITH_TYPE])
      None (Some (ast.ta_node typeAlias)) in
  jsdoc_transformer.visitTypeAliasDeclaration tsOptions mtt typeAlias =
    if exported && negb isValue && commonJS then [decl] else [].
Proof.
  intros sym exported isValue commonJS typeStr decl.
  unfold jsdoc_transformer.visitTypeAliasDeclaration.
  fold sym. fold isValue. fold exported.
  destruct isValue; [now rewrite andb_false_r |].
  destruct exported; [| reflexivity].
  assert (E : match ast.module tsOptions with
              | Some m => ts.ModuleKind_eqb m ts.CommonJS
              | None => false
              end = commonJS).
  { unfold commonJS. destruct (ast.module tsOptions) as [[]|]; reflexivity. }
  rewrite E. destruct commonJS; reflexivity.
Qed.

(** ** Interfaces *)
Module InterfaceFacts.
Import jsdoc_transformer.



End InterfaceFacts.







(** ** Variable statements *)
Module VariableFacts.
Import jsdoc_transformer.
Section Facts.
Variable mtt : ModuleTypeTranslator.
Variable varStmt : ast.VariableStatement.
Variable flags : Z.

(** One turn of the loop: the pending tags are consumed and one statement
    is pushed, carrying the pending tags and the declarator's [type] tag. *)
Lemma visitVariableDeclaration_step (tags : option (list jsdoc.Tag))
    (stmts : list out.Statement) (decl : out.VariableDeclaration) :
  exists newStmt,
    visitVariableDeclaration mtt varStmt flags (tags, stmts) decl
      = (None, (stmts ++ [newStmt])%list) /\
    out.shapeOf newStmt = out.VariableStatement (ast.vs_modifiers varStmt) [decl] flags /\
    out.leadingTags newStmt =
      ((match tags with Some t => t | None => [] end) ++ typeTagsOf mtt decl)%list.
Proof.
  unfold visitVariableDeclaration, typeTagsOf.
  eexists. split; [reflexivity |].
  set (localTags := match out.vd_name decl with
                    | out.BindingIdentifier _ => _
                    | out.BindingPattern _ => _
                    end).
  assert (E : localTags =
              ((match tags with Some t => t | None => [] end) ++
               match out.vd_name decl with
               | out.BindingIdentifier _ =>
                   if (match out.initializer decl with Some _ => true | None => false end) &&
                      mtt_isBlackListed mtt (out.vd_node decl)
                   then []
                   else [jsdoc.typedTag "type" (typeToClosure mtt (out.getOriginalNode decl))]
               | out.BindingPattern _ => []
               end)%list).
  { unfold localTags. destruct (out.vd_name decl); [| now rewrite app_nil_r].
    destruct (_ && _); cbn [negb]; [now rewrite app_nil_r | reflexivity]. }
  rewrite <- E. clearbody localTags. clear E.
  destruct localTags as [|t l]; split; try reflexivity.
  cbn. now rewrite app_nil_r.
Qed.

(** The loop pushes one statement per declarator, in order; the first
    carries the pending tags. *)
Lemma visitVariableDeclarations (decls : list out.VariableDeclaration) :
  forall tags stmts,
  exists newStmts,
    snd (fold_left (visitVariableDeclaration mtt varStmt flags) decls (tags, stmts))
      = (stmts ++ newStmts)%list /\
    List.length newStmts = List.length decls /\
    forall i decl, nth_error decls i = Some decl ->
      exists newStmt,
        nth_error newStmts i = Some newStmt /\
        out.shapeOf newStmt = out.VariableStatement (ast.vs_modifiers varStmt) [decl] flags /\
        out.leadingTags newStmt =
          ((match i, tags with O, Some t => t | _, _ => [] end) ++ typeTagsOf mtt decl)%list.
Proof.
  induction decls as [|d decls IH]; intros tags stmts.
  - exists []. cbn. rewrite app_nil_r. repeat split.
    intros [|i] decl H; discriminate H.
  - destruct (visitVariableDeclaration_step tags stmts d) as (s & Hstep & Hshape & Htags).
    destruct (IH None (stmts ++ [s])%list) as (rest & Hrest & Hlen & Hnth).
    exists (s :: rest). cbn [fold_left]. rewrite Hstep, Hrest, <- app_assoc.
    split; [reflexivity |]. split; [cbn; now rewrite Hlen |].
    intros [|i] decl H.
    + injection H as <-. exists s. split; [reflexivity |]. split; [exact Hshape |].
      rewrite Htags. destruct tags; reflexivity.
    + destruct (Hnth i decl H) as (s' & Hs' & Hshape' & Htags').
      exists s'. split; [exact Hs' |]. split; [exact Hshape' |].
      rewrite Htags'. destruct i; reflexivity.
Qed.

End Facts.
End VariableFacts.

(** C3: [visitVariableStatement] returns, after the optional holder of the
    non-JSDoc comments, one variable statement per declarator, in order.  The
    tags inherited by a statement are the JSDoc tags of the original
    statement for the first declarator and none for the others.  For a
    declarator whose binding is a plain identifier the statement carries the
    inherited tags followed by a [type] tag with the declarator's type,
    except when the declarator has an initializer and is blacklisted: then
    nothing is added to the inherited tags.  In particular a blacklisted
    declarator without initializer, whose type the translator renders as
    [?], gets the tag [type {?}].  For a destructuring binding nothing is
    added to the inherited tags. *)
Theorem variable_declarators_type_tags (mtt : ModuleTypeTranslator)
    (visitDeclarationList : list out.VariableDeclaration -> list out.VariableDeclaration)
    (varStmt : ast.VariableStatement) :
  let decls := visitDeclarationList (ast.declarationList varStmt) in
  let holder :=
    match ast.vs_syntheticLeadingComments varStmt with
    | Some leading =>
        [out.setSyntheticLeadingComments
           (out.create (out.NotEmittedStatement (ast.vs_node varStmt)))
           (map jsdoc.textComment (filter jsdoc_transformer.isNotJSDoc leading))]
    | None => []
    end in
  exists newStmts,
    jsdoc_transformer.visitVariableStatement mtt visitDeclarationList varStmt
      = (holder ++ newStmts)%list /\
    List.length newStmts = List.length decls /\
    forall i decl, nth_error decls i = Some decl ->
      exists newStmt,
        nth_error newStmts i = Some newStmt /\
        out.shapeOf newStmt =
          out.VariableStatement (ast.vs_modifiers varStmt) [decl]
            (ast.getCombinedNodeFlags varStmt) /\
        let inherited :=
          match i with O => getJSDoc mtt (ast.vs_node varStmt) | S _ => [] end in
        let type := typeToClosure mtt (out.getOriginalNode decl) in
        (forall name, out.vd_name decl = out.BindingIdentifier name ->
           (out.initializer decl <> None ->
            mtt_isBlackListed mtt (out.vd_node decl) = true ->
            out.leadingTags newStmt = inherited) /\
           (out.initializer decl = None \/
            mtt_isBlackListed mtt (out.vd_node decl) = false ->
            out.leadingTags newStmt = (inherited ++ [jsdoc.typedTag "type" type])%list) /\
           (out.initializer decl = None ->
            mtt_isBlackListed mtt (out.vd_node decl) = true ->
            type = "?" ->
            out.leadingTags newStmt = (inherited ++ [jsdoc.typedTag "type" "?"])%list)) /\
        (forall kind, out.vd_name decl = out.BindingPattern kind ->
           out.leadingTags newStmt = inherited).
Proof.
  intros decls holder.
  unfold jsdoc_transformer.visitVariableStatement. fold decls.
  destruct (VariableFacts.visitVariableDeclarations mtt varStmt
              (ast.getCombinedNodeFlags varStmt) decls
              (Some (getJSDoc mtt (ast.vs_node varStmt)))
              (match ast.vs_syntheticLeadingComments varStmt with
               | Some leading =>
                   ([] ++
                    [out.setSyntheticLeadingComments
                       (out.create (out.NotEmittedStatement (ast.vs_node varStmt)))
                       (map jsdoc.textComment
                          (filter jsdoc_transformer.isNotJSDoc leading))])%list
               | None => []
               end)) as (newStmts & Hrun & Hlen & Hnth).
  exists newStmts. split; [| split; [exact Hlen |]].
  - rewrite Hrun. unfold holder.
    destruct (ast.vs_syntheticLeadingComments varStmt); reflexivity.
  - intros i decl Hi.
    destruct (Hnth i decl Hi) as (newStmt & Hs & Hshape & Htags).
    exists newStmt. split; [exact Hs |]. split; [exact Hshape |].
    cbv zeta.
    set (inherited := match i with
                      | O => getJSDoc mtt (ast.vs_node varStmt)
                      | S _ => []
                      end) in *.
    set (type := typeToClosure mtt (out.getOriginalNode decl)).
    unfold jsdoc_transformer.typeTagsOf in Htags. fold type in Htags.
    split.
    + intros name Hname. rewrite Hname in Htags.
      split; [| split].
      * intros Hinit Hblack. rewrite Htags, Hblack.
        destruct (out.initializer decl); [now rewrite app_nil_r | now elim Hinit].
      * intros [Hinit | Hblack]; rewrite Htags.
        -- rewrite Hinit. reflexivity.
        -- rewrite Hblack, andb_false_r. reflexivity.
      * intros Hinit _ Hq. rewrite Htags, Hinit. cbn [andb].
        rewrite Hq. reflexivity.
    + intros kind Hkind. rewrite Hkind in Htags. rewrite Htags.
      now rewrite app_nil_r.
Qed.

(** [var a = f(), b, {c} = o;] with [a] and [b] of a blacklisted type:
    three statements; no tag on the first, [type {?}] on the second, no tag
    on the third. *)
Lemma variable_declarators_type_tags_witness :
  exists newStmts,
    jsdoc_transformer.visitVariableStatement (Examples.translator Examples.quietHost)
      Examples.unchanged Examples.varABC = newStmts /\
    map out.leadingTags newStmts = [[]; [jsdoc.typedTag "type" "?"]; []].
Proof.
  destruct (variable_declarators_type_tags (Examples.translator Examples.quietHost)
              Examples.unchanged Examples.varABC) as (newStmts & Hrun & _ & _).
  change (jsdoc_transformer.visitVariableStatement
            (Examples.translator Examples.quietHost) Examples.unchanged Examples.varABC
          = newStmts) in Hrun.
  exists newStmts. split; [exact Hrun |].
  rewrite <- Hrun. reflexivity.
Defined.

(** ** The externs generator *)
Module ExternsFacts.
Import externs JSFacts.

Section Facts.
Variable typeChecker : ts.TypeChecker.
Variable mtt : ModuleTypeTranslator.
Variable jsdoc_toString : list jsdoc.Tag -> string.
Variable otherStatement : ts.Node -> list string -> State -> option State.

(** What the visit of a function declaration emits when the declaration is
    the first function declaration of its symbol. *)
Lemma visit_first (sym : ts.Symbol) (declarations rest : list ts.FunctionLikeDeclaration)
    (first : ts.FunctionLikeDeclaration) (name : ts.Name)
    (namespace : list string) (st : State) :
  ts.fn_name first = Some name ->
  ts.kind (ts.name_node name) = ts.Identifier ->
  ts.getSymbolAtLocation typeChecker (ts.name_node name) = Some sym ->
  ts.declarations sym = Some declarations ->
  filter (fun d => ts.SyntaxKind_eqb (ts.kind (ts.fn_node d)) ts.FunctionDeclaration)
         declarations = first :: rest ->
  visitFunctionDeclaration typeChecker mtt jsdoc_toString first namespace st =
    Some (mkState
            (output st ++
             functionStub
               (jsdoc_toString (fst (getFunctionTypeJSDoc mtt (first :: rest) [])))
               (ts.getText (ts.name_node name))
               (snd (getFunctionTypeJSDoc mtt (first :: rest) []))
               namespace)
            (diagnostics st)).
Proof.
  intros Hname Hkind Hsym Hdecls Hfilter.
  unfold visitFunctionDeclaration. rewrite Hname, Hsym, Hdecls, Hfilter.
  unfold ts.sameNode. rewrite Nat.eqb_refl. cbn [negb].
  unfold emitFunctionType.
  destruct (getFunctionTypeJSDoc mtt (first :: rest) []) as [tags params].
  cbn [fst snd app]. unfold writeExternsFunction. rewrite Hkind.
  unfold functionStub, emit.
  destruct namespace as [|n ns]; cbn -[JS.join String.append];
    rewrite !append_assoc; reflexivity.
Qed.

(** The visit of a later function declaration of the symbol emits nothing. *)
Lemma visit_later (sym : ts.Symbol) (declarations rest : list ts.FunctionLikeDeclaration)
    (first d : ts.FunctionLikeDeclaration) (name : ts.Name)
    (namespace : list string) (st : State) :
  ts.fn_name d = Some name ->
  ts.getSymbolAtLocation typeChecker (ts.name_node name) = Some sym ->
  ts.declarations sym = Some declarations ->
  filter (fun d => ts.SyntaxKind_eqb (ts.kind (ts.fn_node d)) ts.FunctionDeclaration)
         declarations = first :: rest ->
  ts.node_id (ts.fn_node d) <> ts.node_id (ts.fn_node first) ->
  visitFunctionDeclaration typeChecker mtt jsdoc_toString d namespace st = Some st.
Proof.
  intros Hname Hsym Hdecls Hfilter Hid.
  unfold visitFunctionDeclaration. rewrite Hname, Hsym, Hdecls, Hfilter.
  unfold ts.sameNode. apply Nat.eqb_neq in Hid. rewrite Hid. reflexivity.
Qed.

End Facts.
End ExternsFacts.

(** C7: for a function symbol whose function declarations are the
    overloads [first :: rest], distinct nodes whose names resolve to the
    symbol: the visit of [first] emits the function stub; the visit of any
    other overload emits nothing; a declaration file made of the overloads
    yields exactly one stub; the parameter names of the stub are those of the
    first overload, and the tags of its comment are one [param] tag per
    parameter position, carrying the union of the types the overloads give
    that position, followed by one [return] tag carrying the union of the
    return types of all overloads. *)
Theorem overloads_emit_one_merged_stub {MF : ts.ModifierFlags}
    (typeChecker : ts.TypeChecker) (mtt : ModuleTypeTranslator)
    (jsdoc_toString : list jsdoc.Tag -> string)
    (otherStatement : ts.Node -> list string -> externs.State -> option externs.State)
    (sym : ts.Symbol) (declarations rest : list ts.FunctionLikeDeclaration)
    (first : ts.FunctionLikeDeclaration) (name : ts.Name) :
  ts.declarations sym = Some declarations ->
  filter (fun d => ts.SyntaxKind_eqb (ts.kind (ts.fn_node d)) ts.FunctionDeclaration)
         declarations = first :: rest ->
  NoDup (map (fun d => ts.node_id (ts.fn_node d)) (first :: rest)) ->
  ts.fn_name first = Some name ->
  ts.kind (ts.name_node name) = ts.Identifier ->
  (forall d, In d (first :: rest) ->
     exists n, ts.fn_name d = Some n /\
               ts.getSymbolAtLocation typeChecker (ts.name_node n) = Some sym) ->
  let overloads := first :: rest in
  let tags := fst (getFunctionTypeJSDoc mtt overloads []) in
  let params := snd (getFunctionTypeJSDoc mtt overloads []) in
  let stub := externs.functionStub (jsdoc_toString tags)
                (ts.getText (ts.name_node name)) params in
  (forall namespace st,
     externs.visitor typeChecker mtt jsdoc_toString otherStatement
       (externs.FunctionDeclaration first) namespace st =
     Some (externs.mkState (externs.output st ++ stub namespace) (externs.diagnostics st)))
  /\
  (forall d namespace st, In d rest ->
     externs.visitor typeChecker mtt jsdoc_toString otherStatement
       (externs.FunctionDeclaration d) namespace st = Some st)
  /\
  externs.createExterns typeChecker mtt jsdoc_toString otherStatement true
    (map externs.FunctionDeclaration overloads) = Some (externs.mkState (stub []) [])
  /\
  params = parameterNamesFrom 0 (ts.fn_parameters first)
  /\
  exists paramTags,
    tags =
      (paramTags ++
       [jsdoc.typedTag "return"
          (unionType (map (fun f => returnTypeToClosure mtt (ts.fn_node f)) overloads))])%list /\
    List.length paramTags =
      list_max (map (fun f => List.length (ts.fn_parameters f)) overloads) /\
    forall i t, nth_error paramTags i = Some t ->
      jsdoc.tagName t = "param" /\
      jsdoc.type t =
        Some (unionType (map (fun p => typeToClosure mtt (ts.nd_node p))
                             (parametersAt i overloads))).
Proof.
  intros Hdecls Hfilter Hnodup Hname Hkind Hall overloads tags params stub.
  assert (Hsym : ts.getSymbolAtLocation typeChecker (ts.name_node name) = Some sym).
  { destruct (Hall first (or_introl eq_refl)) as (n & Hn & Hs).
    rewrite Hname in Hn. injection Hn as <-. exact Hs. }
  assert (Hfirst : forall namespace st,
     externs.visitor typeChecker mtt jsdoc_toString otherStatement
       (externs.FunctionDeclaration first) namespace st =
     Some (externs.mkState (externs.output st ++ stub namespace) (externs.diagnostics st))).
  { intros namespace st. cbn [externs.visitor].
    exact (ExternsFacts.visit_first typeChecker mtt jsdoc_toString sym declarations rest
             first name namespace st Hname Hkind Hsym Hdecls Hfilter). }
  assert (Hrest : forall d namespace st, In d rest ->
     externs.visitor typeChecker mtt jsdoc_toString otherStatement
       (externs.FunctionDeclaration d) namespace st = Some st).
  { intros d namespace st Hin. cbn [externs.visitor].
    destruct (Hall d (or_intror Hin)) as (n & Hn & Hs).
    apply (ExternsFacts.visit_later typeChecker mtt jsdoc_toString sym declarations rest
             first d n namespace st Hn Hs Hdecls Hfilter).
    cbn [map] in Hnodup. apply NoDup_cons_iff in Hnodup as [Hnotin _].
    intros Heq. apply Hnotin. rewrite <- Heq.
    apply (in_map (fun d => ts.node_id (ts.fn_node d))). exact Hin. }
  split; [exact Hfirst |]. split; [exact Hrest |]. split; [| split].
  - unfold externs.createExterns, overloads. cbn [map externs.visitStatements negb andb].
    rewrite Hfirst. cbn [externs.output externs.diagnostics String.append].
    assert (Hskip : forall l st, (forall d, In d l -> In d rest) ->
              externs.visitStatements typeChecker mtt jsdoc_toString otherStatement true
                (map externs.FunctionDeclaration l) st = Some st).
    { induction l as [|d l IH]; intros st Hl; [reflexivity |].
      cbn [map externs.visitStatements negb andb].
      rewrite (Hrest d [] st (Hl d (or_introl eq_refl))).
      apply IH. intros d' Hd'. apply Hl. now right. }
    apply Hskip. auto.
  - reflexivity.
  - exists (map (fun i =>
              let ps := parametersAt i overloads in
              jsdoc.mkTag "param"
                (match ps with p :: _ => Some (parameterNameAt i p) | [] => None end)
                (Some (unionType (map (fun p => typeToClosure mtt (ts.nd_node p)) ps)))
                None
                (Nat.ltb (List.length ps) (List.length overloads) ||
                 existsb ts.questionToken ps)
                false)
              (seq 0 (list_max (map (fun f => List.length (ts.fn_parameters f)) overloads)))).
    split; [reflexivity |]. split; [now rewrite length_map, length_seq |].
    intros i t Hi. rewrite nth_error_map in Hi.
    destruct (nth_error (seq 0 _) i) as [j|] eqn:Hj; [| discriminate Hi].
    assert (j = i).
    { pose proof (nth_error_nth _ _ 0 Hj) as Hnth.
      assert (Hlt : i < List.length (seq 0 (list_max (map (fun f =>
                 List.length (ts.fn_parameters f)) overloads)))).
      { apply nth_error_Some. rewrite Hj. discriminate. }
      rewrite length_seq in Hlt.
      rewrite seq_nth in Hnth by exact Hlt. now rewrite <- Hnth. }
    subst j. injection Hi as <-. split; reflexivity.
Qed.

(** The two overloads [f(x: number): void] and [f(x: string): number] in a
    declaration file: one stub, with the merged parameter and return types. *)
Lemma overloads_emit_one_merged_stub_witness :
  externs.createExterns Examples.externsChecker Examples.externsTranslator
    Examples.printTags Examples.noOtherStatement true
    [externs.FunctionDeclaration Examples.overload1;
     externs.FunctionDeclaration Examples.overload2] =
  Some (externs.mkState
          (externs.LF ++ "/**" ++ externs.LF ++
           " * @param {(number|string)} x" ++ externs.LF ++
           " * @return {(void|number)}" ++ externs.LF ++
           " */" ++ externs.LF ++
           "function f(x) {}" ++ externs.LF) []).
Proof.
  assert (Hnodup : NoDup (map (fun d => ts.node_id (ts.fn_node d))
                            [Examples.overload1; Examples.overload2])).
  { repeat constructor; cbn; intuition discriminate. }
  assert (Hall : forall d, In d [Examples.overload1; Examples.overload2] ->
            exists n, ts.fn_name d = Some n /\
                      ts.getSymbolAtLocation Examples.externsChecker (ts.name_node n)
                        = Some Examples.symbolF).
  { intros d [<- | [<- | []]]; eexists; split; reflexivity. }
  destruct (overloads_emit_one_merged_stub Examples.externsChecker
              Examples.externsTranslator Examples.printTags Examples.noOtherStatement
              Examples.symbolF [Examples.overload1; Examples.overload2]
              [Examples.overload2] Examples.overload1 (Examples.ident 91 "f")
              eq_refl eq_refl Hnodup eq_refl eq_refl Hall) as (_ & _ & Hfile & _).
  etransitivity; [exact Hfile | reflexivity].
Defined.

(** *** The mangling of module names *)
Module MangleFacts.
Import externs JS.

Lemma replaceAllClass_length (p : ascii -> bool) (s : string) :
  String.length (replaceAllClass p "_" s) = String.length s.
Proof.
  induction s as [|c s IH]; [reflexivity |].
  cbn [replaceAllClass]. destruct (p c); cbn; now rewrite IH.
Qed.

Lemma doubleAll_length (s : string) :
  String.length (replaceAllClass (fun c => Ascii.eqb c "_") "__" s) =
  String.length s + countChar "_" s.
Proof.
  induction s as [|c s IH]; [reflexivity |].
  cbn [replaceAllClass countChar]. destruct (Ascii.eqb c "_"); cbn; rewrite IH; lia.
Qed.

Lemma doubleFirst_length (s : string) :
  String.length (replaceFirstChar "_" "__" s) =
  String.length s + Nat.min 1 (countChar "_" s).
Proof.
  induction s as [|c s IH]; [reflexivity |].
  cbn [replaceFirstChar countChar]. destruct (Ascii.eqb c "_").
  - cbn [String.append String.length Nat.add]. lia.
  - cbn [String.length]. rewrite IH. cbn [Nat.add]. lia.
Qed.

Lemma doubleAll_none (s : string) :
  countChar "_" s = 0 -> replaceAllClass (fun c => Ascii.eqb c "_") "__" s = s.
Proof.
  induction s as [|c s IH]; [reflexivity |].
  cbn [replaceAllClass countChar]. destruct (Ascii.eqb c "_"); [discriminate |].
  intros H. now rewrite IH.
Qed.

Lemma doubleFirst_doubleAll (s : string) :
  countChar "_" s <= 1 ->
  replaceFirstChar "_" "__" s = replaceAllClass (fun c => Ascii.eqb c "_") "__" s.
Proof.
  induction s as [|c s IH]; [reflexivity |].
  cbn [replaceFirstChar replaceAllClass countChar].
  destruct (Ascii.eqb c "_"); intros H.
  - rewrite doubleAll_none by lia. reflexivity.
  - now rewrite IH.
Qed.

(** The key the code computes is the described one exactly for the names
    with at most one underscore. *)
Lemma mangleImportName_as_described_iff (importName : string) :
  mangleImportName importName = mangleAsDescribed importName <->
  countChar "_" importName <= 1.
Proof.
  unfold mangleImportName, mangleAsDescribed. split.
  - intros H. apply (f_equal String.length) in H.
    rewrite !replaceAllClass_length, doubleAll_length, doubleFirst_length in H. lia.
  - intros H. now rewrite doubleFirst_doubleAll.
Qed.

End MangleFacts.

(** C8, the mangling at work: the key emitted for [declare module "a_b_c"]
    is [a__b_c], with only the first underscore doubled, where doubling every
    underscore gives [a__b__c]; for [foo-bar/baz], which has no underscore,
    both give [foo_bar_baz]. *)
Theorem declared_module_key_doubles_first_underscore_only :
  externs.mangleImportName "a_b_c" = "a__b_c" /\
  externs.mangleAsDescribed "a_b_c" = "a__b__c" /\
  externs.mangleImportName "foo-bar/baz" = "foo_bar_baz" /\
  externs.mangleAsDescribed "foo-bar/baz" = "foo_bar_baz" /\
  externs.createExterns Examples.externsChecker Examples.externsTranslator
    Examples.printTags Examples.noOtherStatement true [Examples.moduleABC] =
  Some (externs.mkState
          ("/** @const */" ++ externs.LF ++
           "var tsickle_declare_module = {};" ++ externs.LF ++
           "// Derived from: declare module " ++
           externs.dquote ++ "a_b_c" ++ externs.dquote ++ externs.LF ++
           "/** @const */" ++ externs.LF ++
           "tsickle_declare_module.a__b_c = {};" ++ externs.LF) []).
Proof. repeat split; reflexivity. Qed.

(** ** Scenarios: the definitions run on concrete inputs *)

(** [class E extends C implements C {}]: the [extends] clause stays in the
    ES6 output and the [implements] clause of the class [C] is skipped. *)
Example class_with_superclass_implementing_class :
  fst (jsdoc_transformer.maybeAddHeritageClauses []
         (Examples.translator Examples.quietHost) Examples.classE Examples.initial) = [].
Proof. reflexivity. Qed.

(** [declare class F extends C {}]: an ambient class gets the tag. *)
Example ambient_class_extends :
  fst (jsdoc_transformer.maybeAddHeritageClauses []
         (Examples.translator Examples.quietHost) Examples.classF Examples.initial) =
  [jsdoc.typedTag "extends" "C"].
Proof. reflexivity. Qed.

(** [class K { constructor(public x: number) {} }] gets the sibling
    [if (false) { K.prototype.x; }], the property carrying [type {number}]. *)
Example class_with_parameter_property :
  fst (jsdoc_transformer.createMemberTypeDeclaration Examples.noDecorator
         (Examples.translator Examples.quietHost) Examples.classK Examples.initial) =
  Some (out.create
          (out.IfStatement out.FalseLiteral
             [out.mkStatement
                (out.ExpressionStatement
                   (out.PropertyAccess
                      (out.PropertyAccess (out.Identifier "K") "prototype") "x"))
                (Some [jsdoc.toSynthesizedComment [jsdoc.typedTag "type" "number"]
                         jsdoc.TAGS_CONFLICTING_WITH_TYPE])
                None (Some (ts.nd_node Examples.paramX))])).
Proof. reflexivity. Qed.

(** [export type T = number;] yields [exports.T] with a typedef under
    CommonJS and nothing under ES2015. *)
Example exported_alias_by_module_kind :
  map out.leadingTags
    (jsdoc_transformer.visitTypeAliasDeclaration Examples.commonJS
       (Examples.translator Examples.quietHost) Examples.aliasT) =
    [[jsdoc.typedTag "typedef" "number"]] /\
  jsdoc_transformer.visitTypeAliasDeclaration Examples.es2015
    (Examples.translator Examples.quietHost) Examples.aliasT = [].
Proof. split; reflexivity. Qed.

(** A triple-slash directive, a line comment and a block comment. *)
Example comment_ranges_of_a_file :
  map ts.sc_text
    (transformerUtil.synthesizeCommentRanges
       (ts.mkSourceFile "a.ts"
          ("/// <reference/>" ++ externs.LF ++ "// one" ++ externs.LF ++ "/* two */ x"))
       [ts.mkCommentRange ts.SingleLineCommentTrivia 0 16 (Some true);
        ts.mkCommentRange ts.SingleLineCommentTrivia 17 23 (Some true);
        ts.mkCommentRange ts.MultiLineCommentTrivia 24 33 None]) =
  [" one"; " two "].
Proof. reflexivity. Qed.

(** Overlapping delimiters: the slash-star is replaced first. *)
Example escape_overlapping_delimiters :
  escapeForComment "a/*b*/c */* d" = "a__b__c *__ d".
Proof. reflexivity. Qed.

(** * Further properties of the sources *)

(** ** More facts about strings *)
Module StringFacts.
Import JS JSFacts.

(** Induction following a scan that consumes one or two characters. *)
Lemma string_ind2 (P : string -> Prop) :
  P EmptyString ->
  (forall c, P (String c EmptyString)) ->
  (forall c d s, P s -> P (String d s) -> P (String c (String d s))) ->
  forall s, P s.
Proof.
  intros H0 H1 H2 s.
  assert (G : P s /\ forall c, P (String c s)); [| exact (proj1 G)].
  induction s as [|d s [IH1 IH2]]; split; auto.
Qed.

Lemma replaceAll2_length (a b : ascii) (s : string) :
  String.length (replaceAll2 a b "__" s) = String.length s.
Proof.
  induction s as [| c | c d s IH1 IH2] using string_ind2; try reflexivity.
  rewrite replaceAll2_step. destruct (Ascii.eqb c a && Ascii.eqb d b).
  - cbn [String.append String.length]. now rewrite IH1.
  - cbn [String.length]. rewrite IH2. reflexivity.
Qed.

(** A string without the pattern is left alone. *)
Lemma replaceAll2_absent (a b : ascii) (rep s : string) :
  ~ adjacent a b s -> replaceAll2 a b rep s = s.
Proof.
  induction s as [| c | c d s IH1 IH2] using string_ind2; try reflexivity.
  intros H. rewrite replaceAll2_step.
  destruct (Ascii.eqb c a && Ascii.eqb d b) eqn:E.
  - apply andb_true_iff in E as [E1 E2].
    apply Ascii.eqb_eq in E1, E2. subst. elim H. simpl. now left.
  - rewrite IH2; [reflexivity |].
    intros H'. apply H. apply adjacent_cons. now right.
Qed.

(** After both replacements neither delimiter is left. *)
Lemma escapeForComment_free (s : string) :
  ~ adjacent "/" "*" (escapeForComment s) /\ ~ adjacent "*" "/" (escapeForComment s).
Proof.
  unfold escapeForComment. split; intros H.
  - apply replaceAll2_adjacent in H as [H _]; [| discriminate | discriminate].
    apply replaceAll2_adjacent in H as [_ H]; [| discriminate | discriminate].
    now apply H.
  - apply replaceAll2_adjacent in H as [_ H]; [| discriminate | discriminate].
    now apply H.
Qed.

(** Adjacent characters of a concatenation are adjacent in one part or
    sit across the seam. *)
Lemma adjacent_app (x y : ascii) (s t : string) :
  adjacent x y (s ++ t) ->
  adjacent x y s \/ adjacent x y t \/
  (exists s' t', s = s' ++ String x EmptyString /\ t = String y t').
Proof.
  induction s as [|c s IH]; [intros H; right; now left |].
  change (String c s ++ t) with (String c (s ++ t)).
  intros H. apply adjacent_cons in H as [(d & u & Hd & -> & ->) | H].
  - destruct s as [|e s].
    + right. right. exists EmptyString, u. split; [reflexivity | exact Hd].
    + injection Hd as -> _. left. simpl. now left.
  - destruct (IH H) as [H1 | [H2 | (s' & t' & -> & ->)]].
    + left. apply adjacent_cons. now right.
    + right. now left.
    + right. right. exists (String c s'), t'. split; reflexivity.
Qed.

Lemma substring_empty (n m : nat) : String.substring n m EmptyString = EmptyString.
Proof. destruct n, m; reflexivity. Qed.

Lemma substring_zero (n : nat) (s : string) : String.substring n 0 s = EmptyString.
Proof.
  revert n. induction s as [|c s IH]; intros n; [apply substring_empty |].
  destruct n; [reflexivity | apply IH].
Qed.

Lemma substring_length_le (s : string) :
  forall n m, String.length (String.substring n m s) <= m.
Proof.
  induction s as [|c s IH]; intros n m.
  - rewrite substring_empty. cbn. lia.
  - destruct n, m; cbn; try lia.
    + specialize (IH 0 m). lia.
    + apply IH.
    + apply IH.
Qed.

(** A substring of a substring is a substring of the whole. *)
Lemma substring_substring (s : string) :
  forall a k p m, p + m <= k ->
    String.substring p m (String.substring a k s) = String.substring (a + p) m s.
Proof.
  induction s as [|c s IH]; intros a k p m H.
  - now rewrite !substring_empty.
  - destruct a as [|a].
    + destruct k as [|k].
      * assert (p = 0) by lia. assert (m = 0) by lia. subst. reflexivity.
      * cbn [String.substring Nat.add]. destruct p as [|p].
        -- destruct m as [|m]; [reflexivity |].
           cbn [String.substring]. f_equal.
           rewrite (IH 0 k 0 m) by lia. reflexivity.
        -- cbn [String.substring]. rewrite (IH 0 k p m) by lia. reflexivity.
    + cbn [String.substring Nat.add]. apply IH. exact H.
Qed.

Lemma rev_app_distr (a b : string) : rev (a ++ b) = rev b ++ rev a.
Proof.
  induction a as [|x a IH]; simpl.
  - now rewrite append_nil_r.
  - now rewrite IH, append_assoc.
Qed.

Lemma rev_twice (s : string) : rev (rev s) = s.
Proof.
  induction s as [|c s IH]; simpl; [reflexivity |].
  rewrite rev_app_distr, IH. reflexivity.
Qed.

(** A text ending with the closer loses it. *)
Lemma stripSuffix_closer (s : string) : stripSuffix "*/" (s ++ "*/") = s.
Proof.
  unfold stripSuffix, endsWith. rewrite rev_app_distr. simpl. apply rev_twice.
Qed.

End StringFacts.

(** ** escapeForComment: what the two replaces do to each occurrence *)
Module EscapeFacts.
Import JS JSFacts.

(** A replace of a pattern of two different characters replaces an
    occurrence of the pattern and goes on in what follows it. *)
Lemma replaceAll2_occurrence (a b : ascii) (rep : string) :
  a <> b ->
  forall pre post,
    replaceAll2 a b rep (pre ++ String a (String b post)) =
    replaceAll2 a b rep pre ++ rep ++ replaceAll2 a b rep post.
Proof.
  intros Hab pre post.
  induction pre as [| c | c d s IH1 IH2] using StringFacts.string_ind2.
  - cbn [String.append]. rewrite replaceAll2_step, !Ascii.eqb_refl. reflexivity.
  - change (String c "" ++ String a (String b post))
      with (String c (String a (String b post))).
    rewrite replaceAll2_step.
    destruct (Ascii.eqb c a && Ascii.eqb a b) eqn:E.
    + apply andb_true_iff in E as [_ E]. apply Ascii.eqb_eq in E. contradiction.
    + rewrite replaceAll2_step, !Ascii.eqb_refl. reflexivity.
  - change (String c (String d s) ++ String a (String b post))
      with (String c (String d (s ++ String a (String b post)))).
    rewrite !replaceAll2_step.
    destruct (Ascii.eqb c a && Ascii.eqb d b).
    + rewrite IH1, append_assoc. reflexivity.
    + change (String d (s ++ String a (String b post)))
        with (String d s ++ String a (String b post)).
      rewrite IH2. reflexivity.
Qed.

(** A character that is in no occurrence of the pattern is kept, and the
    replace works on both sides of it apart. *)
Lemma replaceAll2_split (a b u : ascii) (rep : string) :
  u <> a -> u <> b ->
  forall x y,
    replaceAll2 a b rep (x ++ String u y) =
    replaceAll2 a b rep x ++ String u (replaceAll2 a b rep y).
Proof.
  intros Hua Hub.
  assert (Hu : forall y, replaceAll2 a b rep (String u y) = String u (replaceAll2 a b rep y)).
  { intros [|d y]; [reflexivity |]. rewrite replaceAll2_step.
    destruct (Ascii.eqb u a) eqn:E; [apply Ascii.eqb_eq in E; contradiction | reflexivity]. }
  intros x y.
  induction x as [| c | c d s IH1 IH2] using StringFacts.string_ind2.
  - apply Hu.
  - change (String c "" ++ String u y) with (String c (String u y)).
    rewrite replaceAll2_step.
    destruct (Ascii.eqb c a && Ascii.eqb u b) eqn:E.
    + apply andb_true_iff in E as [_ E]. apply Ascii.eqb_eq in E. contradiction.
    + rewrite Hu. reflexivity.
  - change (String c (String d s) ++ String u y)
      with (String c (String d (s ++ String u y))).
    rewrite !replaceAll2_step.
    destruct (Ascii.eqb c a && Ascii.eqb d b).
    + rewrite IH1, append_assoc. reflexivity.
    + change (String d (s ++ String u y)) with (String d s ++ String u y).
      rewrite IH2. reflexivity.
Qed.

(** A string without comment delimiters is returned as it is. *)
Lemma escapeForComment_plain (s : string) :
  ~ adjacent "/" "*" s -> ~ adjacent "*" "/" s -> escapeForComment s = s.
Proof.
  intros H1 H2. unfold escapeForComment.
  rewrite (StringFacts.replaceAll2_absent "/" "*" "__" s H1).
  apply StringFacts.replaceAll2_absent, H2.
Qed.

(** A part of a string without an opener has no opener. *)
Lemma includes_left (pat pre rest : string) :
  includes pat pre -> includes pat (pre ++ rest).
Proof.
  intros (x & y & ->). exists x, (y ++ rest). now rewrite !append_assoc.
Qed.

Lemma includes_right (pat pre rest : string) :
  includes pat rest -> includes pat (pre ++ rest).
Proof.
  intros (x & y & ->). exists (pre ++ x), y. now rewrite !append_assoc.
Qed.

End EscapeFacts.

(** C10: for every input string the result of [escapeForComment] contains
    neither the substring [/*] nor the substring [*/], so it can be embedded
    in a block comment without closing or reopening it; and the result is
    the input with each occurrence replaced by two underscores.  Every
    occurrence of the opener is replaced, the parts before and after it
    being escaped in the same way; in a string without an opener every
    occurrence of the closer is replaced in the same way (the source
    replaces the openers first); a string with neither is returned as it
    is.  Nothing else changes: the length is kept. *)
Theorem escapeForComment_no_comment_delimiters (str : string) :
  (~ JS.includes "/*" (escapeForComment str) /\
   ~ JS.includes "*/" (escapeForComment str)) /\
  (forall pre post,
     str = pre ++ "/*" ++ post ->
     escapeForComment str = escapeForComment pre ++ "__" ++ escapeForComment post) /\
  (forall pre post,
     ~ JS.includes "/*" str ->
     str = pre ++ "*/" ++ post ->
     escapeForComment str = escapeForComment pre ++ "__" ++ escapeForComment post) /\
  (~ JS.includes "/*" str -> ~ JS.includes "*/" str -> escapeForComment str = str) /\
  String.length (escapeForComment str) = String.length str.
Proof.
  split; [| split; [| split; [| split]]].
  - unfold escapeForComment. split; intros H; apply JSFacts.includes_adjacent in H.
    + apply JSFacts.replaceAll2_adjacent in H as [H _]; [| discriminate | discriminate].
      apply JSFacts.replaceAll2_adjacent in H as [_ H]; [| discriminate | discriminate].
      now apply H.
    + apply JSFacts.replaceAll2_adjacent in H as [_ H]; [| discriminate | discriminate].
      now apply H.
  - intros pre post ->. unfold escapeForComment.
    change (pre ++ "/*" ++ post) with (pre ++ String "/" (String "*" post)).
    rewrite EscapeFacts.replaceAll2_occurrence by discriminate.
    change ("__" ++ JS.replaceAll2 "/" "*" "__" post)
      with (String "_" (String "_" (JS.replaceAll2 "/" "*" "__" post))).
    rewrite EscapeFacts.replaceAll2_split by discriminate.
    change (String "_" (JS.replaceAll2 "/" "*" "__" post))
      with ("" ++ String "_" (JS.replaceAll2 "/" "*" "__" post)).
    rewrite (EscapeFacts.replaceAll2_split "*" "/" "_" "__") by discriminate.
    reflexivity.
  - intros pre post Hopen ->.
    assert (Hpre : ~ JS.adjacent "/" "*" pre).
    { intros H. apply Hopen, EscapeFacts.includes_left.
      now apply (JSFacts.includes_adjacent "/" "*"). }
    assert (Hpost : ~ JS.adjacent "/" "*" post).
    { intros H. apply Hopen, EscapeFacts.includes_right, EscapeFacts.includes_right.
      now apply (JSFacts.includes_adjacent "/" "*"). }
    assert (Hall : ~ JS.adjacent "/" "*" (pre ++ "*/" ++ post)).
    { intros H. apply Hopen. now apply (JSFacts.includes_adjacent "/" "*"). }
    unfold escapeForComment.
    rewrite (StringFacts.replaceAll2_absent "/" "*" "__" _ Hall),
      (StringFacts.replaceAll2_absent "/" "*" "__" _ Hpre),
      (StringFacts.replaceAll2_absent "/" "*" "__" _ Hpost).
    change (pre ++ "*/" ++ post) with (pre ++ String "*" (String "/" post)).
    apply EscapeFacts.replaceAll2_occurrence. discriminate.
  - intros Hopen Hclose. apply EscapeFacts.escapeForComment_plain.
    + intros H. apply Hopen. now apply (JSFacts.includes_adjacent "/" "*").
    + intros H. apply Hclose. now apply (JSFacts.includes_adjacent "*" "/").
  - unfold escapeForComment. now rewrite !StringFacts.replaceAll2_length.
Qed.

(** ** escapeForComment, continued *)

(** X1: [escapeForComment] keeps the length of its input: each delimiter
    of two characters is replaced by two underscores. *)
Theorem escapeForComment_length (str : string) :
  String.length (escapeForComment str) = String.length str.
Proof.
  unfold escapeForComment. now rewrite !StringFacts.replaceAll2_length.
Qed.

(** X2: [escapeForComment] is idempotent, and it leaves alone exactly the
    strings that contain neither delimiter. *)
Theorem escapeForComment_idempotent (str : string) :
  escapeForComment (escapeForComment str) = escapeForComment str /\
  (escapeForComment str = str <->
   ~ JS.includes "/*" str /\ ~ JS.includes "*/" str).
Proof.
  assert (Hfix : forall s, ~ JS.adjacent "/" "*" s -> ~ JS.adjacent "*" "/" s ->
                           escapeForComment s = s).
  { intros s H1 H2. unfold escapeForComment.
    rewrite (StringFacts.replaceAll2_absent "/" "*" "__" s H1).
    apply StringFacts.replaceAll2_absent. exact H2. }
  split.
  - destruct (StringFacts.escapeForComment_free str) as [H1 H2]. now apply Hfix.
  - split.
    + intros H. rewrite <- H.
      destruct (StringFacts.escapeForComment_free str) as [H1 H2].
      split; intros Hi; apply JSFacts.includes_adjacent in Hi; tauto.
    + intros [H1 H2]. apply Hfix; intros Ha;
        apply JSFacts.includes_adjacent in Ha; tauto.
Qed.

(** ** Ambient nodes *)

(** X3: [isAmbient] holds exactly when the node or one of its ancestors,
    up to the root, has the Ambient modifier flag; in particular every node
    below an ambient node is ambient. *)
Theorem isAmbient_iff_some_ancestor {MF : ts.ModifierFlags} (node : ts.Node) :
  jsdoc_transformer.isAmbient node =
    existsb (fun n => jsdoc_transformer.hasModifierFlag n ts.ModifierFlags_Ambient)
            (ancestorsOrSelf node)
  /\
  (forall p, ts.parent node = Some p ->
     jsdoc_transformer.isAmbient p = true -> jsdoc_transformer.isAmbient node = true).
Proof.
  split.
  - revert node. fix IH 1. intros [id k f t s e sf [p|]].
    + cbn [jsdoc_transformer.isAmbient ancestorsOrSelf existsb].
      unfold jsdoc_transformer.hasModifierFlag at 1. cbn [ts.modifierFlags].
      rewrite (IH p). destruct (ts.testFlags f ts.ModifierFlags_Ambient); reflexivity.
    + cbn. unfold jsdoc_transformer.hasModifierFlag. cbn.
      destruct (ts.testFlags f ts.ModifierFlags_Ambient); reflexivity.
  - intros p Hp Hamb. destruct node as [id k f t s e sf q]. cbn in Hp. subst q.
    cbn [jsdoc_transformer.isAmbient]. rewrite Hamb.
    destruct (ts.testFlags f ts.ModifierFlags_Ambient); reflexivity.
Qed.

(** ** synthesizeCommentRanges, continued *)
Module SynthesizeMore.

(** The loop, started from any array, appends map-after-filter. *)
Lemma fold_from (sf : ts.SourceFile) (parsed : list ts.CommentRange) :
  forall acc,
    fold_left (transformerUtil.synthesizeCommentRange sf) parsed acc =
    (acc ++
     map (fun c => ts.mkSynthesizedComment (ts.cr_kind c)
                     (stripDelimiters (ts.cr_kind c) (trimmedCommentText sf c))
                     (ts.cr_hasTrailingNewLine c) (-1) (-1))
         (filter (fun c => negb (isTripleSlash sf c)) parsed))%list.
Proof.
  induction parsed as [|c parsed IH]; intros acc; simpl.
  - now rewrite app_nil_r.
  - rewrite IH. clear IH.
    unfold transformerUtil.synthesizeCommentRange, isTripleSlash.
    fold (trimmedCommentText sf c).
    destruct (ts.cr_kind c) eqn:K; cbn [ts.SyntaxKind_eqb andb negb filter map];
      rewrite ?K; unfold stripDelimiters;
      try (rewrite <- app_assoc; reflexivity).
    destruct (JS.startsWith "///" (trimmedCommentText sf c));
      cbn [negb filter map]; rewrite ?K; [reflexivity |].
    rewrite <- app_assoc. reflexivity.
Qed.

End SynthesizeMore.


(** X5: every comment returned by [synthesizeCommentRanges] is marked as
    synthesized, with [pos] and [end] equal to -1, has the kind of one of
    the given ranges, and there are never more comments than ranges. *)
Theorem synthesizeCommentRanges_synthesized (sourceFile : ts.SourceFile)
    (parsedComments : list ts.CommentRange) :
  List.length (transformerUtil.synthesizeCommentRanges sourceFile parsedComments)
    <= List.length parsedComments /\
  forall c, In c (transformerUtil.synthesizeCommentRanges sourceFile parsedComments) ->
    ts.sc_pos c = (-1)%Z /\ ts.sc_end c = (-1)%Z /\
    exists r, In r parsedComments /\ ts.sc_kind c = ts.cr_kind r /\
              ts.sc_hasTrailingNewLine c = ts.cr_hasTrailingNewLine r.
Proof.
  unfold transformerUtil.synthesizeCommentRanges.
  rewrite SynthesizeMore.fold_from. cbn [app]. split.
  - rewrite length_map. apply filter_length_le.
  - intros c Hc. apply in_map_iff in Hc as (r & <- & Hr).
    apply filter_In in Hr as [Hr _]. cbn. repeat split. exists r. auto.
Qed.

(** X6: a block comment whose trimmed text is a JSDoc comment, opened by a
    slash and two stars, is synthesized with a text that starts with a star;
    the comment holder of [visitVariableStatement], which keeps the comments
    whose text does not start with a star, drops it. *)
Theorem synthesized_jsdoc_not_held (sourceFile : ts.SourceFile)
    (parsedComments : list ts.CommentRange) :
  (forall r, In r parsedComments ->
     ts.cr_kind r = ts.MultiLineCommentTrivia /\
     exists body, trimmedCommentText sourceFile r = "/**" ++ body ++ "*/") ->
  filter jsdoc_transformer.isNotJSDoc
    (transformerUtil.synthesizeCommentRanges sourceFile parsedComments) = [].
Proof.
  intros H. unfold transformerUtil.synthesizeCommentRanges.
  rewrite SynthesizeMore.fold_from. cbn [app].
  induction parsedComments as [|r rs IH]; [reflexivity |].
  destruct (H r (or_introl eq_refl)) as [K (body & Hbody)].
  cbn [filter]. unfold isTripleSlash at 1. rewrite K. cbn [ts.SyntaxKind_eqb andb negb map].
  cbn [filter]. unfold jsdoc_transformer.isNotJSDoc at 1. cbn [ts.sc_text].
  rewrite K. unfold stripDelimiters. rewrite Hbody.
  change (JS.stripPrefix "/*" ("/**" ++ body ++ "*/")) with ("*" ++ body ++ "*/").
  change ("*" ++ body ++ "*/") with (("*" ++ body) ++ "*/").
  rewrite StringFacts.stripSuffix_closer. cbn.
  apply IH. intros r' Hr'. apply H. now right.
Qed.

(** A file that starts with a JSDoc comment. *)
Lemma synthesized_jsdoc_not_held_witness :
  let sourceFile := ts.mkSourceFile "a.ts" "/** doc */ var x;" in
  let parsedComments := [ts.mkCommentRange ts.MultiLineCommentTrivia 0 10 (Some false)] in
  filter jsdoc_transformer.isNotJSDoc
    (transformerUtil.synthesizeCommentRanges sourceFile parsedComments) = [].
Proof.
  cbv zeta. apply synthesized_jsdoc_not_held.
  intros r [<- | []]. split; [reflexivity |]. exists " doc ". reflexivity.
Defined.

(** ** The comment ranges at a position *)

(** X7: when [0 <= start <= end] and the scanner answers ranges that lie
    inside the substring it was given, [getAllLeadingCommentRanges] returns
    as many ranges, of the same kinds, and each of them addresses in the
    whole file the text its range addresses in the substring. *)
Theorem getAllLeadingCommentRanges_same_text
    (getLeadingCommentRanges : string -> Z -> option (list ts.CommentRange))
    (sourceFile : ts.SourceFile) (start fin : Z) (scanned : list ts.CommentRange) :
  (0 <= start <= fin)%Z ->
  getLeadingCommentRanges (JS.substring start fin (ts.sf_text sourceFile)) 0%Z
    = Some scanned ->
  (forall r, In r scanned ->
     (0 <= ts.cr_pos r <= ts.cr_end r)%Z /\
     (ts.cr_end r <=
        Z.of_nat (String.length (JS.substring start fin (ts.sf_text sourceFile))))%Z) ->
  Forall2 (fun r r' =>
             ts.cr_kind r' = ts.cr_kind r /\
             ts.cr_hasTrailingNewLine r' = ts.cr_hasTrailingNewLine r /\
             JS.substring (ts.cr_pos r') (ts.cr_end r') (ts.sf_text sourceFile) =
             JS.substring (ts.cr_pos r) (ts.cr_end r)
               (JS.substring start fin (ts.sf_text sourceFile)))
          scanned
          (commentRanges.getAllLeadingCommentRanges getLeadingCommentRanges
             sourceFile start fin).
Proof.
  intros Hse Hscan Hin.
  unfold commentRanges.getAllLeadingCommentRanges. rewrite Hscan. clear Hscan.
  induction scanned as [|r rs IH]; [constructor |].
  cbn [map]. constructor.
  - cbn [ts.cr_kind ts.cr_hasTrailingNewLine ts.cr_pos ts.cr_end].
    split; [reflexivity |]. split; [reflexivity |].
    destruct (Hin r (or_introl eq_refl)) as [Hpe Hlen].
    set (text := ts.sf_text sourceFile) in *.
    set (p := ts.cr_pos r) in *. set (e := ts.cr_end r) in *.
    set (len := Z.of_nat (String.length text)).
    set (a := Z.min (Z.min (Z.max start 0) len) (Z.min (Z.max fin 0) len)).
    set (b := Z.max (Z.min (Z.max start 0) len) (Z.min (Z.max fin 0) len)).
    set (sub := String.substring (Z.to_nat a) (Z.to_nat (b - a)) text).
    change (JS.substring start fin text) with sub in *.
    assert (Hlen0 : (0 <= len)%Z) by (unfold len; lia).
    pose proof (StringFacts.substring_length_le text (Z.to_nat a) (Z.to_nat (b - a))) as Hsub.
    fold sub in Hsub.
    assert (Ha : a = Z.min start len) by (unfold a; lia).
    assert (Hb : b = Z.min fin len) by (unfold b; lia).
    assert (He : (e <= b - a)%Z) by lia.
    unfold JS.substring. fold len.
    replace (Z.min (Z.min (Z.max p 0) (Z.of_nat (String.length sub)))
                   (Z.min (Z.max e 0) (Z.of_nat (String.length sub)))) with p by lia.
    replace (Z.max (Z.min (Z.max p 0) (Z.of_nat (String.length sub)))
                   (Z.min (Z.max e 0) (Z.of_nat (String.length sub))) - p)%Z
      with (e - p)%Z by lia.
    unfold sub.
    rewrite StringFacts.substring_substring by lia.
    destruct (Z.le_gt_cases start len) as [Hs | Hs].
    + replace (Z.min (Z.min (Z.max (p + start) 0) len) (Z.min (Z.max (e + start) 0) len))
        with (p + start)%Z by lia.
      replace (Z.max (Z.min (Z.max (p + start) 0) len) (Z.min (Z.max (e + start) 0) len)
               - (p + start))%Z with (e - p)%Z by lia.
      f_equal. lia.
    + assert (e = 0%Z) by lia. assert (p = 0%Z) by lia.
      replace (Z.to_nat (e - p)) with 0 by lia.
      replace (Z.to_nat (Z.max (Z.min (Z.max (p + start) 0) len)
                               (Z.min (Z.max (e + start) 0) len) -
                         Z.min (Z.min (Z.max (p + start) 0) len)
                               (Z.min (Z.max (e + start) 0) len))) with 0 by lia.
      now rewrite !StringFacts.substring_zero.
  - apply IH. intros r' Hr'. apply Hin. now right.
Qed.

(** The comment before [y] in a file: the scanner finds it at 0..5 of the
    substring, the function reports it at 3..8 of the file. *)
Lemma getAllLeadingCommentRanges_same_text_witness :
  let scan (text : string) (pos : Z) :=
    if String.eqb text "/*c*/ y" then Some [ts.mkCommentRange ts.MultiLineCommentTrivia 0 5 None]
    else None in
  let sourceFile := ts.mkSourceFile "a.ts" "x; /*c*/ y" in
  Forall2 (fun r r' =>
             ts.cr_kind r' = ts.cr_kind r /\
             ts.cr_hasTrailingNewLine r' = ts.cr_hasTrailingNewLine r /\
             JS.substring (ts.cr_pos r') (ts.cr_end r') (ts.sf_text sourceFile) =
             JS.substring (ts.cr_pos r) (ts.cr_end r)
               (JS.substring 3 10 (ts.sf_text sourceFile)))
          [ts.mkCommentRange ts.MultiLineCommentTrivia 0 5 None]
          (commentRanges.getAllLeadingCommentRanges scan sourceFile 3 10) /\
  commentRanges.getAllLeadingCommentRanges scan sourceFile 3 10 =
    [ts.mkCommentRange ts.MultiLineCommentTrivia 3 8 None].
Proof.
  cbv zeta. split; [| reflexivity].
  apply getAllLeadingCommentRanges_same_text.
  - lia.
  - reflexivity.
  - intros r [<- | []]. cbn [ts.cr_pos ts.cr_end]. split; [lia |].
    vm_compute. discriminate.
Defined.

(** ** Members and their declarations *)
Module MemberFacts.
Import jsdoc_transformer memberKinds.

(** The value and the state of a sequenced computation. *)
Lemma fst_bind {A B} (m : M A) (k : A -> M B) (st : State) :
  fst (bind m k st) = fst (k (fst (m st)) (snd (m st))).
Proof. unfold bind. destruct (m st); reflexivity. Qed.

Lemma snd_bind {A B} (m : M A) (k : A -> M B) (st : State) :
  snd (bind m k st) = snd (k (fst (m st)) (snd (m st))).
Proof. unfold bind. destruct (m st); reflexivity. Qed.

(** A prefix without the first character of a two-character pattern does
    not create an occurrence of the pattern. *)
Lemma adjacent_after (x y : ascii) (pre s : string) :
  allChars (fun c => negb (Ascii.eqb c x)) pre = true ->
  JS.adjacent x y (pre ++ s) -> JS.adjacent x y s.
Proof.
  induction pre as [|c pre IH]; intros Hpre H; [exact H |].
  cbn [allChars] in Hpre. apply andb_true_iff in Hpre as [Hc Hpre].
  change (String c pre ++ s) with (String c (pre ++ s)) in H.
  apply JSFacts.adjacent_cons in H as [(d & t & _ & -> & _) | H].
  - rewrite Ascii.eqb_refl in Hc. discriminate.
  - now apply IH.
Qed.

(** A text of slashes-and-stars-free words followed by an escaped text holds
    no comment delimiter. *)
Lemma escaped_delimiterFree (pre s : string) :
  allChars (fun c => negb (Ascii.eqb c "/")) pre = true ->
  allChars (fun c => negb (Ascii.eqb c "*")) pre = true ->
  delimiterFree (pre ++ escapeForComment s).
Proof.
  intros H1 H2. destruct (StringFacts.escapeForComment_free s) as [F1 F2].
  split; intros H; apply JSFacts.includes_adjacent in H.
  - apply (adjacent_after "/" "*" pre) in H; auto.
  - apply (adjacent_after "*" "/" pre) in H; auto.
Qed.

Section Facts.
Context {MF : ts.ModifierFlags}.
Variable hasExportingDecorator : ts.Node -> ts.TypeChecker -> bool.
Variable mtt : ModuleTypeTranslator.

(** The loop over the members sorts them by kind, keeping their order. *)
Lemma classify (typeDecl : ast.TypeDeclaration) (members : list ast.ClassElement) :
  forall acc,
    fold_left (classifyMember typeDecl) members acc =
    mkMembers
      (ctors acc ++ filter isConstructor members)
      (nonStaticProps acc ++ filter (fun m => isProperty m && negb (isStatic m)) members)
      (staticProps acc ++ filter (fun m => isProperty m && isStatic m) members)
      (unhandled acc ++ filter isUnhandled members)
      (abstractMethods acc ++ filter (isBodilessMethod typeDecl) members).
Proof.
  induction members as [|m ms IH]; intros acc.
  - cbn. rewrite !app_nil_r. now destruct acc.
  - cbn [fold_left]. rewrite IH. clear IH.
    unfold classifyMember, isConstructor, isProperty, isUnhandled, isBodilessMethod,
      isMethod, isStatic, isConstructor, isProperty, kindOf.
    cbn [filter].
    destruct (hasModifierFlag (ts.nd_node (ast.member m)) ts.ModifierFlags_Static);
      destruct (hasModifierFlag (ts.nd_node (ast.member m)) ts.ModifierFlags_Abstract);
      destruct (ts.SyntaxKind_eqb (ts.kind (ast.td_node typeDecl)) ts.InterfaceDeclaration);
      destruct (ts.kind (ts.nd_node (ast.member m)));
      cbn [ts.SyntaxKind_eqb orb andb negb
           ctors nonStaticProps staticProps unhandled abstractMethods];
      rewrite <- ?app_assoc; try reflexivity; now destruct acc.
Qed.

(** What [createClosurePropertyDeclaration] returns for a named and for an
    unnamed declaration. *)
Lemma createClosurePropertyDeclaration_result (expr : out.Expression)
    (prop : ts.NamedDeclaration) (st : State) :
  exists stmt,
    fst (createClosurePropertyDeclaration hasExportingDecorator mtt expr prop st) = Some stmt /\
    commentTexts stmt =
      (if isNamed prop then []
       else [(" Skipping unnamed member:" ++ String "010" "") ++
             escapeForComment (ts.getText (ts.nd_node prop))]) /\
    out.shapeOf stmt =
      match propertyName prop with
      | Some (String _ _ as name) => out.ExpressionStatement (out.PropertyAccess expr name)
      | _ => out.NotEmittedStatement (ts.nd_node prop)
      end.
Proof.
  unfold createClosurePropertyDeclaration, isNamed.
  destruct (propertyName prop) as [[|c name]|].
  - rewrite fst_bind. eexists. split; [reflexivity |]. split; reflexivity.
  - eexists. split; [reflexivity |]. split; [| reflexivity].
    destruct (hasExportingDecorator (ts.nd_node prop) (typeChecker mtt)); reflexivity.
  - rewrite fst_bind. eexists. split; [reflexivity |]. split; reflexivity.
Qed.

End Facts.
End MemberFacts.

Module BlockFacts.
Import jsdoc_transformer memberKinds MemberFacts.

Lemma filter_nil_existsb {A} (f : A -> bool) (l : list A) :
  filter f l = [] <-> existsb f l = false.
Proof.
  induction l as [|x l IH]; cbn; [tauto |].
  destruct (f x); cbn; [split; discriminate | exact IH].
Qed.

Lemma length_zero {A} (l : list A) : (List.length l =? 0)%nat = true <-> l = [].
Proof. destruct l; cbn; split; congruence. Qed.

Lemma nonNull_app {A} (l1 l2 : list (option A)) :
  nonNull (l1 ++ l2) = (nonNull l1 ++ nonNull l2)%list.
Proof. apply flat_map_app. Qed.

Lemma nonNull_Some {A} (l : list A) : nonNull (map Some l) = l.
Proof. induction l as [|x l IH]; cbn; [reflexivity | now f_equal]. Qed.

(** A map whose function always answers a statement answers statements. *)
Lemma mapM_Some {A B} (P : A -> B -> Prop) (f : A -> M (option B)) (xs : list A) :
  (forall x st, exists y, fst (f x st) = Some y /\ P x y) ->
  forall st, exists ys, fst (mapM f xs st) = map Some ys /\ Forall2 P xs ys.
Proof.
  intros H. induction xs as [|x xs IH]; intros st.
  - exists []. split; [reflexivity | constructor].
  - cbn [mapM]. rewrite !fst_bind.
    destruct (H x st) as (y & Hy & HP).
    destruct (IH (snd (f x st))) as (ys & Hys & HPs).
    exists (y :: ys). cbn. rewrite Hy, Hys. split; [reflexivity | now constructor].
Qed.

(** Splitting a filter in two by a second test loses no element. *)
Lemma filter_split_length {A} (f g : A -> bool) (l : list A) :
  List.length (filter (fun x => f x && negb (g x)) l) +
  List.length (filter (fun x => f x && g x) l) = List.length (filter f l).
Proof.
  induction l as [|x l IH]; [reflexivity |].
  cbn [filter]. destruct (f x), (g x); cbn [andb negb List.length]; lia.
Qed.

Lemma filter_filter {A} (f g : A -> bool) (l : list A) :
  filter g (filter f l) = filter (fun x => f x && g x) l.
Proof.
  induction l as [|x l IH]; [reflexivity |].
  cbn [filter]. destruct (f x); cbn [andb filter]; [| exact IH].
  destruct (g x); now rewrite IH.
Qed.

Section Facts.
Context {MF : ts.ModifierFlags}.
Variable hasExportingDecorator : ts.Node -> ts.TypeChecker -> bool.
Variable mtt : ModuleTypeTranslator.

(** One turn of the loop over the bodiless methods pushes a statement
    without text comments when the method has a name, and nothing otherwise. *)
Lemma addAbstractMethod_step (instancePropAccess : out.Expression)
    (acc : list (option out.Statement)) (m : ast.ClassElement) (st : State) :
  exists added,
    fst (addAbstractMethod hasExportingDecorator mtt instancePropAccess acc m st)
      = (acc ++ map Some added)%list /\
    List.length added = (if isNamed (ast.member m) then 1 else 0) /\
    Forall commentsDelimiterFree added.
Proof.
  unfold addAbstractMethod, isNamed.
  destruct (propertyName (ast.member m)) as [[|c name]|].
  - exists []. rewrite fst_bind. cbn. rewrite app_nil_r. repeat split. constructor.
  - destruct (getFunctionTypeJSDoc mtt [ast.asFunctionLike m] []) as [tags paramNames].
    eexists [_]. cbn [ret fst map]. split; [reflexivity |]. split; [reflexivity |].
    constructor; [| constructor]. constructor.
  - exists []. rewrite fst_bind. cbn. rewrite app_nil_r. repeat split. constructor.
Qed.

(** The loop pushes one statement for each method with a name. *)
Lemma addAbstractMethods (instancePropAccess : out.Expression)
    (methods : list ast.ClassElement) :
  forall acc st, exists added,
    fst (forEach methods acc (addAbstractMethod hasExportingDecorator mtt instancePropAccess) st)
      = (acc ++ map Some added)%list /\
    List.length added = List.length (filter (fun m => isNamed (ast.member m)) methods) /\
    Forall commentsDelimiterFree added.
Proof.
  induction methods as [|m ms IH]; intros acc st.
  - exists []. cbn. rewrite app_nil_r. repeat split. constructor.
  - cbn [forEach]. rewrite fst_bind.
    destruct (addAbstractMethod_step instancePropAccess acc m st) as (a1 & H1 & L1 & S1).
    rewrite H1.
    destruct (IH (acc ++ map Some a1)%list
                 (snd (addAbstractMethod hasExportingDecorator mtt instancePropAccess acc m st)))
      as (a2 & H2 & L2 & S2).
    exists (a1 ++ a2)%list. rewrite H2, map_app, <- app_assoc.
    split; [reflexivity |]. split.
    + rewrite length_app, L1, L2. cbn [filter].
      destruct (isNamed (ast.member m)); reflexivity.
    + apply Forall_app. now split.
Qed.

(** Each declared property gives one statement, free of comment delimiters. *)
Lemma declareProperties {A} (expr : out.Expression) (g : A -> ts.NamedDeclaration)
    (props : list A) (st : State) :
  exists stmts,
    fst (mapM (fun p => createClosurePropertyDeclaration hasExportingDecorator mtt expr (g p))
           props st) = map Some stmts /\
    List.length stmts = List.length props /\
    Forall commentsDelimiterFree stmts.
Proof.
  destruct (mapM_Some (fun _ stmt => commentsDelimiterFree stmt)
              (fun p => createClosurePropertyDeclaration hasExportingDecorator mtt expr (g p))
              props)
    with (st := st) as (stmts & Hrun & Hall).
  - intros prop st'.
    destruct (createClosurePropertyDeclaration_result hasExportingDecorator mtt expr
                (g prop) st') as (stmt & Hstmt & Htexts & _).
    exists stmt. split; [exact Hstmt |].
    unfold commentsDelimiterFree. rewrite Htexts.
    destruct (isNamed (g prop)); constructor; [| constructor].
    now apply escaped_delimiterFree.
  - exists stmts. split; [exact Hrun |]. split.
    + symmetry. eapply Forall2_length. exact Hall.
    + clear Hrun. induction Hall; constructor; auto.
Qed.

End Facts.
End BlockFacts.

(** X8: [createClosurePropertyDeclaration] always returns a statement.  For
    a declaration with a name it is the property access on the given
    expression, commented with the tags of the declaration among which a
    [type] tag; for one without a usable name it is a not-emitted statement
    with a single comment.  No comment it creates from the text of the
    source holds a comment delimiter. *)
Theorem property_declared_or_skipped {MF : ts.ModifierFlags}
    (hasExportingDecorator : ts.Node -> ts.TypeChecker -> bool)
    (mtt : ModuleTypeTranslator) (expr : out.Expression) (prop : ts.NamedDeclaration)
    (st : State) :
  exists stmt,
    fst (jsdoc_transformer.createClosurePropertyDeclaration hasExportingDecorator mtt
           expr prop st) = Some stmt /\
    commentsDelimiterFree stmt /\
    match jsdoc_transformer.propertyName prop with
    | Some (String _ _ as name) =>
        out.shapeOf stmt = out.ExpressionStatement (out.PropertyAccess expr name) /\
        jsdoc.hasTagNamed "type" (out.leadingTags stmt) = true /\
        commentTexts stmt = []
    | _ =>
        out.shapeOf stmt = out.NotEmittedStatement (ts.nd_node prop) /\
        out.leadingTags stmt = [] /\
        List.length (commentTexts stmt) = 1
    end.
Proof.
  destruct (MemberFacts.createClosurePropertyDeclaration_result hasExportingDecorator mtt
              expr prop st) as (stmt & Hstmt & Htexts & Hshape).
  exists stmt. split; [exact Hstmt |]. split.
  - unfold commentsDelimiterFree. rewrite Htexts.
    destruct (memberKinds.isNamed prop); constructor; [| constructor].
    now apply MemberFacts.escaped_delimiterFree.
  - unfold memberKinds.isNamed in Htexts.
    unfold jsdoc_transformer.createClosurePropertyDeclaration in Hstmt.
    destruct (jsdoc_transformer.propertyName prop) as [[|c name]|].
    + rewrite MemberFacts.fst_bind in Hstmt. injection Hstmt as <-.
      repeat split.
    + injection Hstmt as <-. split; [reflexivity |]. split; [| exact Htexts].
      unfold out.leadingTags, jsdoc_transformer.addCommentOn. cbn.
      rewrite app_nil_r. unfold jsdoc.hasTagNamed.
      destruct (hasExportingDecorator (ts.nd_node prop) (typeChecker mtt));
        rewrite !existsb_app; cbn; now rewrite ?orb_true_r.
    + rewrite MemberFacts.fst_bind in Hstmt. injection Hstmt as <-.
      repeat split.
Qed.

(** X9: [createMemberTypeDeclaration] returns no statement exactly when
    the declaration has no name, or has no property, no method without a
    body (an abstract one, or any method of an interface) and no parameter
    property on its first constructor.  Members of other kinds alone,
    such as index signatures, give no statement. *)
Theorem member_declaration_none_iff {MF : ts.ModifierFlags}
    (hasExportingDecorator : ts.Node -> ts.TypeChecker -> bool)
    (mtt : ModuleTypeTranslator) (typeDecl : ast.TypeDeclaration) (st : State) :
  fst (jsdoc_transformer.createMemberTypeDeclaration hasExportingDecorator mtt typeDecl st)
    = None <->
  (ast.td_name typeDecl = None \/
   (existsb (fun m => memberKinds.isProperty m || memberKinds.isBodilessMethod typeDecl m)
            (ast.members typeDecl) = false /\
    memberKinds.parameterProperties typeDecl = [])).
Proof.
  unfold jsdoc_transformer.createMemberTypeDeclaration.
  rewrite MemberFacts.classify.
  cbn [jsdoc_transformer.ctors jsdoc_transformer.nonStaticProps jsdoc_transformer.staticProps
       jsdoc_transformer.unhandled jsdoc_transformer.abstractMethods app].
  fold (memberKinds.parameterProperties typeDecl).
  set (members := ast.members typeDecl).
  assert (Hnone :
    (List.length (filter (fun m => memberKinds.isProperty m && negb (memberKinds.isStatic m))
                    members) =? 0)%nat &&
    (List.length (memberKinds.parameterProperties typeDecl) =? 0)%nat &&
    (List.length (filter (fun m => memberKinds.isProperty m && memberKinds.isStatic m)
                    members) =? 0)%nat &&
    (List.length (filter (memberKinds.isBodilessMethod typeDecl) members) =? 0)%nat = true <->
    existsb (fun m => memberKinds.isProperty m || memberKinds.isBodilessMethod typeDecl m)
            members = false /\
    memberKinds.parameterProperties typeDecl = []).
  { rewrite !andb_true_iff, !BlockFacts.length_zero, !BlockFacts.filter_nil_existsb.
    rewrite <- (BlockFacts.length_zero (memberKinds.parameterProperties typeDecl)).
    destruct (List.length (memberKinds.parameterProperties typeDecl) =? 0)%nat;
      [| split; [intros [[[_ H] _] _] | intros [_ H]]; discriminate H].
    induction members as [|m ms IH]; [cbn; tauto |].
    cbn [existsb]. rewrite !orb_false_iff.
    destruct (memberKinds.isProperty m), (memberKinds.isStatic m),
      (memberKinds.isBodilessMethod typeDecl m); cbn [andb orb negb]; tauto. }
  destruct (_ && _ && _ && _) eqn:E.
  - cbn. split; [intros _; right; now apply Hnone | reflexivity].
  - destruct (ast.td_name typeDecl) as [name|].
    + rewrite !MemberFacts.fst_bind. cbn. split; [discriminate |].
      intros [H | H]; [discriminate |]. apply Hnone in H. discriminate.
    + rewrite MemberFacts.fst_bind. cbn. split; [now left | reflexivity].
Qed.

(** X10: the statement [createMemberTypeDeclaration] returns is an
    [if (false)] block without comments of its own.  The block holds one
    statement for each property, each parameter property of the first
    constructor, each member of a kind that is not handled and each named
    method without a body; no comment created from the source text in it
    holds a comment delimiter. *)
Theorem member_declaration_block {MF : ts.ModifierFlags}
    (hasExportingDecorator : ts.Node -> ts.TypeChecker -> bool)
    (mtt : ModuleTypeTranslator) (typeDecl : ast.TypeDeclaration) (st : State)
    (memberDecl : out.Statement) :
  fst (jsdoc_transformer.createMemberTypeDeclaration hasExportingDecorator mtt typeDecl st)
    = Some memberDecl ->
  exists stmts,
    memberDecl = out.create (out.IfStatement out.FalseLiteral stmts) /\
    List.length stmts =
      List.length (filter memberKinds.isProperty (ast.members typeDecl)) +
      List.length (memberKinds.parameterProperties typeDecl) +
      List.length (filter memberKinds.isUnhandled (ast.members typeDecl)) +
      List.length (filter (fun m => memberKinds.isBodilessMethod typeDecl m &&
                                    memberKinds.isNamed (ast.member m))
                     (ast.members typeDecl)) /\
    Forall commentsDelimiterFree stmts.
Proof.
  unfold jsdoc_transformer.createMemberTypeDeclaration.
  rewrite MemberFacts.classify.
  cbn [jsdoc_transformer.ctors jsdoc_transformer.nonStaticProps jsdoc_transformer.staticProps
       jsdoc_transformer.unhandled jsdoc_transformer.abstractMethods app].
  fold (memberKinds.parameterProperties typeDecl).
  set (members := ast.members typeDecl).
  destruct (_ && _ && _ && _); [discriminate |].
  destruct (ast.td_name typeDecl) as [name|];
    [| rewrite MemberFacts.fst_bind; discriminate].
  rewrite !MemberFacts.fst_bind. cbn [ret fst snd].
  match goal with
  | |- context [fst (mapM ?f (filter ?p members) st)] =>
      destruct (BlockFacts.declareProperties hasExportingDecorator mtt
                  (out.Identifier (ts.getIdentifierText name)) ast.member
                  (filter p members) st) as (statics & Hs & Ls & Ss);
      rewrite Hs; set (st1 := snd (mapM f (filter p members) st))
  end.
  match goal with
  | |- context [fst (mapM ?f (filter ?p members) st1)] =>
      destruct (BlockFacts.declareProperties hasExportingDecorator mtt
                  (out.PropertyAccess (out.Identifier (ts.getIdentifierText name)) "prototype")
                  ast.member (filter p members) st1) as (nonStatics & Hn & Ln & Sn);
      rewrite Hn; set (st2 := snd (mapM f (filter p members) st1))
  end.
  match goal with
  | |- context [fst (mapM ?f (memberKinds.parameterProperties typeDecl) st2)] =>
      destruct (BlockFacts.declareProperties hasExportingDecorator mtt
                  (out.PropertyAccess (out.Identifier (ts.getIdentifierText name)) "prototype")
                  (fun p => p) (memberKinds.parameterProperties typeDecl) st2)
        as (params & Hp & Lp & Sp);
      change (fst (mapM f (memberKinds.parameterProperties typeDecl) st2) = map Some params)
        in Hp;
      rewrite Hp;
      set (st3 := snd (mapM f (memberKinds.parameterProperties typeDecl) st2))
  end.
  match goal with
  | |- context [forEach ?ms ?acc ?body st3] =>
      destruct (BlockFacts.addAbstractMethods hasExportingDecorator mtt
                  (out.PropertyAccess (out.Identifier (ts.getIdentifierText name)) "prototype")
                  ms acc st3) as (methods & Hm & Lm & Sm);
      rewrite Hm
  end.
  intros H. injection H as <-.
  eexists. split; [reflexivity |].
  rewrite !BlockFacts.nonNull_app, !BlockFacts.nonNull_Some.
  rewrite <- (map_map (fun p => transformerUtil.createMultiLineComment
                                   (ts.nd_node (ast.member p))
                                   ("Skipping unhandled member: " ++
                                    escapeForComment (ts.getText (ts.nd_node (ast.member p)))))
                      Some).
  rewrite BlockFacts.nonNull_Some. split.
  - rewrite !length_app, length_map, Ls, Ln, Lp, Lm, BlockFacts.filter_filter.
    rewrite <- (BlockFacts.filter_split_length memberKinds.isProperty memberKinds.isStatic
                  members).
    lia.
  - repeat (apply Forall_app; split); auto.
    apply Forall_forall. intros stmt Hin. apply in_map_iff in Hin as (m & <- & _).
    unfold commentsDelimiterFree. cbn. constructor; [| constructor].
    apply (MemberFacts.escaped_delimiterFree " Skipping unhandled member: "); reflexivity.
Qed.

(** [class K { constructor(public x: number) {} }]: one statement, for
    the parameter property. *)
Lemma member_declaration_block_witness :
  exists stmts,
    fst (jsdoc_transformer.createMemberTypeDeclaration Examples.noDecorator
           (Examples.translator Examples.quietHost) Examples.classK Examples.initial)
      = Some (out.create (out.IfStatement out.FalseLiteral stmts)) /\
    List.length stmts = 1 /\
    Forall commentsDelimiterFree stmts.
Proof.
  assert (Hrun : {d | fst (jsdoc_transformer.createMemberTypeDeclaration Examples.noDecorator
                             (Examples.translator Examples.quietHost) Examples.classK
                             Examples.initial) = Some d})
    by (eexists; reflexivity).
  destruct Hrun as [d Hd].
  destruct (member_declaration_block Examples.noDecorator
              (Examples.translator Examples.quietHost) Examples.classK Examples.initial
              d Hd) as (stmts & Heq & Hlen & Hsafe).
  exists stmts. rewrite Hd, Heq. split; [reflexivity |]. split; [exact Hlen | exact Hsafe].
Defined.

(** ** Heritage clauses, continued *)
Module HeritageMore.
Import jsdoc_transformer.
Section Facts.
Context {SF : ts.SymbolFlags} {MF : ts.ModifierFlags}.
Variable mtt : ModuleTypeTranslator.
Variable decl : ast.TypeDeclaration.

(** What a pushed tag looks like: a free-text note, or a typed tag named
    after the kind of the declaration. *)
Lemma emittedFor_shape (heritage : ast.HeritageClause)
    (impl : ast.ExpressionWithTypeArguments) :
  emittedFor mtt decl heritage impl = [] \/
  exists t, emittedFor mtt decl heritage impl = [t] /\
    ((jsdoc.tagName t = "" /\ jsdoc.type t = None /\ jsdoc.text t <> None) \/
     (jsdoc.type t <> None /\ jsdoc.text t = None /\
      ((jsdoc.tagName t = "extends" /\
        (isClassDeclaration decl = true \/
         ts.kind (ast.td_node decl) = ts.InterfaceDeclaration)) \/
       (jsdoc.tagName t = "implements" /\
        ts.kind (ast.td_node decl) <> ts.InterfaceDeclaration)))).
Proof.
  unfold emittedFor, addHeritageType.
  destruct (ts.getSymbolAtLocation (typeChecker mtt) (ast.expression impl)) as [sym|].
  - destruct (if ts.testFlags (ts.flags sym) ts.SymbolFlags_TypeAlias
              then ts.type_symbol (ts.getDeclaredTypeOfSymbol (typeChecker mtt) sym)
              else Some sym) as [alias|]; [| now left].
    destruct (isBlackListed _ _); [now left |].
    destruct (ts.testFlags _ ts.SymbolFlags_Class).
    + destruct (isClassDeclaration decl) eqn:EC; [| now left]. cbn [negb].
      destruct (_ && _); [now left |].
      right. eexists. split; [reflexivity |]. right. cbn.
      split; [discriminate |]. split; [reflexivity |]. left. auto.
    + destruct (ts.testFlags _ ts.SymbolFlags_Value); [now left |].
      right. eexists. split; [reflexivity |]. right. cbn.
      split; [discriminate |]. split; [reflexivity |].
      destruct (ts.kind (ast.td_node decl)); cbn;
        try (right; split; [reflexivity | discriminate]).
      left. auto.
  - right. unfold bind, mtt_debugWarn, transformerUtil.debugWarn, ret.
    destruct (negb (logWarning (host mtt))); cbn; eexists;
      (split; [reflexivity |]); left; repeat split; discriminate.
Qed.

End Facts.
End HeritageMore.

(** X11: [maybeAddHeritageClauses] keeps the tags it is given and pushes
    after them at most one tag for each heritage type.  A pushed tag is
    either a note without a name, or a typed tag named [extends] or
    [implements]: [implements] is never pushed for an interface
    declaration, and [extends] only for an interface or a class declaration. *)
Theorem heritage_tags_pushed {SF : ts.SymbolFlags} {MF : ts.ModifierFlags}
    (mtt : ModuleTypeTranslator) (decl : ast.TypeDeclaration)
    (docTags : list jsdoc.Tag) (st : State) :
  let heritageTypes :=
    match ast.heritageClauses decl with
    | Some clauses =>
        flat_map (fun hc => match ast.types hc with Some tys => tys | None => [] end) clauses
    | None => []
    end in
  exists pushed,
    fst (jsdoc_transformer.maybeAddHeritageClauses docTags mtt decl st)
      = (docTags ++ pushed)%list /\
    List.length pushed <= List.length heritageTypes /\
    Forall (fun t =>
              (jsdoc.tagName t = "" /\ jsdoc.type t = None /\ jsdoc.text t <> None) \/
              (jsdoc.type t <> None /\ jsdoc.text t = None /\
               ((jsdoc.tagName t = "extends" /\
                 (jsdoc_transformer.isClassDeclaration decl = true \/
                  ts.kind (ast.td_node decl) = ts.InterfaceDeclaration)) \/
                (jsdoc.tagName t = "implements" /\
                 ts.kind (ast.td_node decl) <> ts.InterfaceDeclaration))))
           pushed.
Proof.
  cbv zeta. rewrite HeritageFacts.maybeAddHeritageClauses_appends.
  eexists. split; [reflexivity |].
  destruct (ast.heritageClauses decl) as [clauses|]; [| split; [cbn; lia | constructor]].
  induction clauses as [|hc clauses [IHl IHf]]; [split; [cbn; lia | constructor] |].
  cbn [flat_map]. rewrite !length_app.
  assert (H : List.length (jsdoc_transformer.emittedForClause mtt decl hc) <=
              List.length (match ast.types hc with Some tys => tys | None => [] end) /\
              Forall (fun t =>
                (jsdoc.tagName t = "" /\ jsdoc.type t = None /\ jsdoc.text t <> None) \/
                (jsdoc.type t <> None /\ jsdoc.text t = None /\
                 ((jsdoc.tagName t = "extends" /\
                   (jsdoc_transformer.isClassDeclaration decl = true \/
                    ts.kind (ast.td_node decl) = ts.InterfaceDeclaration)) \/
                  (jsdoc.tagName t = "implements" /\
                   ts.kind (ast.td_node decl) <> ts.InterfaceDeclaration))))
                (jsdoc_transformer.emittedForClause mtt decl hc)).
  { unfold jsdoc_transformer.emittedForClause.
    destruct (jsdoc_transformer.clauseTranslated decl hc);
      [| split; [cbn; lia | constructor]].
    destruct (ast.types hc) as [tys|]; [| split; [cbn; lia | constructor]].
    induction tys as [|impl tys [IH1 IH2]]; [split; [cbn; lia | constructor] |].
    cbn [flat_map]. rewrite length_app.
    destruct (HeritageMore.emittedFor_shape mtt decl hc impl) as [E | (t & E & Ht)];
      rewrite E; cbn [List.length app]; split; try lia; auto. }
  destruct H as [Hl Hf]. split; [lia |]. apply Forall_app. now split.
Qed.

(** X12: for a class declaration outside an ambient context that has no
    [implements] clause, [maybeAddHeritageClauses] pushes no tag and
    records nothing, whatever its [extends] clause resolves to. *)
Theorem class_extends_left_alone {SF : ts.SymbolFlags} {MF : ts.ModifierFlags}
    (mtt : ModuleTypeTranslator) (decl : ast.TypeDeclaration)
    (docTags : list jsdoc.Tag) (st : State) :
  ts.kind (ast.td_node decl) = ts.ClassDeclaration ->
  jsdoc_transformer.isAmbient (ast.td_node decl) = false ->
  (forall clauses, ast.heritageClauses decl = Some clauses ->
     forallb (fun hc => negb (ts.SyntaxKind_eqb (ast.token hc) ts.ImplementsKeyword))
             clauses = true) ->
  jsdoc_transformer.maybeAddHeritageClauses docTags mtt decl st = (docTags, st).
Proof.
  intros Hclass Hamb Hclauses. unfold jsdoc_transformer.maybeAddHeritageClauses.
  destruct (ast.heritageClauses decl) as [clauses|]; [| reflexivity].
  specialize (Hclauses clauses eq_refl). rewrite Hclass. cbn [ts.SyntaxKind_eqb andb].
  generalize (existsb (fun hc => ts.SyntaxKind_eqb (ast.token hc) ts.ExtendsKeyword) clauses).
  intros super. 
  induction clauses as [|hc clauses IH]; [reflexivity |].
  cbn [forallb] in Hclauses. apply andb_true_iff in Hclauses as [Hhc Hrest].
  cbn [forEach]. unfold bind.
  unfold jsdoc_transformer.addHeritageClause at 1.
  rewrite Hhc, Hamb. cbn [andb negb].
  destruct (ast.types hc); cbn [ret]; now apply IH.
Qed.

(** [class G extends C {}], with a host that logs warnings. *)
Lemma class_extends_left_alone_witness :
  jsdoc_transformer.maybeAddHeritageClauses [jsdoc.tag "final"]
    (Examples.translator Examples.loggingHost) MoreExamples.classG Examples.initial
  = ([jsdoc.tag "final"], Examples.initial).
Proof.
  apply class_extends_left_alone; try reflexivity.
  intros clauses H. injection H as <-. reflexivity.
Defined.

(** ** The externs generator, continued *)
Module AppendFacts.

Lemma onlyAppends_refl (st : externs.State) : onlyAppends st st.
Proof.
  split; [exists ""; now rewrite JSFacts.append_nil_r |].
  exists []. rewrite app_nil_r. split; [reflexivity | constructor].
Qed.

Lemma onlyAppends_trans (a b c : externs.State) :
  onlyAppends a b -> onlyAppends b c -> onlyAppends a c.
Proof.
  intros [(t1 & H1) (e1 & D1 & F1)] [(t2 & H2) (e2 & D2 & F2)]. split.
  - exists (t1 ++ t2). now rewrite H2, H1, JSFacts.append_assoc.
  - exists (e1 ++ e2)%list. rewrite D2, D1, app_assoc. split; [reflexivity |].
    apply Forall_app. now split.
Qed.

Lemma emit_appends (str : string) (st : externs.State) : onlyAppends st (externs.emit str st).
Proof.
  split; [now exists str |]. exists []. cbn. rewrite app_nil_r.
  split; [reflexivity | constructor].
Qed.

Lemma error_appends (node : ts.Node) (messageText : string) (st : externs.State) :
  onlyAppends st (externs.error node messageText st).
Proof.
  split; [exists ""; cbn; now rewrite JSFacts.append_nil_r |].
  eexists. split; [reflexivity |]. constructor; [reflexivity | constructor].
Qed.

Lemma writeExternsVariable_appends (name : string) (namespace : list string)
    (value : option string) (st : externs.State) :
  onlyAppends st (externs.writeExternsVariable name namespace value st).
Proof.
  unfold externs.writeExternsVariable.
  eapply onlyAppends_trans; [| apply emit_appends].
  assert (H : onlyAppends st
                (externs.emit (JS.join "." (namespace ++ [name]))
                   (if (List.length namespace =? 0)%nat then externs.emit "var " st else st))).
  { eapply onlyAppends_trans; [| apply emit_appends].
    destruct (List.length namespace =? 0)%nat;
      [apply emit_appends | apply onlyAppends_refl]. }
  destruct value as [[|c v]|]; auto.
  eapply onlyAppends_trans; [exact H | apply emit_appends].
Qed.

Lemma writeExternsFunction_appends (name : ts.Node) (params namespace : list string)
    (st : externs.State) :
  onlyAppends st (externs.writeExternsFunction name params namespace st).
Proof.
  unfold externs.writeExternsFunction.
  destruct (negb (List.length namespace =? 0)%nat); [apply emit_appends |].
  eapply onlyAppends_trans; [| apply emit_appends].
  destruct (negb (ts.SyntaxKind_eqb (ts.kind name) ts.Identifier));
    [apply error_appends | apply onlyAppends_refl].
Qed.

Lemma emitFunctionType_appends (mtt : ModuleTypeTranslator)
    (jsdoc_toString : list jsdoc.Tag -> string)
    (decls : list ts.FunctionLikeDeclaration) (extraTags : list jsdoc.Tag) (st : externs.State) :
  onlyAppends st (snd (externs.emitFunctionType mtt jsdoc_toString decls extraTags st)).
Proof.
  unfold externs.emitFunctionType.
  destruct (getFunctionTypeJSDoc mtt decls []) as [tags paramNames]. cbn [snd].
  eapply onlyAppends_trans; apply emit_appends.
Qed.

(** A loop of appending steps appends. *)
Lemma fold_appends {A} (f : externs.State -> A -> externs.State) (xs : list A) :
  (forall st x, onlyAppends st (f st x)) ->
  forall st, onlyAppends st (fold_left f xs st).
Proof.
  intros H. induction xs as [|x xs IH]; intros st; [apply onlyAppends_refl |].
  cbn [fold_left]. eapply onlyAppends_trans; [apply H | apply IH].
Qed.

End AppendFacts.

Module DeclFacts.
Import externsDecl AppendFacts.

(** A loop keeps what every turn keeps. *)
Lemma forEach_keeps {A T} (P : State -> Prop) (body : T -> A -> M T)
    (xs : list A) :
  (forall acc x st, P st -> P (snd (body acc x st))) ->
  forall acc st, P st -> P (snd (forEach xs acc body st)).
Proof.
  intros H. induction xs as [|x xs IH]; intros acc st Hst; [exact Hst |].
  cbn [forEach]. rewrite MemberFacts.snd_bind. apply IH, H, Hst.
Qed.

Section Facts.
Context {SF : ts.SymbolFlags} {MF : ts.ModifierFlags}.
Variable checker : ts.TypeChecker.
Variable mtt : ModuleTypeTranslator.
Variable jsdoc_toString : list jsdoc.Tag -> string.
Variable getTypeAtLocation : ts.Node -> ts.Type_.
Variable typeToClosureOf : ts.Node -> ts.Type_ -> string.
Variable asTypeDeclaration : ts.Node -> ast.TypeDeclaration.
Variable declarationsOf : ts.Node -> list VariableDeclaration.
Variable asEnumDeclaration : ts.Node -> EnumDeclaration.
Variable basename : string -> string.

(** The heritage translation reports no externs.error. *)
Lemma maybeAddHeritageClauses_diagnostics (docTags : list jsdoc.Tag)
    (decl : ast.TypeDeclaration) (st : State) :
  diagnostics (snd (jsdoc_transformer.maybeAddHeritageClauses docTags mtt decl st))
    = diagnostics st.
Proof.
  unfold jsdoc_transformer.maybeAddHeritageClauses.
  destruct (ast.heritageClauses decl) as [clauses|]; [| reflexivity].
  apply (forEach_keeps (fun st' => diagnostics st' = diagnostics st)); [| reflexivity].
  intros acc hc st' Hst'. unfold jsdoc_transformer.addHeritageClause.
  destruct (ast.types hc) as [types|]; [| exact Hst'].
  destruct (_ && _ && _); [exact Hst' |].
  apply (forEach_keeps (fun st' => diagnostics st' = diagnostics st)); [| exact Hst'].
  clear Hst'. intros acc2 impl st2 Hst'. unfold jsdoc_transformer.addHeritageType.
  destruct (ts.getSymbolAtLocation (typeChecker mtt) (ast.expression impl)) as [sym|].
  - destruct (if ts.testFlags (ts.flags sym) ts.SymbolFlags_TypeAlias
              then ts.type_symbol (ts.getDeclaredTypeOfSymbol (typeChecker mtt) sym)
              else Some sym) as [alias|]; [| exact Hst'].
    repeat match goal with
           | |- context [if ?b then _ else _] => destruct b
           end; exact Hst'.
  - rewrite MemberFacts.snd_bind. cbn [ret snd].
    unfold mtt_debugWarn, transformerUtil.debugWarn.
    destruct (negb (logWarning (host mtt))); exact Hst'.
Qed.

Lemma emitJSDocType_appends (node : ts.Node) (additionalDocTag : option string)
    (type : option ts.Type_) (skipBlacklisted : bool) (st : externs.State) :
  onlyAppends st
    (emitJSDocType checker mtt getTypeAtLocation typeToClosureOf node additionalDocTag
       type skipBlacklisted st).
Proof.
  unfold emitJSDocType.
  match goal with |- context [if ?b then _ else _] => destruct b end.
  - destruct additionalDocTag as [[|c t]|];
      [apply onlyAppends_refl | apply emit_appends | apply onlyAppends_refl].
  - eapply onlyAppends_trans; [| apply emit_appends].
    destruct additionalDocTag as [[|c t]|]; try apply emit_appends.
    eapply onlyAppends_trans; apply emit_appends.
Qed.

Lemma writeExternsVariableDecl_appends (decl : VariableDeclaration)
    (namespace : list string) (st : externs.State) :
  onlyAppends st
    (writeExternsVariableDecl checker mtt getTypeAtLocation typeToClosureOf decl
       namespace st).
Proof.
  unfold writeExternsVariableDecl.
  destruct (ts.SyntaxKind_eqb _ _); [| apply error_appends].
  destruct (blacklisted _); [apply onlyAppends_refl |].
  eapply onlyAppends_trans; [| apply writeExternsVariable_appends].
  eapply onlyAppends_trans; [apply emitJSDocType_appends | apply emit_appends].
Qed.

Lemma writeExternsEnum_appends (decl : EnumDeclaration) (namespace : list string)
    (st : externs.State) :
  onlyAppends st (writeExternsEnum decl namespace st).
Proof.
  unfold writeExternsEnum.
  eapply onlyAppends_trans; [| apply fold_appends].
  - eapply onlyAppends_trans; [apply emit_appends | apply writeExternsVariable_appends].
  - intros st' member. unfold writeExternsEnumMember.
    match goal with |- context [match ?m with Some _ => _ | None => _ end] =>
      destruct m as [[|c name]|] end; try apply emit_appends.
    eapply onlyAppends_trans; [apply emit_appends | apply writeExternsVariable_appends].
Qed.

Lemma writeExternsTypeHead_appends (decl : ast.TypeDeclaration) (name : ts.Name)
    (namespace : list string) (st : externs.State) :
  onlyAppends st (fst (writeExternsTypeHead mtt jsdoc_toString decl name namespace st)).
Proof.
  unfold writeExternsTypeHead.
  pose proof (maybeAddHeritageClauses_diagnostics [] decl
                (mkState (externs.diagnostics st) [])) as Hd.
  destruct (jsdoc_transformer.maybeAddHeritageClauses [] mtt decl _) as [jsdocTags hst].
  cbn [snd diagnostics] in Hd. rewrite Hd.
  assert (Hst : externs.mkState (externs.output st) (externs.diagnostics st) = st) by now destruct st.
  rewrite Hst.
  destruct (ts.SyntaxKind_eqb (ts.kind (ast.td_node decl)) ts.ClassDeclaration).
  - destruct (filter _ (ast.members decl)) as [|firstCtor ctors] eqn:E.
    + cbn [fst]. eapply onlyAppends_trans;
        [apply emit_appends | apply writeExternsFunction_appends].
    + match goal with
      | |- context [if ?b then ?x else ?y] =>
          assert (H : onlyAppends st (snd (if b then x else y)))
            by (destruct b; apply emitFunctionType_appends);
          destruct (if b then x else y) as [paramNames st1]
      end.
      cbn [fst snd] in *.
      eapply onlyAppends_trans; [exact H | apply writeExternsFunction_appends].
  - cbn [fst]. eapply onlyAppends_trans;
      [apply emit_appends | apply writeExternsFunction_appends].
Qed.

Lemma writeExternsMember_appends (typeName : string) (namespace : list string)
    (st st' : externs.State) (methods methods' : Methods) (member : ast.ClassElement) :
  writeExternsMember checker mtt getTypeAtLocation typeToClosureOf typeName namespace
    (st, methods) member = Some (st', methods') ->
  onlyAppends st st'.
Proof.
  unfold writeExternsMember.
  destruct (ts.kind (ts.nd_node (ast.member member)));
    try (intros H; injection H as <- _; apply emit_appends).
  - intros H; injection H as <- _. apply onlyAppends_refl.
  - destruct (ts.nd_name (ast.member member)) as [name|]; [| discriminate].
    destruct (ts.SyntaxKind_eqb _ _); intros H; injection H as <- _;
      [| apply emit_appends].
    eapply onlyAppends_trans; [apply emitJSDocType_appends |].
    destruct (jsdoc_transformer.hasModifierFlag _ _); apply emit_appends.
  - destruct (ts.nd_name (ast.member member)) as [name|]; [| discriminate].
    destruct (ts.SyntaxKind_eqb _ _); intros H; injection H as <- _;
      [| apply emit_appends].
    eapply onlyAppends_trans; [apply emitJSDocType_appends |].
    destruct (jsdoc_transformer.hasModifierFlag _ _); apply emit_appends.
  - destruct (ts.nd_name (ast.member member)) as [name|]; [| discriminate].
    intros H; injection H as <- _. apply onlyAppends_refl.
  - destruct (ts.nd_name (ast.member member)) as [name|]; [| discriminate].
    intros H; injection H as <- _. apply onlyAppends_refl.
Qed.

Lemma writeExternsMembers_appends (typeName : string) (namespace : list string)
    (members : list ast.ClassElement) :
  forall st methods st' methods',
    writeExternsMembers checker mtt getTypeAtLocation typeToClosureOf typeName
      namespace members (st, methods) = Some (st', methods') ->
    onlyAppends st st'.
Proof.
  induction members as [|m ms IH]; intros st methods st' methods' H.
  - injection H as <- _. apply onlyAppends_refl.
  - cbn [writeExternsMembers] in H.
    destruct (writeExternsMember _ _ _ _ _ _ (st, methods) m) as [[st1 methods1]|] eqn:E;
      [| discriminate].
    eapply onlyAppends_trans; [eapply writeExternsMember_appends, E | eapply IH, H].
Qed.

Lemma writeExternsMethods_appends (name : ts.Name) (namespace : list string)
    (methods : list (list ast.ClassElement)) :
  forall st st',
    writeExternsMethods mtt jsdoc_toString name namespace methods st = Some st' ->
    onlyAppends st st'.
Proof.
  induction methods as [|variants rest IH]; intros st st' H.
  - injection H as <-. apply onlyAppends_refl.
  - cbn [writeExternsMethods] in H.
    destruct (writeExternsMethod mtt jsdoc_toString name namespace st variants)
      as [st1|] eqn:E; [| discriminate].
    eapply onlyAppends_trans; [| eapply IH, H].
    unfold writeExternsMethod in E.
    destruct variants as [|first others]; [discriminate |].
    match type of E with
    | context [if ?b then ?x else ?y] =>
        assert (Hx : onlyAppends st (snd (if b then x else y)))
          by (destruct b; apply emitFunctionType_appends);
        destruct (if b then x else y) as [parameterNames st2]
    end.
    cbn [snd] in Hx.
    destruct (ts.nd_name (ast.member first)) as [methodName|]; [| discriminate].
    injection E as <-.
    eapply onlyAppends_trans; [exact Hx | apply writeExternsFunction_appends].
Qed.

Lemma writeExternsType_appends (decl : ast.TypeDeclaration) (namespace : list string)
    (st st' : externs.State) (warnings : list ts.Diagnostic) :
  writeExternsType checker mtt jsdoc_toString getTypeAtLocation typeToClosureOf decl
    namespace st = Some (st', warnings) ->
  onlyAppends st st'.
Proof.
  unfold writeExternsType.
  destruct (ast.td_name decl) as [name|];
    [| intros H; injection H as <- _; apply error_appends].
  destruct (blacklisted _); [intros H; injection H as <- _; apply onlyAppends_refl |].
  destruct (externs.isFirstDeclaration checker (ast.td_node decl) (Some name)) as [isFirst|];
    [| discriminate].
  assert (Hhead : onlyAppends st
            (fst (if isFirst then writeExternsTypeHead mtt jsdoc_toString decl name namespace st
                  else (st, [])))).
  { destruct isFirst; [apply writeExternsTypeHead_appends | apply onlyAppends_refl]. }
  destruct (if isFirst then _ else _) as [st1 w1]. cbn [fst] in Hhead.
  destruct (writeExternsMembers _ _ _ _ _ _ _ (st1, [])) as [[st2 methods]|] eqn:E2;
    [| discriminate].
  destruct (writeExternsMethods _ _ _ _ _ st2) as [st3|] eqn:E3; [| discriminate].
  intros H; injection H as <- _.
  eapply onlyAppends_trans; [exact Hhead |].
  eapply onlyAppends_trans;
    [eapply writeExternsMembers_appends, E2 | eapply writeExternsMethods_appends, E3].
Qed.

Lemma otherStatement_appends (node : ts.Node) (namespace : list string) (st st' : externs.State) :
  otherStatement checker mtt jsdoc_toString getTypeAtLocation typeToClosureOf
    asTypeDeclaration declarationsOf asEnumDeclaration basename node namespace st = Some st' ->
  onlyAppends st st'.
Proof.
  unfold otherStatement.
  destruct (ts.kind node);
    try (intros H; injection H as <-; apply emit_appends).
  - destruct (writeExternsType _ _ _ _ _ _ _ st) as [[st1 w]|] eqn:E; [| discriminate].
    intros H; injection H as <-. eapply writeExternsType_appends, E.
  - destruct (writeExternsType _ _ _ _ _ _ _ st) as [[st1 w]|] eqn:E; [| discriminate].
    intros H; injection H as <-. eapply writeExternsType_appends, E.
  - intros H; injection H as <-.
    apply (fold_appends (fun st decl => writeExternsVariableDecl checker mtt
                           getTypeAtLocation typeToClosureOf decl namespace st)).
    intros st0 decl. apply writeExternsVariableDecl_appends.
  - intros H; injection H as <-. apply writeExternsEnum_appends.
Qed.

End Facts.
End DeclFacts.

Module VisitorFacts.
Import AppendFacts.

(** Induction on the statements the generator walks: a module declaration
    has its body, a block its statements. *)
Lemma Node_induction (P : externs.Node -> Prop) :
  (forall node name, P (externs.ModuleDeclaration node name None)) ->
  (forall node name body, P body -> P (externs.ModuleDeclaration node name (Some body))) ->
  (forall node statements, Forall P statements -> P (externs.ModuleBlock node statements)) ->
  (forall node name ref, P (externs.ImportEqualsDeclaration node name ref)) ->
  (forall fnDecl, P (externs.FunctionDeclaration fnDecl)) ->
  (forall decl, P (externs.TypeAliasDeclaration decl)) ->
  (forall node, P (externs.OtherStatement node)) ->
  forall node, P node.
Proof.
  intros H1 H2 H3 H4 H5 H6 H7. fix IH 1. intros [node name [body|] | node statements | | | |].
  - apply H2, IH.
  - apply H1.
  - apply H3. induction statements as [|s rest IHs]; constructor; [apply IH | exact IHs].
  - apply H4.
  - apply H5.
  - apply H6.
  - apply H7.
Qed.

(** A state reached by a chain of appending steps. *)
Ltac chain :=
  first [ apply onlyAppends_refl
        | eapply onlyAppends_trans;
          [| first [ apply writeExternsVariable_appends
                   | apply writeExternsFunction_appends
                   | apply emit_appends | apply error_appends ]];
          chain ].

Section Facts.
Variable typeChecker : ts.TypeChecker.
Variable mtt : ModuleTypeTranslator.
Variable jsdoc_toString : list jsdoc.Tag -> string.
Variable otherStatement : ts.Node -> list string -> externs.State -> option externs.State.
Hypothesis otherStatement_appends :
  forall node namespace st st',
    otherStatement node namespace st = Some st' -> onlyAppends st st'.

Lemma visitor_appends (node : externs.Node) :
  forall namespace st st',
    externs.visitor typeChecker mtt jsdoc_toString otherStatement node namespace st = Some st' ->
    onlyAppends st st'.
Proof.
  induction node as [node name | node name body IH | node statements IH | node name ref
                    | fnDecl | decl | node] using Node_induction;
    intros namespace st st' H; cbn [externs.visitor] in H.
  - (* a module declaration without body *)
    destruct (ts.kind (ts.name_node name));
      try (injection H as <-; apply error_appends).
    + destruct (String.eqb _ "global"); [injection H as <-; chain |].
      destruct (externs.isFirstDeclaration _ _ _) as [[|]|]; try discriminate;
        injection H as <-; chain.
    + unfold externs.declareModule in H.
      destruct (externs.isFirstDeclaration _ _ _) as [[|]|]; try discriminate;
        injection H as <-; chain.
  - (* a module declaration with a body *)
    destruct (ts.kind (ts.name_node name));
      try (injection H as <-; apply error_appends).
    + destruct (String.eqb _ "global"); [eapply IH, H |].
      destruct (externs.isFirstDeclaration _ _ _) as [[|]|]; try discriminate;
        (eapply onlyAppends_trans; [| eapply IH, H]); chain.
    + unfold externs.declareModule in H.
      destruct (externs.isFirstDeclaration _ _ _) as [[|]|]; try discriminate;
        (eapply onlyAppends_trans; [| eapply IH, H]); chain.
  - (* a block *)
    revert st H. induction IH as [|s rest Hs _ IHrest]; intros st H.
    + injection H as <-. apply onlyAppends_refl.
    + destruct (externs.visitor _ _ _ _ s namespace st) as [st1|] eqn:E; [| discriminate].
      eapply onlyAppends_trans; [eapply Hs, E | apply IHrest, H].
  - destruct (String.eqb _ "ng"); [injection H as <-; apply emit_appends |].
    destruct ref; injection H as <-; [apply emit_appends |].
    eapply onlyAppends_trans; [| apply writeExternsVariable_appends].
    destruct (_ =? 0)%nat; [apply emit_appends | apply onlyAppends_refl].
  - unfold externs.visitFunctionDeclaration in H.
    destruct (ts.fn_name fnDecl) as [name|]; [| injection H as <-; apply error_appends].
    destruct (ts.getSymbolAtLocation _ _) as [sym|]; [| discriminate].
    destruct (ts.declarations sym) as [declarations|]; [| discriminate].
    destruct (negb _); [injection H as <-; apply onlyAppends_refl |].
    match type of H with
    | context [externs.emitFunctionType ?a ?b ?c ?d ?e] =>
        pose proof (emitFunctionType_appends a b c d e) as Hx;
        destruct (externs.emitFunctionType a b c d e) as [params st1]
    end.
    injection H as <-. cbn [snd] in Hx.
    eapply onlyAppends_trans; [exact Hx | apply writeExternsFunction_appends].
  - injection H as <-. unfold externs.writeExternsTypeAlias.
    eapply onlyAppends_trans; [apply emit_appends | apply writeExternsVariable_appends].
  - eapply otherStatement_appends, H.
Qed.

Lemma visitStatements_appends {MF : ts.ModifierFlags} (isDts : bool)
    (statements : list externs.Node) :
  forall st st',
    externs.visitStatements typeChecker mtt jsdoc_toString otherStatement isDts statements st
      = Some st' ->
    onlyAppends st st'.
Proof.
  induction statements as [|s rest IH]; intros st st' H; cbn [externs.visitStatements] in H.
  - injection H as <-. apply onlyAppends_refl.
  - destruct (_ && _); [eapply IH, H |].
    destruct (externs.visitor _ _ _ _ s [] st) as [st1|] eqn:E; [| discriminate].
    eapply onlyAppends_trans; [eapply visitor_appends, E | eapply IH, H].
Qed.

End Facts.
End VisitorFacts.

(** X13: the visitor of the externs generator, with all the cases of its
    switch, only appends: when it returns, the output it started from is a
    prefix of the output, the diagnostics it started from are a prefix of
    the diagnostics, and every diagnostic it added is an error. *)
Theorem externs_visitor_only_appends {SF : ts.SymbolFlags} {MF : ts.ModifierFlags}
    (checker : ts.TypeChecker) (mtt : ModuleTypeTranslator)
    (jsdoc_toString : list jsdoc.Tag -> string)
    (getTypeAtLocation : ts.Node -> ts.Type_)
    (typeToClosureOf : ts.Node -> ts.Type_ -> string)
    (asTypeDeclaration : ts.Node -> ast.TypeDeclaration)
    (declarationsOf : ts.Node -> list externsDecl.VariableDeclaration)
    (asEnumDeclaration : ts.Node -> externsDecl.EnumDeclaration)
    (basename : string -> string)
    (node : externs.Node) (namespace : list string) (st st' : externs.State) :
  externs.visitor checker mtt jsdoc_toString
    (externsDecl.otherStatement checker mtt jsdoc_toString getTypeAtLocation typeToClosureOf
       asTypeDeclaration declarationsOf asEnumDeclaration basename)
    node namespace st = Some st' ->
  onlyAppends st st'.
Proof.
  apply VisitorFacts.visitor_appends.
  intros n ns s s'. apply DeclFacts.otherStatement_appends.
Qed.


(** The namespace [m] of the example file, visited after a first line. *)
Lemma externs_visitor_only_appends_witness :
  exists st',
    externs.visitor Examples.externsChecker Examples.externsTranslator Examples.printTags
      ExternsExamples.otherStatement ExternsExamples.namespaceM []
      (externs.mkState "// externs" []) = Some st' /\
    onlyAppends (externs.mkState "// externs" []) st'.
Proof.
  assert (Hrun : {st' | externs.visitor Examples.externsChecker Examples.externsTranslator
                          Examples.printTags ExternsExamples.otherStatement
                          ExternsExamples.namespaceM [] (externs.mkState "// externs" [])
                        = Some st'})
    by (eexists; reflexivity).
  destruct Hrun as [st' Hrun]. exists st'. split; [exact Hrun |].
  exact (externs_visitor_only_appends _ _ _ _ _ _ _ _ _ _ _ _ _ Hrun).
Defined.

(** X14: for a file that is not a declaration file, [createExterns] visits
    the top-level statements that carry the Ambient modifier flag and no
    other: statements without the flag contribute neither output nor
    diagnostics, whatever they are. *)
Theorem createExterns_skips_non_ambient {MF : ts.ModifierFlags}
    (checker : ts.TypeChecker) (mtt : ModuleTypeTranslator)
    (jsdoc_toString : list jsdoc.Tag -> string)
    (otherStatement : ts.Node -> list string -> externs.State -> option externs.State)
    (statements : list externs.Node) :
  let ambient s :=
    jsdoc_transformer.hasModifierFlag (externs.nodeOf s) ts.ModifierFlags_Ambient in
  externs.createExterns checker mtt jsdoc_toString otherStatement false statements =
  externs.createExterns checker mtt jsdoc_toString otherStatement true
    (filter ambient statements)
  /\
  externs.createExterns checker mtt jsdoc_toString otherStatement false
    (filter (fun s => negb (ambient s)) statements) = Some (externs.mkState "" []).
Proof.
  cbv zeta. unfold externs.createExterns. generalize (externs.mkState "" []).
  intros st. split.
  - revert st. induction statements as [|s rest IH]; intros st; [reflexivity |].
    cbn [externs.visitStatements filter negb andb].
    destruct (jsdoc_transformer.hasModifierFlag (externs.nodeOf s) ts.ModifierFlags_Ambient);
      cbn [negb externs.visitStatements andb]; [| apply IH].
    destruct (externs.visitor _ _ _ _ s [] st); [apply IH | reflexivity].
  - induction statements as [|s rest IH]; [reflexivity |].
    cbn [filter].
    destruct (jsdoc_transformer.hasModifierFlag (externs.nodeOf s) ts.ModifierFlags_Ambient)
      eqn:E; cbn [negb]; [exact IH |].
    cbn [externs.visitStatements]. rewrite E. exact IH.
Qed.

(** X15: the key [mangleImportName] computes for a module name is made of
    letters and underscores only; for a name that is not empty it is a
    valid Closure property name, and it is at least as long as the name. *)
Theorem mangleImportName_is_property_name (importName : string) :
  jsdoc_transformer.allChars
    (fun c => jsdoc_transformer.isLetter c || Ascii.eqb c "_")
    (externs.mangleImportName importName) = true /\
  String.length importName <= String.length (externs.mangleImportName importName) /\
  match importName with
  | EmptyString => externs.mangleImportName importName = ""
  | String _ _ =>
      jsdoc_transformer.isValidClosurePropertyName (externs.mangleImportName importName)
        = true
  end.
Proof.
  assert (Hall : forall s,
            jsdoc_transformer.allChars
              (fun c => jsdoc_transformer.isLetter c || Ascii.eqb c "_")
              (JS.replaceAllClass externs.notLetter "_" s) = true).
  { induction s as [|c s IH]; [reflexivity |].
    cbn [JS.replaceAllClass]. destruct (externs.notLetter c) eqn:E.
    - cbn. rewrite orb_true_r. exact IH.
    - cbn [jsdoc_transformer.allChars]. rewrite IH, andb_true_r.
      unfold externs.notLetter in E. unfold jsdoc_transformer.isLetter.
      apply negb_false_iff in E. cbv zeta in *. now rewrite E. }
  assert (Hweak : forall s,
            jsdoc_transformer.allChars
              (fun c => jsdoc_transformer.isLetter c || Ascii.eqb c "_") s = true ->
            jsdoc_transformer.allChars
              (fun d => jsdoc_transformer.isLetter d || jsdoc_transformer.isDigit d ||
                        Ascii.eqb d "_") s = true).
  { induction s as [|c s IH]; [reflexivity |].
    cbn [jsdoc_transformer.allChars]. rewrite !andb_true_iff. intros [Hc Hs].
    split; [| now apply IH].
    destruct (jsdoc_transformer.isLetter c); [reflexivity |].
    cbn in Hc. rewrite Hc. now rewrite orb_true_r. }
  unfold externs.mangleImportName. split; [apply Hall |]. split.
  - rewrite MangleFacts.replaceAllClass_length, MangleFacts.doubleFirst_length. lia.
  - destruct importName as [|c s]; [reflexivity |].
    specialize (Hall (JS.replaceFirstChar "_" "__" (String c s))).
    pose proof (MangleFacts.replaceAllClass_length externs.notLetter
                  (JS.replaceFirstChar "_" "__" (String c s))) as Hlen.
    rewrite MangleFacts.doubleFirst_length in Hlen.
    destruct (JS.replaceAllClass externs.notLetter "_"
                (JS.replaceFirstChar "_" "__" (String c s))) as [|d t];
      [cbn in Hlen; lia |].
    cbn [jsdoc_transformer.allChars] in Hall. apply andb_true_iff in Hall as [Hd Ht].
    unfold jsdoc_transformer.isValidClosurePropertyName. rewrite Hd. now apply Hweak.
Qed.

(** ** Enums *)
Module EmitFacts.

Lemma emit_emit (a b : string) (st : externs.State) :
  externs.emit b (externs.emit a st) = externs.emit (a ++ b) st.
Proof. unfold externs.emit. cbn. now rewrite JSFacts.append_assoc. Qed.

Lemma emits_emit (text : string) : emitsText (externs.emit text) text.
Proof. intros st. reflexivity. Qed.

Lemma emits_id : emitsText (fun st => st) "".
Proof. intros [o d]. unfold externs.emit. cbn. now rewrite JSFacts.append_nil_r. Qed.

Lemma emits_comp (f g : externs.State -> externs.State) (a b : string) :
  emitsText f a -> emitsText g b -> emitsText (fun st => g (f st)) (a ++ b).
Proof. intros Hf Hg st. now rewrite Hf, Hg, emit_emit. Qed.

(** The text of a variable declaration. *)
Lemma writeExternsVariable_emits (name : string) (namespace : list string)
    (value : option string) :
  emitsText (externs.writeExternsVariable name namespace value)
    ((match namespace with [] => "var " | _ => "" end) ++
     JS.join "." (namespace ++ [name]) ++
     (match value with Some (String _ _ as v) => " = " ++ v | _ => "" end) ++
     ";" ++ externs.LF).
Proof.
  intros st. unfold externs.writeExternsVariable.
  destruct namespace as [|n ns]; cbn [List.length Nat.eqb];
    destruct value as [[|c v]|]; rewrite !emit_emit;
    rewrite ?JSFacts.append_assoc, ?JSFacts.append_nil_r; reflexivity.
Qed.

(** A loop of steps that write texts writes their concatenation. *)
Lemma fold_emits {A} (f : externs.State -> A -> externs.State) (xs : list A)
    (pieces : list string) :
  Forall2 (fun x piece => emitsText (fun st => f st x) piece) xs pieces ->
  emitsText (fold_left f xs) (String.concat "" pieces).
Proof.
  intros H. induction H as [|x piece xs pieces Hx _ IH].
  - apply emits_id.
  - intros st. cbn [fold_left]. rewrite IH, Hx, emit_emit.
    destruct pieces; cbn [String.concat]; now rewrite ?JSFacts.append_nil_r.
Qed.

(** The names of the syntax kinds hold no slash and no star. *)
Lemma SyntaxKindName_plain (k : ts.SyntaxKind) :
  jsdoc_transformer.allChars (fun c => negb (Ascii.eqb c "/")) (ts.SyntaxKindName k) = true /\
  jsdoc_transformer.allChars (fun c => negb (Ascii.eqb c "*")) (ts.SyntaxKindName k) = true.
Proof. destruct k; split; reflexivity. Qed.

Lemma allChars_app (p : ascii -> bool) (a b : string) :
  jsdoc_transformer.allChars p (a ++ b) =
  jsdoc_transformer.allChars p a && jsdoc_transformer.allChars p b.
Proof.
  induction a as [|c a IH]; [reflexivity |].
  cbn [String.append jsdoc_transformer.allChars]. now rewrite IH, andb_assoc.
Qed.

End EmitFacts.

(** X16: [writeExternsEnum] writes, whatever the state and without any
    diagnostic, the declaration of the enum object followed by one piece for
    each member in order.  The piece is the declaration of a number
    constant under the enum's qualified name, or, for a member whose name
    is neither an identifier nor a string literal that is a valid property
    name, a note in a block comment whose body holds no comment delimiter. *)
Theorem writeExternsEnum_output (decl : externsDecl.EnumDeclaration)
    (namespace : list string) :
  let name := ts.getIdentifierText (externsDecl.ed_name decl) in
  let header :=
    externs.LF ++ "/** @const */" ++ externs.LF ++
    (match namespace with [] => "var " | _ => "" end) ++
    JS.join "." (namespace ++ [name]) ++ " = {};" ++ externs.LF in
  exists pieces,
    emitsText (externsDecl.writeExternsEnum decl namespace)
      (header ++ String.concat "" pieces) /\
    Forall2 (fun member piece =>
               (exists memberName,
                  memberName <> "" /\
                  piece = "/** @const {number} */" ++ externs.LF ++
                          JS.join "." ((namespace ++ [name]) ++ [memberName]) ++ ";" ++
                          externs.LF) \/
               (exists body,
                  delimiterFree body /\
                  piece = externs.LF ++ "/* TODO: " ++ body ++ " */" ++ externs.LF))
            (externsDecl.ed_members decl) pieces.
Proof.
  cbv zeta. unfold externsDecl.writeExternsEnum.
  set (name := ts.getIdentifierText (externsDecl.ed_name decl)).
  assert (Hstep : forall member, exists piece,
            emitsText (fun st => externsDecl.writeExternsEnumMember (namespace ++ [name]) st
                                   member) piece /\
            ((exists memberName,
                memberName <> "" /\
                piece = "/** @const {number} */" ++ externs.LF ++
                        JS.join "." ((namespace ++ [name]) ++ [memberName]) ++ ";" ++
                        externs.LF) \/
             (exists body,
                delimiterFree body /\
                piece = externs.LF ++ "/* TODO: " ++ body ++ " */" ++ externs.LF))).
  { intros member. unfold externsDecl.writeExternsEnumMember.
    assert (Hnoted : exists piece,
              emitsText (fun st =>
                externs.emit (externs.LF ++ "/* TODO: " ++
                              ts.SyntaxKindName (ts.kind (ts.name_node member)) ++ ": " ++
                              escapeForComment (ts.getText (ts.name_node member)) ++
                              " */" ++ externs.LF) st) piece /\
              ((exists memberName,
                  memberName <> "" /\
                  piece = "/** @const {number} */" ++ externs.LF ++
                          JS.join "." ((namespace ++ [name]) ++ [memberName]) ++ ";" ++
                          externs.LF) \/
               (exists body,
                  delimiterFree body /\
                  piece = externs.LF ++ "/* TODO: " ++ body ++ " */" ++ externs.LF))).
    { eexists. split; [intros st; reflexivity |]. right.
      exists (ts.SyntaxKindName (ts.kind (ts.name_node member)) ++ ": " ++
              escapeForComment (ts.getText (ts.name_node member))).
      split; [| now rewrite !JSFacts.append_assoc].
      rewrite <- JSFacts.append_assoc.
      destruct (EmitFacts.SyntaxKindName_plain (ts.kind (ts.name_node member))) as [H1 H2].
      apply MemberFacts.escaped_delimiterFree;
        rewrite EmitFacts.allChars_app; [rewrite H1 | rewrite H2]; reflexivity. }
    assert (Hdeclared : forall memberName, memberName <> "" -> exists piece,
              emitsText (fun st =>
                externs.writeExternsVariable memberName (namespace ++ [name]) None
                  (externs.emit ("/** @const {number} */" ++ externs.LF) st)) piece /\
              ((exists memberName,
                  memberName <> "" /\
                  piece = "/** @const {number} */" ++ externs.LF ++
                          JS.join "." ((namespace ++ [name]) ++ [memberName]) ++ ";" ++
                          externs.LF) \/
               (exists body,
                  delimiterFree body /\
                  piece = externs.LF ++ "/* TODO: " ++ body ++ " */" ++ externs.LF))).
    { intros memberName Hne. eexists. split.
      - intros st.
        rewrite (EmitFacts.writeExternsVariable_emits memberName (namespace ++ [name]) None),
          EmitFacts.emit_emit.
        reflexivity.
      - left. exists memberName. split; [exact Hne |].
        destruct (namespace ++ [name])%list eqn:E; [now destruct namespace |].
        rewrite !JSFacts.append_assoc. reflexivity. }
    destruct (ts.kind (ts.name_node member)); try exact Hnoted.
    - destruct (ts.getIdentifierText member) as [|c n]; [exact Hnoted |].
      apply Hdeclared. discriminate.
    - destruct (jsdoc_transformer.isValidClosurePropertyName (ts.name_text member));
        [| exact Hnoted].
      destruct (ts.name_text member) as [|c n]; [exact Hnoted |].
      apply Hdeclared. discriminate. }
  assert (Hall : exists pieces,
            Forall2 (fun member piece =>
                       emitsText (fun st => externsDecl.writeExternsEnumMember
                                              (namespace ++ [name]) st member) piece /\
                       ((exists memberName,
                           memberName <> "" /\
                           piece = "/** @const {number} */" ++ externs.LF ++
                                   JS.join "." ((namespace ++ [name]) ++ [memberName]) ++
                                   ";" ++ externs.LF) \/
                        (exists body,
                           delimiterFree body /\
                           piece = externs.LF ++ "/* TODO: " ++ body ++ " */" ++ externs.LF)))
                    (externsDecl.ed_members decl) pieces).
  { induction (externsDecl.ed_members decl) as [|m ms (pieces & IH)].
    - exists []. constructor.
    - destruct (Hstep m) as (piece & Hp). exists (piece :: pieces). now constructor. }
  destruct Hall as (pieces & Hall). exists pieces. split.
  - assert (Hfold : emitsText
                      (fold_left (externsDecl.writeExternsEnumMember (namespace ++ [name]))
                         (externsDecl.ed_members decl))
                      (String.concat "" pieces)).
    { apply EmitFacts.fold_emits. clear Hstep.
      induction Hall as [|m p ms ps [Hm _] _ IH]; constructor; auto. }
    intros st. rewrite Hfold.
    rewrite (EmitFacts.writeExternsVariable_emits name namespace (Some "{}")).
    rewrite !EmitFacts.emit_emit. f_equal.
    all: rewrite ?JSFacts.append_assoc; reflexivity.
  - clear Hstep. induction Hall as [|m p ms ps [_ Hm] _ IH]; constructor; auto.
Qed.

(** ** Classes and interfaces in externs *)
Module GroupFacts.
Import externsDecl.

Section Distinct.

Lemma distinct_snoc (l : list string) (x : string) :
  distinct (l ++ [x]) =
  if existsb (String.eqb x) (distinct l) then distinct l else (distinct l ++ [x])%list.
Proof. unfold distinct. now rewrite fold_left_app. Qed.

Lemma existsb_snoc {A} (p : A -> bool) (l : list A) (x : A) :
  existsb p (l ++ [x]) = existsb p l || p x.
Proof. rewrite existsb_app. cbn. now rewrite orb_false_r. Qed.

Lemma existsb_distinct (l : list string) :
  forall x, existsb (String.eqb x) (distinct l) = existsb (String.eqb x) l.
Proof.
  induction l as [|y l IH] using rev_ind; intros x; [reflexivity |].
  rewrite distinct_snoc, existsb_snoc.
  destruct (existsb (String.eqb y) (distinct l)) eqn:E.
  - rewrite IH. destruct (String.eqb x y) eqn:Exy; [| now rewrite orb_false_r].
    apply String.eqb_eq in Exy. subst y. rewrite <- IH, E. reflexivity.
  - rewrite existsb_snoc, IH. reflexivity.
Qed.

Lemma existsb_eqb_In (x : string) (l : list string) :
  existsb (String.eqb x) l = true <-> In x l.
Proof.
  rewrite existsb_exists. split.
  - intros (y & Hy & E). apply String.eqb_eq in E. now subst.
  - intros H. exists x. split; [exact H | apply String.eqb_refl].
Qed.

Lemma distinct_NoDup (l : list string) : NoDup (distinct l).
Proof.
  induction l as [|y l IH] using rev_ind; [constructor |].
  rewrite distinct_snoc. destruct (existsb (String.eqb y) (distinct l)) eqn:E; [exact IH |].
  apply NoDup_app; [exact IH | repeat constructor; intros [] |].
  intros x Hx [<- | []].
  apply existsb_eqb_In in Hx. congruence.
Qed.

End Distinct.

(** The update of the map when the key is there and when it is not. *)
Lemma addMethod_present (keys : list string) (f : string -> list ast.ClassElement)
    (s : string) (m : ast.ClassElement) :
  NoDup keys -> In s keys ->
  addMethod s m (map (fun k => (k, f k)) keys) =
  map (fun k => (k, if String.eqb k s then (f k ++ [m])%list else f k)) keys.
Proof.
  induction keys as [|k keys IH]; intros Hnd Hin; [destruct Hin |].
  inversion Hnd as [|? ? Hk Hnd']; subst.
  cbn [map addMethod]. destruct (String.eqb k s) eqn:E.
  - apply String.eqb_eq in E. subst k. f_equal.
    apply map_ext_in. intros k' Hk'.
    destruct (String.eqb k' s) eqn:E'; [| reflexivity].
    apply String.eqb_eq in E'. subst k'. contradiction.
  - f_equal. apply IH; [exact Hnd' |].
    destruct Hin as [-> | Hin]; [| exact Hin].
    rewrite String.eqb_refl in E. discriminate.
Qed.

Lemma addMethod_absent (keys : list string) (f : string -> list ast.ClassElement)
    (s : string) (m : ast.ClassElement) :
  ~ In s keys ->
  addMethod s m (map (fun k => (k, f k)) keys) =
  (map (fun k => (k, f k)) keys ++ [(s, [m])])%list.
Proof.
  induction keys as [|k keys IH]; intros Hin; [reflexivity |].
  cbn [map addMethod app]. destruct (String.eqb k s) eqn:E.
  - apply String.eqb_eq in E. subst k. elim Hin. now left.
  - f_equal. apply IH. intros H. apply Hin. now right.
Qed.

Section Groups.
Variable sig : ast.ClassElement -> string.

Lemma filter_snoc {A} (p : A -> bool) (l : list A) (x : A) :
  filter p (l ++ [x]) = (filter p l ++ if p x then [x] else [])%list.
Proof. rewrite filter_app. cbn. now destruct (p x). Qed.

Lemma groups_snoc (ms : list ast.ClassElement) (m : ast.ClassElement) :
  addMethod (sig m) m (groupedBy sig ms) = groupedBy sig (ms ++ [m]).
Proof.
  unfold groupedBy. rewrite map_app. cbn [map]. rewrite distinct_snoc.
  destruct (existsb (String.eqb (sig m)) (distinct (map sig ms))) eqn:E.
  - rewrite addMethod_present;
      [| apply distinct_NoDup | now apply existsb_eqb_In].
    apply map_ext. intros k. rewrite filter_snoc, (String.eqb_sym k (sig m)).
    destruct (String.eqb (sig m) k); [reflexivity | now rewrite app_nil_r].
  - assert (Hnot : ~ In (sig m) (distinct (map sig ms))).
    { intros H. apply existsb_eqb_In in H. congruence. }
    rewrite addMethod_absent by exact Hnot.
    rewrite map_app. cbn [map]. f_equal.
    + apply map_ext_in. intros k Hk. rewrite filter_snoc.
      destruct (String.eqb (sig m) k) eqn:Ek; [| now rewrite app_nil_r].
      apply String.eqb_eq in Ek. subst k. contradiction.
    + f_equal. f_equal. rewrite filter_snoc, String.eqb_refl.
      rewrite existsb_distinct in E.
      assert (Hnil : filter (fun m0 => String.eqb (sig m0) (sig m)) ms = []).
      { clear Hnot. induction ms as [|x xs IH]; [reflexivity |].
        cbn [map existsb] in E. apply orb_false_iff in E as [Ex Exs].
        cbn [filter]. rewrite String.eqb_sym, Ex. now apply IH. }
      now rewrite Hnil.
Qed.

Lemma groups_nonempty (ms : list ast.ClassElement) :
  Forall (fun entry => exists first rest, snd entry = first :: rest /\ In first ms)
         (groupedBy sig ms).
Proof.
  unfold groupedBy. apply Forall_forall. intros entry Hin.
  apply in_map_iff in Hin as (k & <- & Hk). cbn [snd].
  apply existsb_eqb_In in Hk. rewrite existsb_distinct in Hk.
  apply existsb_eqb_In, in_map_iff in Hk as (m & Hm & Hin).
  destruct (filter (fun m0 => String.eqb (sig m0) k) ms) as [|first rest] eqn:E.
  - assert (H : In m (filter (fun m0 => String.eqb (sig m0) k) ms)).
    { apply filter_In. split; [exact Hin |]. subst k. apply String.eqb_refl. }
    rewrite E in H. destruct H.
  - exists first, rest. split; [reflexivity |].
    assert (H : In first (filter (fun m0 => String.eqb (sig m0) k) ms))
      by (rewrite E; now left).
    now apply filter_In in H.
Qed.

End Groups.
End GroupFacts.

Module TypeFacts.
Import externsDecl.

Lemma string_length_app (a b : string) :
  String.length (a ++ b) = String.length a + String.length b.
Proof. induction a as [|c a IH]; cbn; [reflexivity | now rewrite IH]. Qed.

Section Facts.
Context {SF : ts.SymbolFlags} {MF : ts.ModifierFlags}.
Variable checker : ts.TypeChecker.
Variable mtt : ModuleTypeTranslator.
Variable jsdoc_toString : list jsdoc.Tag -> string.
Variable getTypeAtLocation : ts.Node -> ts.Type_.
Variable typeToClosureOf : ts.Node -> ts.Type_ -> string.

(** One member: the map changes for a method only. *)
Lemma writeExternsMember_methods (typeName : string) (namespace : list string)
    (st st' : externs.State) (methods methods' : Methods) (member : ast.ClassElement) :
  writeExternsMember checker mtt getTypeAtLocation typeToClosureOf typeName namespace
    (st, methods) member = Some (st', methods') ->
  methods' = if isMethodMember member
             then addMethod (methodSignature member) member methods else methods.
Proof.
  unfold writeExternsMember, isMethodMember, methodSignature.
  destruct (ts.kind (ts.nd_node (ast.member member)));
    try (intros H; injection H as _ <-; reflexivity);
    destruct (ts.nd_name (ast.member member)) as [name|]; try discriminate;
    try (intros H; injection H as _ <-; reflexivity);
    destruct (ts.SyntaxKind_eqb _ _); intros H; injection H as _ <-; reflexivity.
Qed.

(** The loop over the members leaves the methods grouped by signature. *)
Lemma writeExternsMembers_methods (typeName : string) (namespace : list string)
    (members : list ast.ClassElement) :
  forall seen st st' methods,
    writeExternsMembers checker mtt getTypeAtLocation typeToClosureOf typeName namespace
      members (st, groupedBy methodSignature seen) = Some (st', methods) ->
    methods = groupedBy methodSignature (seen ++ filter isMethodMember members).
Proof.
  induction members as [|m ms IH]; intros seen st st' methods H.
  - injection H as _ <-. cbn. now rewrite app_nil_r.
  - cbn [writeExternsMembers] in H.
    destruct (writeExternsMember _ _ _ _ _ _ _ m) as [[st1 methods1]|] eqn:E;
      [| discriminate].
    apply writeExternsMember_methods in E. cbn [filter].
    destruct (isMethodMember m).
    + rewrite GroupFacts.groups_snoc in E. subst methods1.
      apply IH in H. rewrite <- app_assoc in H. exact H.
    + subst methods1. now apply IH in H.
Qed.

(** The loop over the members returns when the properties and methods
    have names. *)
Lemma writeExternsMembers_returns (typeName : string) (namespace : list string)
    (members : list ast.ClassElement) :
  (forall m, In m members ->
     memberKinds.isProperty m || isMethodMember m = true ->
     ts.nd_name (ast.member m) <> None) ->
  forall acc, exists acc',
    writeExternsMembers checker mtt getTypeAtLocation typeToClosureOf typeName namespace
      members acc = Some acc'.
Proof.
  induction members as [|m ms IH]; intros Hnames acc; [now exists acc |].
  cbn [writeExternsMembers].
  assert (Hm : exists acc1,
            writeExternsMember checker mtt getTypeAtLocation typeToClosureOf typeName
              namespace acc m = Some acc1).
  { specialize (Hnames m (or_introl eq_refl)).
    unfold writeExternsMember, memberKinds.isProperty, memberKinds.kindOf,
      isMethodMember in *.
    destruct acc as [st methods].
    destruct (ts.kind (ts.nd_node (ast.member m))); try (eexists; reflexivity);
      (destruct (ts.nd_name (ast.member m)) as [name|];
       [| elim (Hnames eq_refl); reflexivity]);
      clear Hnames;
      try (eexists; reflexivity);
      destruct (ts.SyntaxKind_eqb (ts.kind (ts.name_node name)) ts.Identifier);
      eexists; reflexivity. }
  destruct Hm as (acc1 & ->). apply IH. intros m' Hin. apply Hnames. now right.
Qed.

(** The loop over the groups returns when every group has a first method
    and that method has a name. *)
Lemma writeExternsMethods_returns (name : ts.Name) (namespace : list string)
    (groups : list (list ast.ClassElement)) :
  Forall (fun variants => exists first rest,
            variants = first :: rest /\ ts.nd_name (ast.member first) <> None) groups ->
  forall st, exists st',
    writeExternsMethods mtt jsdoc_toString name namespace groups st = Some st'.
Proof.
  induction 1 as [|variants groups (first & rest & -> & Hname) _ IH]; intros st;
    [now exists st |].
  cbn [writeExternsMethods]. unfold writeExternsMethod at 1.
  destruct (if (1 <? _)%nat then _ else _) as [parameterNames st1].
  destruct (ts.nd_name (ast.member first)) as [methodName|]; [| now elim Hname].
  apply IH.
Qed.

End Facts.
End TypeFacts.

(** X17: the loop over the members of [writeExternsType], when it returns,
    leaves in the [methods] map the method signatures and declarations
    grouped by name and static-ness: one key for each distinct signature, in
    order of first occurrence, and under a key all the methods of that
    signature, in their order.  Properties, constructors and other members
    leave the map alone. *)
Theorem methods_grouped_by_signature {SF : ts.SymbolFlags} {MF : ts.ModifierFlags}
    (checker : ts.TypeChecker) (mtt : ModuleTypeTranslator)
    (getTypeAtLocation : ts.Node -> ts.Type_)
    (typeToClosureOf : ts.Node -> ts.Type_ -> string)
    (typeName : string) (namespace : list string) (members : list ast.ClassElement)
    (st st' : externs.State) (methods : externsDecl.Methods) :
  externsDecl.writeExternsMembers checker mtt getTypeAtLocation typeToClosureOf typeName
    namespace members (st, []) = Some (st', methods) ->
  let declared := filter isMethodMember members in
  map fst methods = distinct (map methodSignature declared) /\
  NoDup (map fst methods) /\
  Forall (fun entry =>
            snd entry = filter (fun m => String.eqb (methodSignature m) (fst entry)) declared /\
            snd entry <> [])
         methods.
Proof.
  intros H. cbv zeta.
  apply (TypeFacts.writeExternsMembers_methods checker mtt getTypeAtLocation typeToClosureOf
           typeName namespace members []) in H.
  cbn [app] in H. subst methods.
  set (declared := filter isMethodMember members).
  assert (Hkeys : map fst (groupedBy methodSignature declared) =
                  distinct (map methodSignature declared)).
  { unfold groupedBy. rewrite map_map. cbn [fst]. apply map_id. }
  split; [exact Hkeys |]. split; [rewrite Hkeys; apply GroupFacts.distinct_NoDup |].
  pose proof (GroupFacts.groups_nonempty methodSignature declared) as Hne.
  apply Forall_forall. intros entry Hin. split.
  - unfold groupedBy in Hin. apply in_map_iff in Hin as (k & <- & _). reflexivity.
  - rewrite Forall_forall in Hne. destruct (Hne entry Hin) as (first & rest & E & _).
    rewrite E. discriminate.
Qed.


(** The interface [P] of the example file: its two signatures of [f] are
    under one key, before the key of the static [g]. *)
Lemma methods_grouped_by_signature_witness :
  exists st' methods,
    externsDecl.writeExternsMembers Examples.externsChecker Examples.externsTranslator
      (fun _ => ts.mkType None) (fun _ _ => "?") "m.P" ["m"]
      (ast.members ExternsExamples.interfaceP) (externs.mkState "" [], [])
      = Some (st', methods) /\
    map fst methods = ["f$$$instance"; "g$$$static"] /\
    map snd methods = [[ExternsExamples.methodF1; ExternsExamples.methodF2];
                       [ExternsExamples.methodG]].
Proof.
  assert (Hrun : {r | externsDecl.writeExternsMembers Examples.externsChecker
                        Examples.externsTranslator (fun _ => ts.mkType None) (fun _ _ => "?")
                        "m.P" ["m"] (ast.members ExternsExamples.interfaceP)
                        (externs.mkState "" [], []) = Some r})
    by (eexists; reflexivity).
  destruct Hrun as [[st' methods] Hrun]. exists st', methods.
  split; [exact Hrun |].
  destruct (methods_grouped_by_signature _ _ _ _ _ _ _ _ _ _ Hrun) as (Hkeys & _ & Hall).
  split; [exact Hkeys |].
  destruct methods as [|[k1 v1] [|[k2 v2] [|? ?]]]; try discriminate Hkeys.
  injection Hkeys as -> ->.
  inversion Hall as [|? ? [H1 _] Hall']; subst.
  inversion Hall' as [|? ? [H2 _] _]; subst.
  cbn [snd fst] in H1, H2. cbn [map snd]. rewrite H1, H2. reflexivity.
Defined.

Module TypeMore.
Import externsDecl.

Lemma countChar_app (a : ascii) (s t : string) :
  externs.countChar a (s ++ t) = externs.countChar a s + externs.countChar a t.
Proof. induction s as [|c s IH]; cbn; [reflexivity | rewrite IH; lia]. Qed.

(** A qualified name holds a dot; no name of the blacklist does. *)
Lemma blacklisted_qualified (namespace : list string) (name : string) :
  namespace <> [] -> blacklisted (JS.join "." (namespace ++ [name])) = false.
Proof.
  intros Hns. destruct namespace as [|x rest]; [congruence |].
  assert (Hdot : 1 <= externs.countChar "." (JS.join "." ((x :: rest) ++ [name]))).
  { unfold JS.join. cbn [app String.concat].
    destruct (rest ++ [name])%list eqn:E; [now destruct rest |].
    rewrite !countChar_app. cbn. lia. }
  destruct (blacklisted _) eqn:B; [| reflexivity].
  unfold blacklisted, CLOSURE_EXTERNS_BLACKLIST in B. cbn [existsb] in B.
  repeat (apply orb_true_iff in B as [B | B];
          [apply String.eqb_eq in B; rewrite B in Hdot; cbn in Hdot; lia |]).
  discriminate.
Qed.

Section Facts.
Context {SF : ts.SymbolFlags} {MF : ts.ModifierFlags}.
Variable checker : ts.TypeChecker.
Variable mtt : ModuleTypeTranslator.
Variable jsdoc_toString : list jsdoc.Tag -> string.
Variable getTypeAtLocation : ts.Node -> ts.Type_.
Variable typeToClosureOf : ts.Node -> ts.Type_ -> string.

(** The steps that report nothing. *)
Lemma emitJSDocType_diagnostics (node : ts.Node) (additionalDocTag : option string)
    (type : option ts.Type_) (skipBlacklisted : bool) (st : externs.State) :
  externs.diagnostics
    (emitJSDocType checker mtt getTypeAtLocation typeToClosureOf node additionalDocTag type
       skipBlacklisted st) = externs.diagnostics st.
Proof.
  unfold emitJSDocType.
  match goal with |- context [if ?b then _ else _] => destruct b end;
    destruct additionalDocTag as [[|c t]|]; reflexivity.
Qed.

Lemma emitFunctionType_diagnostics (decls : list ts.FunctionLikeDeclaration)
    (extraTags : list jsdoc.Tag) (st : externs.State) :
  externs.diagnostics (snd (externs.emitFunctionType mtt jsdoc_toString decls extraTags st))
    = externs.diagnostics st.
Proof.
  unfold externs.emitFunctionType.
  destruct (getFunctionTypeJSDoc mtt decls []) as [tags paramNames]. reflexivity.
Qed.

Lemma writeExternsFunction_diagnostics (name : ts.Node) (params namespace : list string)
    (st : externs.State) :
  ts.kind name = ts.Identifier \/ namespace <> [] ->
  externs.diagnostics (externs.writeExternsFunction name params namespace st)
    = externs.diagnostics st.
Proof.
  intros H. unfold externs.writeExternsFunction.
  destruct namespace as [|x rest]; [| reflexivity].
  destruct H as [H | H]; [| congruence]. rewrite H. reflexivity.
Qed.

(** The function the declaration of the type ends with. *)
Lemma writeExternsTypeHead_function (decl : ast.TypeDeclaration) (name : ts.Name)
    (namespace : list string) (st : externs.State) :
  exists params st1,
    fst (writeExternsTypeHead mtt jsdoc_toString decl name namespace st) =
      externs.writeExternsFunction (ts.name_node name) params namespace st1 /\
    onlyAppends st st1 /\
    externs.diagnostics st1 = externs.diagnostics st.
Proof.
  unfold writeExternsTypeHead.
  pose proof (DeclFacts.maybeAddHeritageClauses_diagnostics mtt [] decl
                (mkState (externs.diagnostics st) [])) as Hd.
  destruct (jsdoc_transformer.maybeAddHeritageClauses [] mtt decl _) as [jsdocTags hst].
  cbn [snd diagnostics] in Hd. rewrite Hd.
  assert (Hst : externs.mkState (externs.output st) (externs.diagnostics st) = st)
    by now destruct st.
  rewrite Hst.
  destruct (ts.SyntaxKind_eqb (ts.kind (ast.td_node decl)) ts.ClassDeclaration).
  - destruct (filter _ (ast.members decl)) as [|firstCtor ctors].
    + cbn [fst]. eexists _, _. split; [reflexivity |].
      split; [apply AppendFacts.emit_appends | reflexivity].
    + match goal with
      | |- context [if ?b then ?x else ?y] =>
          assert (H : onlyAppends st (snd (if b then x else y)) /\
                      externs.diagnostics (snd (if b then x else y)) = externs.diagnostics st)
            by (destruct b; split;
                first [apply AppendFacts.emitFunctionType_appends
                      | apply emitFunctionType_diagnostics]);
          destruct (if b then x else y) as [paramNames st1]
      end.
      cbn [fst snd] in *. eexists _, _. split; [reflexivity | exact H].
  - cbn [fst]. eexists _, _. split; [reflexivity |].
    split; [apply AppendFacts.emit_appends | reflexivity].
Qed.

Lemma writeExternsMembers_diagnostics (typeName : string) (namespace : list string)
    (members : list ast.ClassElement) :
  forall st methods st' methods',
    writeExternsMembers checker mtt getTypeAtLocation typeToClosureOf typeName namespace
      members (st, methods) = Some (st', methods') ->
    externs.diagnostics st' = externs.diagnostics st.
Proof.
  induction members as [|m ms IH]; intros st methods st' methods' H.
  - now injection H as <- _.
  - cbn [writeExternsMembers] in H.
    destruct (writeExternsMember _ _ _ _ _ _ (st, methods) m) as [[st1 methods1]|] eqn:E;
      [| discriminate].
    apply IH in H. rewrite H. clear H IH.
    unfold writeExternsMember in E.
    destruct (ts.kind (ts.nd_node (ast.member m)));
      try (injection E as <- _; reflexivity);
      destruct (ts.nd_name (ast.member m)) as [name|]; try discriminate;
      try (injection E as <- _; reflexivity);
      destruct (ts.SyntaxKind_eqb (ts.kind (ts.name_node name)) ts.Identifier);
      injection E as <- _; try reflexivity;
      destruct (jsdoc_transformer.hasModifierFlag _ _); cbn [externs.emit externs.diagnostics];
      apply emitJSDocType_diagnostics.
Qed.

Lemma writeExternsMethods_diagnostics (name : ts.Name) (namespace : list string)
    (groups : list (list ast.ClassElement)) :
  forall st st',
    writeExternsMethods mtt jsdoc_toString name namespace groups st = Some st' ->
    externs.diagnostics st' = externs.diagnostics st.
Proof.
  induction groups as [|variants rest IH]; intros st st' H.
  - now injection H as <-.
  - cbn [writeExternsMethods] in H.
    destruct (writeExternsMethod mtt jsdoc_toString name namespace st variants)
      as [st1|] eqn:E; [| discriminate].
    apply IH in H. rewrite H. clear H IH.
    unfold writeExternsMethod in E.
    destruct variants as [|first others]; [discriminate |].
    match type of E with
    | context [if ?b then ?x else ?y] =>
        assert (Hx : externs.diagnostics (snd (if b then x else y)) = externs.diagnostics st)
          by (destruct b; apply emitFunctionType_diagnostics);
        destruct (if b then x else y) as [parameterNames st2]
    end.
    cbn [snd] in Hx.
    destruct (ts.nd_name (ast.member first)) as [methodName|]; [| discriminate].
    injection E as <-. rewrite writeExternsFunction_diagnostics; [exact Hx |].
    right. destruct (negb _); now destruct namespace.
Qed.

End Facts.
End TypeMore.

(** X18: for a class declaration that declares a constructor,
    [writeExternsType] writes the same output and the same diagnostics
    whatever the heritage clauses of the class: the tags
    [maybeAddHeritageClauses] computes for them are not written. *)
Theorem constructor_class_drops_heritage_tags {SF : ts.SymbolFlags} {MF : ts.ModifierFlags}
    (checker : ts.TypeChecker) (mtt : ModuleTypeTranslator)
    (jsdoc_toString : list jsdoc.Tag -> string)
    (getTypeAtLocation : ts.Node -> ts.Type_)
    (typeToClosureOf : ts.Node -> ts.Type_ -> string)
    (decl : ast.TypeDeclaration) (heritageClauses : option (list ast.HeritageClause))
    (namespace : list string) (st : externs.State) :
  ts.kind (ast.td_node decl) = ts.ClassDeclaration ->
  existsb memberKinds.isConstructor (ast.members decl) = true ->
  option_map fst
    (externsDecl.writeExternsType checker mtt jsdoc_toString getTypeAtLocation
       typeToClosureOf (withHeritageClauses decl heritageClauses) namespace st) =
  option_map fst
    (externsDecl.writeExternsType checker mtt jsdoc_toString getTypeAtLocation
       typeToClosureOf decl namespace st).
Proof.
  intros Hclass Hctor.
  assert (Hhead : forall name,
            fst (externsDecl.writeExternsTypeHead mtt jsdoc_toString
                   (withHeritageClauses decl heritageClauses) name namespace st) =
            fst (externsDecl.writeExternsTypeHead mtt jsdoc_toString decl name namespace st)).
  { intros name. unfold externsDecl.writeExternsTypeHead.
    pose proof (DeclFacts.maybeAddHeritageClauses_diagnostics mtt [] decl
                  (mkState (externs.diagnostics st) [])) as Hd.
    pose proof (DeclFacts.maybeAddHeritageClauses_diagnostics mtt []
                  (withHeritageClauses decl heritageClauses)
                  (mkState (externs.diagnostics st) [])) as Hd'.
    destruct (jsdoc_transformer.maybeAddHeritageClauses [] mtt decl _) as [tags hst].
    destruct (jsdoc_transformer.maybeAddHeritageClauses [] mtt
                (withHeritageClauses decl heritageClauses) _) as [tags' hst'].
    cbn [snd diagnostics] in Hd, Hd'. rewrite Hd, Hd'.
    cbn [withHeritageClauses ast.td_node ast.members]. rewrite Hclass.
    cbn [ts.SyntaxKind_eqb].
    unfold memberKinds.isConstructor, memberKinds.kindOf in Hctor.
    destruct (filter _ (ast.members decl)) as [|firstCtor ctors] eqn:E.
    - apply BlockFacts.filter_nil_existsb in E. congruence.
    - destruct (if (1 <? _)%nat then _ else _) as [paramNames st1]. reflexivity. }
  unfold externsDecl.writeExternsType.
  cbn [withHeritageClauses ast.td_name ast.td_node ast.members].
  destruct (ast.td_name decl) as [name|]; [| reflexivity].
  destruct (externsDecl.blacklisted _); [reflexivity |].
  destruct (externs.isFirstDeclaration checker (ast.td_node decl) (Some name))
    as [[|]|]; [| reflexivity | reflexivity].
  specialize (Hhead name).
  change (ast.mkTypeDeclaration (ast.td_node decl) (ast.td_name decl)
            (ast.typeParameters decl) heritageClauses (ast.members decl))
    with (withHeritageClauses decl heritageClauses).
  destruct (externsDecl.writeExternsTypeHead mtt jsdoc_toString
              (withHeritageClauses decl heritageClauses) name namespace st) as [s1 w1].
  destruct (externsDecl.writeExternsTypeHead mtt jsdoc_toString decl name namespace st)
    as [s2 w2].
  cbn [fst] in Hhead. subst s2.
  destruct (externsDecl.writeExternsMembers _ _ _ _ _ _ _ (s1, [])) as [[s3 methods]|];
    [| reflexivity].
  destruct (externsDecl.writeExternsMethods _ _ _ _ _ s3); reflexivity.
Qed.

(** [declare class Q extends C { constructor(a: number); }] is written as
    the class without its [extends] clause is. *)
Lemma constructor_class_drops_heritage_tags_witness :
  option_map fst
    (externsDecl.writeExternsType TypeExamples.checker TypeExamples.translator
       Examples.printTags (fun _ => ts.mkType None) (fun _ _ => "?")
       (withHeritageClauses TypeExamples.classQ None) [] (externs.mkState "" [])) =
  option_map fst
    (externsDecl.writeExternsType TypeExamples.checker TypeExamples.translator
       Examples.printTags (fun _ => ts.mkType None) (fun _ _ => "?")
       TypeExamples.classQ [] (externs.mkState "" [])).
Proof.
  apply constructor_class_drops_heritage_tags; reflexivity.
Defined.


(** X19: [writeExternsType] compares the blacklist with the qualified
    name of the type.  Inside a namespace the first declaration of a named
    type is therefore always written, also when its own name is on the
    blacklist: the output grows by a text that is not empty. *)
Theorem type_in_namespace_is_declared {SF : ts.SymbolFlags} {MF : ts.ModifierFlags}
    (checker : ts.TypeChecker) (mtt : ModuleTypeTranslator)
    (jsdoc_toString : list jsdoc.Tag -> string)
    (getTypeAtLocation : ts.Node -> ts.Type_)
    (typeToClosureOf : ts.Node -> ts.Type_ -> string)
    (decl : ast.TypeDeclaration) (name : ts.Name) (namespace : list string)
    (st st' : externs.State) (warnings : list ts.Diagnostic) :
  ast.td_name decl = Some name ->
  namespace <> [] ->
  externs.isFirstDeclaration checker (ast.td_node decl) (Some name) = Some true ->
  externsDecl.writeExternsType checker mtt jsdoc_toString getTypeAtLocation typeToClosureOf
    decl namespace st = Some (st', warnings) ->
  exists text, text <> "" /\ externs.output st' = externs.output st ++ text.
Proof.
  intros Hname Hns Hfirst. unfold externsDecl.writeExternsType.
  rewrite Hname, TypeMore.blacklisted_qualified, Hfirst by exact Hns.
  destruct (TypeMore.writeExternsTypeHead_function mtt jsdoc_toString decl name namespace st)
    as (params & st1 & Hhead & [(t1 & Ht1) _] & _).
  destruct (externsDecl.writeExternsTypeHead mtt jsdoc_toString decl name namespace st)
    as [s1 w1]. cbn [fst] in Hhead. subst s1.
  destruct (externsDecl.writeExternsMembers _ _ _ _ _ _ _ _) as [[s2 methods]|] eqn:E2;
    [| discriminate].
  destruct (externsDecl.writeExternsMethods _ _ _ _ _ s2) as [s3|] eqn:E3; [| discriminate].
  intros H. injection H as <- _.
  apply DeclFacts.writeExternsMembers_appends in E2 as [(t2 & Ht2) _].
  apply DeclFacts.writeExternsMethods_appends in E3 as [(t3 & Ht3) _].
  rewrite Ht3, Ht2. unfold externs.writeExternsFunction.
  destruct namespace as [|x rest]; [congruence |].
  cbn [List.length Nat.eqb negb externs.emit externs.output]. rewrite Ht1.
  eexists. split; [| rewrite !JSFacts.append_assoc; reflexivity].
  intros Hnil. apply (f_equal String.length) in Hnil.
  rewrite !TypeFacts.string_length_app in Hnil. cbn in Hnil. lia.
Qed.

(** [interface Symbol {}] inside [namespace m]. *)
Lemma type_in_namespace_is_declared_witness :
  exists st' text,
    option_map fst
      (externsDecl.writeExternsType TypeExamples.checker TypeExamples.translator
         Examples.printTags (fun _ => ts.mkType None) (fun _ _ => "?")
         TypeExamples.interfaceNamedSymbol ["m"] (externs.mkState "" [])) = Some st' /\
    text <> "" /\ externs.output st' = "" ++ text.
Proof.
  assert (Hrun : {r | externsDecl.writeExternsType TypeExamples.checker
                        TypeExamples.translator Examples.printTags (fun _ => ts.mkType None)
                        (fun _ _ => "?") TypeExamples.interfaceNamedSymbol ["m"]
                        (externs.mkState "" []) = Some r})
    by (eexists; reflexivity).
  destruct Hrun as [[st' warnings] Hrun].
  destruct (type_in_namespace_is_declared TypeExamples.checker _ _ _ _
              TypeExamples.interfaceNamedSymbol
              (Examples.ident 261 "Symbol") ["m"] _ _ _ eq_refl
              ltac:(discriminate) eq_refl Hrun) as (text & Hne & Hout).
  exists st', text. rewrite Hrun. repeat split; assumption.
Defined.

(** X20: [writeExternsType] returns, without a TypeError, when the name of
    the declaration has a symbol and every property and method of the
    declaration has a name. *)
Theorem writeExternsType_returns {SF : ts.SymbolFlags} {MF : ts.ModifierFlags}
    (checker : ts.TypeChecker) (mtt : ModuleTypeTranslator)
    (jsdoc_toString : list jsdoc.Tag -> string)
    (getTypeAtLocation : ts.Node -> ts.Type_)
    (typeToClosureOf : ts.Node -> ts.Type_ -> string)
    (decl : ast.TypeDeclaration) (namespace : list string) (st : externs.State) :
  (forall name, ast.td_name decl = Some name ->
     ts.getSymbolAtLocation checker (ts.name_node name) <> None) ->
  (forall m, In m (ast.members decl) ->
     memberKinds.isProperty m || isMethodMember m = true ->
     ts.nd_name (ast.member m) <> None) ->
  exists st' warnings,
    externsDecl.writeExternsType checker mtt jsdoc_toString getTypeAtLocation typeToClosureOf
      decl namespace st = Some (st', warnings).
Proof.
  intros Hsym Hnames. unfold externsDecl.writeExternsType.
  destruct (ast.td_name decl) as [name|]; [| eexists _, _; reflexivity].
  destruct (externsDecl.blacklisted _); [eexists _, _; reflexivity |].
  specialize (Hsym name eq_refl).
  assert (Hfirst : exists isFirst,
            externs.isFirstDeclaration checker (ast.td_node decl) (Some name) = Some isFirst).
  { unfold externs.isFirstDeclaration.
    destruct (ts.getSymbolAtLocation checker (ts.name_node name)) as [sym|];
      [| now elim Hsym].
    destruct (ts.declarations sym) as [declarations|]; [| eexists; reflexivity].
    destruct (_ <? 2)%nat; [eexists; reflexivity |].
    destruct declarations; eexists; reflexivity. }
  destruct Hfirst as (isFirst & ->).
  destruct (if isFirst then _ else _) as [st1 warnings].
  destruct (TypeFacts.writeExternsMembers_returns checker mtt getTypeAtLocation
              typeToClosureOf
              (JS.join "." (namespace ++ [ts.getText (ts.name_node name)])) namespace
              (ast.members decl) Hnames (st1, [])) as ([st2 methods] & Hrun).
  rewrite Hrun.
  apply (TypeFacts.writeExternsMembers_methods checker mtt getTypeAtLocation typeToClosureOf
           _ namespace (ast.members decl) []) in Hrun.
  cbn [app] in Hrun. subst methods.
  destruct (TypeFacts.writeExternsMethods_returns mtt jsdoc_toString name namespace
              (map snd (groupedBy methodSignature (filter isMethodMember (ast.members decl)))))
    with (st := st2) as (st3 & ->); [| eexists _, _; reflexivity].
  apply Forall_forall. intros variants Hin.
  apply in_map_iff in Hin as (entry & <- & Hin).
  pose proof (GroupFacts.groups_nonempty methodSignature
                (filter isMethodMember (ast.members decl))) as Hne.
  rewrite Forall_forall in Hne. destruct (Hne entry Hin) as (first & rest & E & Hfirst).
  exists first, rest. split; [exact E |].
  apply filter_In in Hfirst as [Hmem Hmethod].
  apply Hnames; [exact Hmem |]. rewrite Hmethod. apply orb_true_r.
Qed.

(** The interface [P] of the example file. *)
Lemma writeExternsType_returns_witness :
  exists st' warnings,
    externsDecl.writeExternsType Examples.externsChecker Examples.externsTranslator
      Examples.printTags (fun _ => ts.mkType None) (fun _ _ => "?")
      ExternsExamples.interfaceP ["m"] (externs.mkState "" []) = Some (st', warnings).
Proof.
  apply writeExternsType_returns.
  - intros name _. cbn. destruct (String.eqb _ _); discriminate.
  - intros m Hin _. cbn in Hin.
    repeat destruct Hin as [<- | Hin]; try discriminate. destruct Hin.
Defined.

(** X21: the only errors [writeExternsType] reports are those for a type
    without a name and for a type at the top level whose name is not an
    identifier.  For a type named by an identifier, or inside a namespace,
    the diagnostics it returns with are those it started with. *)
Theorem writeExternsType_reports_nothing {SF : ts.SymbolFlags} {MF : ts.ModifierFlags}
    (checker : ts.TypeChecker) (mtt : ModuleTypeTranslator)
    (jsdoc_toString : list jsdoc.Tag -> string)
    (getTypeAtLocation : ts.Node -> ts.Type_)
    (typeToClosureOf : ts.Node -> ts.Type_ -> string)
    (decl : ast.TypeDeclaration) (name : ts.Name) (namespace : list string)
    (st st' : externs.State) (warnings : list ts.Diagnostic) :
  ast.td_name decl = Some name ->
  ts.kind (ts.name_node name) = ts.Identifier \/ namespace <> [] ->
  externsDecl.writeExternsType checker mtt jsdoc_toString getTypeAtLocation typeToClosureOf
    decl namespace st = Some (st', warnings) ->
  externs.diagnostics st' = externs.diagnostics st.
Proof.
  intros Hname Hid. unfold externsDecl.writeExternsType. rewrite Hname.
  destruct (externsDecl.blacklisted _); [intros H; now injection H as <- _ |].
  destruct (externs.isFirstDeclaration checker (ast.td_node decl) (Some name))
    as [isFirst|]; [| discriminate].
  assert (Hhead : externs.diagnostics
                    (fst (if isFirst
                          then externsDecl.writeExternsTypeHead mtt jsdoc_toString decl name
                                 namespace st
                          else (st, []))) = externs.diagnostics st).
  { destruct isFirst; [| reflexivity].
    destruct (TypeMore.writeExternsTypeHead_function mtt jsdoc_toString decl name
                namespace st) as (params & st1 & -> & _ & Hd).
    rewrite TypeMore.writeExternsFunction_diagnostics; assumption. }
  destruct (if isFirst then _ else _) as [st1 w1]. cbn [fst] in Hhead.
  destruct (externsDecl.writeExternsMembers _ _ _ _ _ _ _ _) as [[st2 methods]|] eqn:E2;
    [| discriminate].
  destruct (externsDecl.writeExternsMethods _ _ _ _ _ st2) as [st3|] eqn:E3; [| discriminate].
  intros H. injection H as <- _.
  apply TypeMore.writeExternsMembers_diagnostics in E2.
  apply TypeMore.writeExternsMethods_diagnostics in E3.
  congruence.
Qed.

(** The interface [P] of the example file, written after an error. *)
Lemma writeExternsType_reports_nothing_witness :
  exists st',
    option_map fst
      (externsDecl.writeExternsType Examples.externsChecker Examples.externsTranslator
         Examples.printTags (fun _ => ts.mkType None) (fun _ _ => "?")
         ExternsExamples.interfaceP []
         (externs.error (ast.td_node ExternsExamples.interfaceP) "earlier"
            (externs.mkState "" []))) = Some st' /\
    List.length (externs.diagnostics st') = 1.
Proof.
  assert (Hrun : {r | externsDecl.writeExternsType Examples.externsChecker
                        Examples.externsTranslator Examples.printTags
                        (fun _ => ts.mkType None) (fun _ _ => "?")
                        ExternsExamples.interfaceP []
                        (externs.error (ast.td_node ExternsExamples.interfaceP) "earlier"
                           (externs.mkState "" [])) = Some r})
    by (eexists; reflexivity).
  destruct Hrun as [[st' warnings] Hrun]. exists st'. rewrite Hrun.
  split; [reflexivity |].
  rewrite (writeExternsType_reports_nothing Examples.externsChecker _ _ _ _
             ExternsExamples.interfaceP
             (Examples.ident 213 "P") [] _ _ _ eq_refl (or_introl eq_refl) Hrun).
  reflexivity.
Defined.

(** ** The result of createExterns *)

(** X22: every diagnostic in the result of [createExterns] is an error:
    the generator starts from no diagnostic and its visitor adds errors only. *)
Theorem createExterns_reports_errors_only {SF : ts.SymbolFlags} {MF : ts.ModifierFlags}
    (checker : ts.TypeChecker) (mtt : ModuleTypeTranslator)
    (jsdoc_toString : list jsdoc.Tag -> string)
    (getTypeAtLocation : ts.Node -> ts.Type_)
    (typeToClosureOf : ts.Node -> ts.Type_ -> string)
    (asTypeDeclaration : ts.Node -> ast.TypeDeclaration)
    (declarationsOf : ts.Node -> list externsDecl.VariableDeclaration)
    (asEnumDeclaration : ts.Node -> externsDecl.EnumDeclaration)
    (basename : string -> string)
    (isDts : bool) (statements : list externs.Node) (result : externs.State) :
  externs.createExterns checker mtt jsdoc_toString
    (externsDecl.otherStatement checker mtt jsdoc_toString getTypeAtLocation typeToClosureOf
       asTypeDeclaration declarationsOf asEnumDeclaration basename)
    isDts statements = Some result ->
  Forall (fun d => ts.category d = ts.Error) (externs.diagnostics result).
Proof.
  intros H. unfold externs.createExterns in H.
  apply VisitorFacts.visitStatements_appends in H as [_ (errors & -> & Herrors)].
  - exact Herrors.
  - intros n ns s s'. apply DeclFacts.otherStatement_appends.
Qed.

(** The example file, with a function without a name after its namespace. *)
Lemma createExterns_reports_errors_only_witness :
  exists result,
    externs.createExterns Examples.externsChecker Examples.externsTranslator
      Examples.printTags ExternsExamples.otherStatement true
      [ExternsExamples.namespaceM;
       externs.FunctionDeclaration
         (ts.mkFunctionLikeDeclaration
            (Examples.node 270 ts.FunctionDeclaration 2 "declare function();") None [])]
      = Some result /\
    List.length (externs.diagnostics result) = 1 /\
    Forall (fun d => ts.category d = ts.Error) (externs.diagnostics result).
Proof.
  assert (Hrun : {r | externs.createExterns Examples.externsChecker
                        Examples.externsTranslator Examples.printTags
                        ExternsExamples.otherStatement true
                        [ExternsExamples.namespaceM;
                         externs.FunctionDeclaration
                           (ts.mkFunctionLikeDeclaration
                              (Examples.node 270 ts.FunctionDeclaration 2
                                 "declare function();") None [])] = Some r})
    by (eexists; reflexivity).
  destruct Hrun as [result Hrun]. exists result. split; [exact Hrun |].
  split; [injection Hrun as <-; reflexivity |].
  exact (createExterns_reports_errors_only _ _ _ _ _ _ _ _ _ _ _ _ Hrun).
Defined.
